(** * rpos-system: the persistence layer ([db.js]) and the HTTP routes
      ([server.js]) that read and write it.

    The development follows the two source files.  The SQLite tables are
    lists of rows (a row per record, in insertion order), the uploads
    directory is a finite set of file names, and a route handler is a
    function in a small state-and-exception monad over that world.

    Conventions of the embedding:
    - a JavaScript value that may be [undefined] or [null] is an [option];
    - a JavaScript number is an IEEE 754 binary64 value ([double]), with the
      operations of [SpecFloat] at precision 53; an integer written where a
      number is expected stands for the double nearest to it
      ([Double.of_Z] is a coercion);
    - the id of a transaction, which SQLite keeps as a 64-bit integer and
      JavaScript reads as a double, is an integer ([Z]) on which the
      rounding to a double is written out ([Double.round]);
    - built-ins of the JavaScript runtime and of SQLite that the code calls
      but does not define ([decodeURIComponent], [String.prototype.trim],
      [JSON.stringify], [JSON.parse], ...) are the fields of the class
      [JSRuntime]; every theorem holds for every runtime;
    - console output is not modelled. *)

From Stdlib Require Import ZArith String Ascii List Permutation Sorted Lia.
From Stdlib Require Import DecimalString.
From Stdlib Require DecimalPos DecimalZ.
From Stdlib Require Import Floats.SpecFloat.
From stdpp Require Import base decidable option list strings gmap.

Local Open Scope string_scope.
Local Open Scope Z_scope.

#[local] Set Warnings "-register-all".
#[local] Arguments Some {A} & a.

(** ** Numbers *)

Definition double : Type := spec_float.

Module Double.

(** The double nearest to an integer. *)
Definition of_Z (z : Z) : double := binary_normalize 53 1024 z 0 false.

(** The integer a double is, when it is one. *)
Definition to_Z (x : double) : option Z :=
  match x with
  | S754_zero _ => Some 0
  | S754_finite s m e =>
      if 0 <=? e then Some (cond_Zopp s (Z.pos m * 2 ^ e))
      else if Z.pos m mod 2 ^ (- e) =? 0
           then Some (cond_Zopp s (Z.pos m / 2 ^ (- e)))
           else None
  | S754_infinity _ => None
  | S754_nan => None
  end.

(** The integer that the double nearest to the integer [z] holds: [z]
    rounded to 53 significant bits, to nearest, ties to the even
    significand.  (No integer met here is large enough to overflow.) *)
Definition round (z : Z) : Z :=
  let a := Z.abs z in
  let k := Z.log2 a - 52 in
  if k <=? 0 then z
  else
    let q := a / 2 ^ k in
    let r := a mod 2 ^ k in
    let half := 2 ^ (k - 1) in
    let q' := if r <? half then q
              else if half <? r then q + 1
              else if Z.even q then q else q + 1 in
    Z.sgn z * (q' * 2 ^ k).

(** The integers that a double holds exactly together with their
    neighbours: [Number.isSafeInteger]. *)
Definition safe (z : Z) : Prop := - 2 ^ 53 < z < 2 ^ 53.

(** A 32-bit integer. *)
Definition int32 (z : Z) : bool := (- 2 ^ 31 <=? z) && (z <? 2 ^ 31).

(** Strictly between the least and the largest 64-bit integer. *)
Definition inside_int64 (z : Z) : bool := (- 2 ^ 63 <? z) && (z <? 2 ^ 63).

(** [NaN] and the two zeros: the numbers that are falsy. *)
Definition falsy (x : double) : bool :=
  match x with
  | S754_zero _ => true
  | S754_nan => true
  | _ => false
  end.

End Double.

Coercion Double.of_Z : Z >-> double.

(** ** JSON values, as [bodyParser.json()] hands them to a handler *)

Inductive json : Type :=
| JNull
| JBool (b : bool)
| JNum (n : double)
| JStr (s : string)
| JArr (elems : list json)
| JObj (fields : list (string * json)).

(** A value stored in a column with INTEGER affinity. *)
Inductive sqlval : Type :=
| SqlNull
| SqlInt (n : Z)
| SqlReal (x : double)
| SqlText (s : string).

(** ** Built-ins of the runtime *)

Class JSRuntime : Type := {
  (** [decodeURIComponent]; [None] when it throws [URIError]. *)
  decodeURIComponent : string -> option string;
  (** [encodeURIComponent]. *)
  encodeURIComponent : string -> string;
  (** [String.prototype.trim]. *)
  trim : string -> string;
  (** [JSON.stringify] on a JSON value. *)
  JSON_stringify : json -> string;
  (** [JSON.parse]; [None] when it throws [SyntaxError]. *)
  JSON_parse : string -> option json;
  (** [Number] applied to a string. *)
  string_to_number : string -> double;
  (** [String] applied to a number. *)
  number_to_string : double -> string;
  (** What SQLite stores when a text value is bound to a column with
      INTEGER affinity. *)
  integer_affinity : string -> sqlval;
  (** The text SQLite gives, in a column with TEXT affinity, to an
      integral double of magnitude 10^15 or more (the format
      [%!.15g]). *)
  real_to_text : Z -> string
}.

(** ** JavaScript operators used by the handlers *)

Module JS.

(** ToBoolean on a JSON value. *)
Definition truthy (v : json) : bool :=
  match v with
  | JNull => false
  | JBool b => b
  | JNum n => negb (Double.falsy n)
  | JStr s => negb (String.eqb s "")
  | JArr _ => true
  | JObj _ => true
  end.

(** ToBoolean on a value that is a string, [undefined] or [null]. *)
Definition truthy_str (x : option string) : bool :=
  match x with
  | Some s => negb (String.eqb s "")
  | None => false
  end.

(** ToBoolean on a value that is present or [undefined]. *)
Definition truthy_opt (x : option json) : bool :=
  match x with
  | Some v => truthy v
  | None => false
  end.

(** [x || d] with a JSON default. *)
Definition or_json (x : option json) (d : json) : json :=
  match x with
  | Some v => if truthy v then v else d
  | None => d
  end.

(** [x || null] on a JSON value. *)
Definition or_null (x : option json) : option json :=
  match x with
  | Some v => if truthy v then Some v else None
  | None => None
  end.

(** [x || d] with a string default. *)
Definition or_str (x : option string) (d : string) : string :=
  match x with
  | Some s => if String.eqb s "" then d else s
  | None => d
  end.

(** [a || b] where [b] is a string, [undefined] or [null]. *)
Definition or_else (a b : option string) : option string :=
  if truthy_str a then a else b.

(** [x || null] on a string: the last operand of a chain. *)
Definition str_or_null (x : option string) : option string :=
  if truthy_str x then x else None.

(** [String(x)] where [x] is a string or [null]. *)
Definition String_of_nullable (x : option string) : string :=
  match x with
  | Some s => s
  | None => "null"
  end.

(** [String(x)] where [x] is a string or [undefined]. *)
Definition String_of_optional (x : option string) : string :=
  match x with
  | Some s => s
  | None => "undefined"
  end.

(** Own-property lookup in an object literal (keys are unique). *)
Fixpoint assoc (k : string) (fields : list (string * json)) : option json :=
  match fields with
  | [] => None
  | (k', v) :: rest => if String.eqb k k' then Some v else assoc k rest
  end.

(** [a + b] and [a * b] on numbers. *)
Definition add (a b : double) : double := SFadd 53 1024 a b.

Definition mul (a b : double) : double := SFmul 53 1024 a b.

(** [s.split(c)] for a one-character separator. *)
Fixpoint split (c : ascii) (s : string) : list string :=
  match s with
  | EmptyString => [EmptyString]
  | String a rest =>
      if Ascii.eqb a c then EmptyString :: split c rest
      else match split c rest with
           | h :: t => String a h :: t
           | [] => [String a EmptyString]
           end
  end.

(** [parts.join(sep)]. *)
Fixpoint join (sep : string) (parts : list string) : string :=
  match parts with
  | [] => EmptyString
  | [p] => p
  | p :: rest => p ++ sep ++ join sep rest
  end.

(** Decimal text of an integer: [String(n)] for an integer below
    10^21. *)
Definition decimal (n : Z) : string := NilZero.string_of_int (Z.to_int n).

(** The text of a JSON value, as the conversion of an array or an object
    to a primitive makes it ([Array.prototype.toString] joins the texts of
    the elements, [null] giving the empty text; [Object.prototype.toString]
    gives [[object Object]]).  An object with a property [toString] of its
    own has no text: the property hides the method and is not a function,
    and the conversion throws [TypeError] ([None]). *)
Fixpoint to_text `{JSRuntime} (v : json) : option string :=
  match v with
  | JNull => Some "null"
  | JBool b => Some (if b then "true" else "false")
  | JNum n => Some (number_to_string n)
  | JStr s => Some s
  | JArr elems =>
      option_map (join ",")
        ((fix each (l : list json) : option (list string) :=
            match l with
            | [] => Some []
            | e :: rest =>
                match (match e with
                       | JNull => Some ""
                       | _ => to_text e
                       end), each rest with
                | Some s, Some ss => Some (s :: ss)
                | _, _ => None
                end
            end) elems)
  | JObj fields =>
      match assoc "toString" fields with
      | Some _ => None
      | None => Some "[object Object]"
      end
  end.

(** [Number(v)]; [None] when it throws [TypeError]. *)
Definition Number `{JSRuntime} (v : json) : option double :=
  match v with
  | JNull => Some 0
  | JBool b => Some (if b then 1 else 0)
  | JNum n => Some n
  | JStr s => Some (string_to_number s)
  | JArr _ => option_map string_to_number (to_text v)
  | JObj _ => option_map string_to_number (to_text v)
  end.

End JS.

(** ** The stored records ([initDatabase]) *)

(** Table [users]: [username TEXT PRIMARY KEY] (SQLite lets a primary key
    that is not an integer be NULL), [password] and [email] NOT NULL. *)
Record User : Type := mkUser {
  user_username : option string;
  user_password : string;
  user_email : string
}.

(** Table [products]. *)
Record Product : Type := mkProduct {
  product_id : string;
  product_title : string;
  product_description : option string;
  product_price : option string;
  product_stock : sqlval;
  product_image : option string;
  product_owner : option string
}.

(** Table [transactions]: [items] and [location] hold JSON text and
    [proofUploaded] an integer flag; [total] and [itemCount] are NULL
    ([None]) or a number, as the driver reads it. *)
Record TxRow : Type := mkTxRow {
  row_id : Z;
  row_owner : option string;
  row_items : string;
  row_total : option double;
  row_itemCount : option double;
  row_paymentMethod : string;
  row_proofUploaded : Z;
  row_proofFilename : option string;
  row_location : option string;
  row_timestamp : string;
  row_date : string
}.

(** A transaction as a handler sees it: the [transactionData] object that
    [POST /transactions] builds, and the objects [getAllTransactions]
    resolves with ([total] and [itemCount] are [null] there when the
    column is NULL). *)
Record Transaction : Type := mkTransaction {
  tx_id : Z;
  tx_owner : option string;
  tx_items : json;
  tx_total : option double;
  tx_itemCount : option double;
  tx_paymentMethod : string;
  tx_proofUploaded : bool;
  tx_proofFilename : option string;
  tx_location : option json;
  tx_timestamp : string;
  tx_date : string
}.

(** ** The world a request runs in *)

(** [faults] is the fate of the store calls to come, in the order they
    are issued: [Some msg] makes the next call fail with the SQLite error
    [msg], [None] lets it through; past the end of the list every call
    goes through.  [locked] are the files [fs.unlinkSync] throws on. *)
Record World : Type := mkWorld {
  users : list User;
  products : list Product;
  transactions : list TxRow;
  uploads : gset string;
  locked : gset string;
  faults : list (option string)
}.

Definition set_users (us : list User) (w : World) : World :=
  mkWorld us (products w) (transactions w) (uploads w) (locked w) (faults w).
Definition set_products (ps : list Product) (w : World) : World :=
  mkWorld (users w) ps (transactions w) (uploads w) (locked w) (faults w).
Definition set_transactions (ts : list TxRow) (w : World) : World :=
  mkWorld (users w) (products w) ts (uploads w) (locked w) (faults w).
Definition set_uploads (fs : gset string) (w : World) : World :=
  mkWorld (users w) (products w) (transactions w) fs (locked w) (faults w).
Definition set_faults (fl : list (option string)) (w : World) : World :=
  mkWorld (users w) (products w) (transactions w) (uploads w) (locked w) fl.

(** ** Exceptions and the handler monad *)

Inductive exn : Type :=
| DbError (msg : string)
| TypeError
| URIError.

(** [Crash]: an exception thrown inside a callback of the SQLite driver;
    it is outside every promise, so no [catch] of a handler sees it. *)
Inductive outcome (A : Type) : Type :=
| Ok (a : A)
| Throw (e : exn)
| Crash.
Arguments Ok {A} a.
Arguments Throw {A} e.
Arguments Crash {A}.

Definition M (A : Type) : Type := World -> outcome A * World.

Definition ret {A} (a : A) : M A := fun w => (Ok a, w).

Definition throw {A} (e : exn) : M A := fun w => (Throw e, w).

Definition bind {A B} (m : M A) (k : A -> M B) : M B :=
  fun w =>
    match m w with
    | (Ok a, w') => k a w'
    | (Throw e, w') => (Throw e, w')
    | (Crash, w') => (Crash, w')
    end.

Notation "'let*' x := m 'in' k" := (bind m (fun x => k))
  (at level 10, x name, m at level 100, k at level 200,
   format "'[v' 'let*'  x  :=  m  'in' '/' k ']'").
Notation "'do*' m 'in' k" := (bind m (fun _ => k))
  (at level 10, m at level 100, k at level 200,
   format "'[v' 'do*'  m  'in' '/' k ']'").

(** [try { body } catch (err) { handler }]. *)
Definition try_catch {A} (body : M A) (handler : exn -> M A) : M A :=
  fun w =>
    match body w with
    | (Ok a, w') => (Ok a, w')
    | (Throw e, w') => handler e w'
    | (Crash, w') => (Crash, w')
    end.

(** Lifting of a computation that touches no state. *)
Definition lift {A} (o : outcome A) : M A := fun w => (o, w).

(** One call to the SQLite driver: it consumes one entry of [faults]. *)
Definition db_call {A} (f : M A) : M A :=
  fun w =>
    match faults w with
    | Some msg :: rest => (Throw (DbError msg), set_faults rest w)
    | None :: rest => f (set_faults rest w)
    | [] => f w
    end.

(** ** [db.js] *)

Module Db.

(** *** How the driver binds a number

    A number that is a 32-bit integer is bound as an integer, any other
    as a double; [NaN] is stored as NULL.  A column with INTEGER affinity
    turns a double into an integer when that loses nothing, and the driver
    reads an integer as the double nearest to it. *)

(** What is read back after a number was bound to the column [total]
    (REAL) or [itemCount] (INTEGER): the same number, but NULL for [NaN],
    and a zero without its sign. *)
Definition stored_number (x : double) : option double :=
  match x with
  | S754_nan => None
  | S754_zero _ => Some (S754_zero false)
  | _ => Some x
  end.

(** What a column with INTEGER affinity holds after a number was bound
    to it. *)
Definition integer_column (x : double) : sqlval :=
  match x with
  | S754_nan => SqlNull
  | _ =>
      match Double.to_Z x with
      | Some z => if Double.inside_int64 z then SqlInt z else SqlReal x
      | None => SqlReal x
      end
  end.

(** A value read from a column with INTEGER affinity and bound to it
    again. *)
Definition bound_again `{JSRuntime} (v : sqlval) : sqlval :=
  match v with
  | SqlNull => SqlNull
  | SqlInt n =>
      let d := Double.round n in
      if Double.inside_int64 d then SqlInt d else SqlReal d
  | SqlReal x => integer_column x
  | SqlText s => integer_affinity s
  end.

(** What a column with TEXT affinity holds after the integral number [n]
    was bound to it: the decimal text of a 32-bit integer, and the text of
    a double otherwise, which has a fraction part. *)
Definition number_as_text `{JSRuntime} (n : Z) : string :=
  let d := Double.round n in
  if Double.int32 d then JS.decimal d
  else if Z.abs d <? 10 ^ 15 then JS.decimal d ++ ".0"
  else real_to_text d.

(** *** Users *)

Definition getAllUsers : M (list User) :=
  db_call (fun w => (Ok (users w), w)).

(** [SELECT * FROM users WHERE username = ?]: a NULL never compares
    equal, so an [undefined] username finds nothing. *)
Definition findUserByUsername (username : option string) : M (option User) :=
  db_call (fun w =>
    (Ok (match username with
         | Some u =>
             List.find (fun r => bool_decide (user_username r = Some u)) (users w)
         | None => None
         end), w)).

(** [INSERT INTO users]: fails on a NULL password or email and on a
    username that is already there. *)
Definition createUser (username password email : option string) : M User :=
  db_call (fun w =>
    match password, email with
    | Some p, Some e =>
        if bool_decide (is_Some username) &&
           existsb (fun r => bool_decide (user_username r = username)) (users w)
        then (Throw (DbError "SQLITE_CONSTRAINT: UNIQUE constraint failed: users.username"), w)
        else let u := mkUser username p e in
             (Ok u, set_users (users w ++ [u]) w)
    | None, _ =>
        (Throw (DbError "SQLITE_CONSTRAINT: NOT NULL constraint failed: users.password"), w)
    | Some _, None =>
        (Throw (DbError "SQLITE_CONSTRAINT: NOT NULL constraint failed: users.email"), w)
    end).

(** *** Products *)

(** The rows [SELECT * FROM products] yields, with [WHERE owner = ?]
    appended when [owner] is truthy. *)
Definition select_products (owner : option string) (rows : list Product) : list Product :=
  if JS.truthy_str owner
  then List.filter (fun p => bool_decide (product_owner p = owner)) rows
  else rows.

Definition getAllProducts (owner : option string) : M (list Product) :=
  db_call (fun w => (Ok (select_products owner (products w)), w)).

Definition getProductById (id : string) : M (option Product) :=
  db_call (fun w =>
    (Ok (List.find (fun p => String.eqb (product_id p) id) (products w)), w)).

(** [INSERT INTO products]: [id] is the primary key, given here as the
    text the column holds. *)
Definition createProduct (id title : string) (description price : option string)
    (stock : sqlval) (image owner : option string) : M Product :=
  db_call (fun w =>
    if existsb (fun p => String.eqb (product_id p) id) (products w)
    then (Throw (DbError "SQLITE_CONSTRAINT: UNIQUE constraint failed: products.id"), w)
    else let p := mkProduct id title description price stock image owner in
         (Ok p, set_products (products w ++ [p]) w)).

(** The row that [UPDATE products SET title = ?, description = ?,
    price = ?, stock = ?, image = ?] leaves in place of [p]. *)
Definition set_columns (title : string) (description price : option string)
    (stock : sqlval) (image : option string) (p : Product) : Product :=
  mkProduct (product_id p) title description price stock image (product_owner p).

(** [UPDATE ... WHERE id = ?]: every row with that id is rewritten; with
    no such row the statement still succeeds. *)
Definition updateProduct (id title : string) (description price : option string)
    (stock : sqlval) (image : option string) : M unit :=
  db_call (fun w =>
    (Ok tt,
     set_products
       (List.map (fun p => if String.eqb (product_id p) id
                           then set_columns title description price stock image p
                           else p) (products w)) w)).

(** [DELETE FROM products WHERE id = ?]. *)
Definition deleteProduct (id : string) : M unit :=
  db_call (fun w =>
    (Ok tt,
     set_products
       (List.filter (fun p => negb (String.eqb (product_id p) id)) (products w)) w)).

(** *** Transactions *)

(** [ORDER BY id DESC], by insertion. *)
Fixpoint insert_desc (r : TxRow) (sorted : list TxRow) : list TxRow :=
  match sorted with
  | [] => [r]
  | r' :: rest =>
      if row_id r' <=? row_id r
      then r :: r' :: rest
      else r' :: insert_desc r rest
  end.

Definition order_by_id_desc (rows : list TxRow) : list TxRow :=
  List.fold_right insert_desc [] rows.

(** The rows of [SELECT * FROM transactions [WHERE owner = ?] ORDER BY
    id DESC]. *)
Definition select_transactions (owner : option string) (rows : list TxRow) : list TxRow :=
  order_by_id_desc
    (if JS.truthy_str owner
     then List.filter (fun r => bool_decide (row_owner r = owner)) rows
     else rows).

(** The object built from one row: [{...row, items: JSON.parse(row.items),
    location: row.location ? JSON.parse(row.location) : null,
    proofUploaded: Boolean(row.proofUploaded)}].  The id is read as a
    double.  [None] when [JSON.parse] throws. *)
Definition parse_row `{JSRuntime} (r : TxRow) : option Transaction :=
  match JSON_parse (row_items r) with
  | None => None
  | Some items =>
      match (match row_location r with
             | Some l => if String.eqb l "" then Some None
                         else option_map Some (JSON_parse l)
             | None => Some None
             end) with
      | None => None
      | Some location =>
          Some (mkTransaction (Double.round (row_id r)) (row_owner r) items
                  (row_total r) (row_itemCount r) (row_paymentMethod r)
                  (negb (row_proofUploaded r =? 0)) (row_proofFilename r)
                  location (row_timestamp r) (row_date r))
      end
  end.

(** [rows.map(...)]: the first row that does not parse stops it. *)
Fixpoint parse_rows `{JSRuntime} (rows : list TxRow) : option (list Transaction) :=
  match rows with
  | [] => Some []
  | r :: rest =>
      match parse_row r with
      | None => None
      | Some t =>
          match parse_rows rest with
          | None => None
          | Some ts => Some (t :: ts)
          end
      end
  end.

(** The parsing runs in the driver's callback, so a [SyntaxError] there
    is not a rejection of the promise. *)
Definition getAllTransactions `{JSRuntime} (owner : option string) : M (list Transaction) :=
  db_call (fun w =>
    match parse_rows (select_transactions owner (transactions w)) with
    | Some ts => (Ok ts, w)
    | None => (Crash, w)
    end).

(** [SELECT MAX(id)]: NULL on an empty table. *)
Definition max_id (rows : list TxRow) : option Z :=
  match rows with
  | [] => None
  | r :: rest => Some (List.fold_left (fun m r' => Z.max m (row_id r')) rest (row_id r))
  end.

(** [(row.maxId || 0) + 1]: [row.maxId] is the stored maximum read as a
    double, and the sum is a double again. *)
Definition next_id_of (maxId : option Z) : Z :=
  Double.round
    ((match maxId with
      | Some m => if Double.round m =? 0 then 0 else Double.round m
      | None => 0
      end) + 1).

Definition getNextTransactionId : M Z :=
  db_call (fun w => (Ok (next_id_of (max_id (transactions w))), w)).

(** The row [createTransaction] binds to its INSERT. *)
Definition row_of `{JSRuntime} (t : Transaction) : TxRow :=
  mkTxRow (tx_id t) (tx_owner t) (JSON_stringify (tx_items t))
    (match tx_total t with
     | Some x => stored_number x
     | None => None
     end)
    (match tx_itemCount t with
     | Some x => stored_number x
     | None => None
     end)
    (tx_paymentMethod t)
    (if tx_proofUploaded t then 1 else 0) (tx_proofFilename t)
    (match tx_location t with
     | Some l => if JS.truthy l then Some (JSON_stringify l) else None
     | None => None
     end)
    (tx_timestamp t) (tx_date t).

(** [INSERT INTO transactions]: [id] is the primary key, an integer
    column; a number that is no 64-bit integer is refused, and so is an id
    that is already there.  Resolves with [{ id, ...transactionData }]. *)
Definition createTransaction `{JSRuntime} (t : Transaction) : M Transaction :=
  db_call (fun w =>
    if negb (Double.inside_int64 (tx_id t))
    then (Throw (DbError "SQLITE_MISMATCH: datatype mismatch"), w)
    else if existsb (fun r => row_id r =? tx_id t) (transactions w)
    then (Throw (DbError "SQLITE_CONSTRAINT: UNIQUE constraint failed: transactions.id"), w)
    else (Ok t, set_transactions (transactions w ++ [row_of t]) w)).

End Db.

(** ** [server.js] *)

(** What a handler reads from [req], and the clock it reads while it
    runs.  [req_query_username] is [req.query.username] for a parameter
    given once (a repeated parameter, which Express parses to an array, is
    outside the development); [req_file] is the name multer gave the
    uploaded file; [req_now] is [Date.now()], in milliseconds. *)
Record Request : Type := mkRequest {
  req_query_username : option string;
  req_header_username : option string;
  req_cookie : option string;
  req_param_id : string;
  req_file : option string;
  req_now : Z;
  req_now_iso : string;
  req_now_locale : string
}.

(** The fields of a product form. *)
Record ProductForm : Type := mkProductForm {
  form_title : option string;
  form_description : option string;
  form_price : option string;
  form_stock : option string
}.

(** The fields of the register and login forms. *)
Record Credentials : Type := mkCredentials {
  cred_username : option string;
  cred_password : option string;
  cred_email : option string
}.

(** The body of [POST /transactions]. *)
Record TxBody : Type := mkTxBody {
  body_items : option json;
  body_paymentMethod : option string;
  body_proofUploaded : option json;
  body_timestamp : option string;
  body_proofFilename : option string;
  body_location : option json
}.

Inductive Body : Type :=
| BProducts (ps : list Product)
| BTransactions (ts : list Transaction)
| BOk
| BCreated (t : Transaction)
| BError (msg : string)
| BText (msg : string).

(** [Respond s b]: [res.status(s)] followed by [json] or [send];
    [Redirect url c]: [res.redirect(url)], after [res.cookie('username', v)]
    when [c = Some v]. *)
Inductive Response : Type :=
| Respond (status : Z) (body : Body)
| Redirect (url : string) (cookie : option string).

Module Server.

Section Routes.
Context `{JSRuntime}.

(** [parseCookies]: the cookie jar is the object [list]; a later
    cookie of the same name overwrites an earlier one.  The name
    [__proto__] gets no entry: the assignment [list[name] = ...] reaches
    the setter of [Object.prototype], which ignores a string. *)
Definition parseCookies (cookieHeader : option string) : outcome (gmap string string) :=
  match cookieHeader with
  | None => Ok ∅
  | Some header =>
      if String.eqb header "" then Ok ∅
      else
        List.fold_left
          (fun acc cookie =>
             match acc with
             | Ok list =>
                 let parts := JS.split "=" cookie in
                 let name := trim (List.hd "" parts) in
                 let value := JS.join "=" (List.tl parts) in
                 match decodeURIComponent value with
                 | Some v =>
                     Ok (if String.eqb name "__proto__" then list
                         else <[name := v]> list)
                 | None => Throw URIError
                 end
             | _ => acc
             end)
          (JS.split ";" header) (Ok ∅)
  end.

(** The username of the two listing routes: [fromQuery], [fromHeader]
    and [fromCookie] are computed first, then
    [fromQuery || fromHeader || fromCookie || null]. *)
Definition username_of_listing (req : Request) : outcome (option string) :=
  let fromQuery := req_query_username req in
  let fromHeader := req_header_username req in
  match parseCookies (req_cookie req) with
  | Ok cookies =>
      let fromCookie := cookies !! "username" in
      Ok (JS.str_or_null (JS.or_else (JS.or_else fromQuery fromHeader) fromCookie))
  | Throw e => Throw e
  | Crash => Crash
  end.

(** The one-line form of the other routes:
    [(req.query && req.query.username) || req.headers['x-username'] ||
     (parseCookies(req.headers.cookie).username) || null];
    the cookies are parsed only when the operands before are falsy. *)
Definition username_of_request (req : Request) : outcome (option string) :=
  let first := JS.or_else (req_query_username req) (req_header_username req) in
  if JS.truthy_str first then Ok (JS.str_or_null first)
  else
    match parseCookies (req_cookie req) with
    | Ok cookies => Ok (JS.str_or_null (JS.or_else first (cookies !! "username")))
    | Throw e => Throw e
    | Crash => Crash
    end.

(** [upload.single('image')]: the file is on disk before the handler
    runs. *)
Definition multer_single (req : Request) : M unit :=
  fun w =>
    match req_file req with
    | Some f => (Ok tt, set_uploads ({[f]} ∪ uploads w) w)
    | None => (Ok tt, w)
    end.

(** [try { if (fs.existsSync(p)) fs.unlinkSync(p); } catch (e) {}]. *)
Definition unlink_if_exists (image : string) : M unit :=
  fun w =>
    if bool_decide (image ∈ uploads w) && negb (bool_decide (image ∈ locked w))
    then (Ok tt, set_uploads (uploads w ∖ {[image]}) w)
    else (Ok tt, w).

(** Route 3: [GET /products]. *)
Definition get_products (req : Request) : M Response :=
  try_catch
    (let* username := lift (username_of_listing req) in
     let* products := Db.getAllProducts username in
     ret (Respond 200 (BProducts products)))
    (fun _ => ret (Respond 200 (BProducts []))).

(** Route 4: [POST /products].  The id is the number [Date.now()], bound
    to a TEXT column. *)
Definition post_products (req : Request) (form : ProductForm) : M Response :=
  do* multer_single req in
  try_catch
    (let image := req_file req in
     let* owner := lift (username_of_request req) in
     let productId := req_now req in
     do* Db.createProduct (Db.number_as_text productId)
           (JS.or_str (form_title form) "Untitled")
           (Some (JS.or_str (form_description form) ""))
           (Some (JS.or_str (form_price form) ""))
           (match form_stock form with
            | Some stock => if String.eqb stock "" then SqlInt 0
                            else integer_affinity stock
            | None => SqlInt 0
            end)
           image owner in
     ret (Redirect "/inventory.html" None))
    (fun _ => ret (Respond 500 (BText "Server error"))).

(** Route 5: [POST /products/:id].  The text columns read from the row
    are bound again as they were read; [product.stock] is read from a
    column with INTEGER affinity and goes through a number. *)
Definition post_product (req : Request) (form : ProductForm) : M Response :=
  do* multer_single req in
  let id := req_param_id req in
  try_catch
    (let* found := Db.getProductById id in
     match found with
     | None => ret (Respond 404 (BText "Product not found"))
     | Some product =>
         let* newImage :=
           match req_file req with
           | Some filename =>
               do* (match product_image product with
                    | Some old => if String.eqb old "" then ret tt
                                  else unlink_if_exists old
                    | None => ret tt
                    end) in
               ret (Some filename)
           | None => ret (product_image product)
           end in
         do* Db.updateProduct id
               (match form_title form with
                | Some title => title
                | None => product_title product
                end)
               (match form_description form with
                | Some description => Some description
                | None => product_description product
                end)
               (match form_price form with
                | Some price => Some price
                | None => product_price product
                end)
               (match form_stock form with
                | Some stock => integer_affinity stock
                | None => Db.bound_again (product_stock product)
                end)
               newImage in
         ret (Redirect "/inventory.html" None)
     end)
    (fun _ => ret (Respond 500 (BText "Server error"))).

(** Route 6: [POST /register]. *)
Definition post_register (c : Credentials) : M Response :=
  try_catch
    (let* existingUser := Db.findUserByUsername (cred_username c) in
     match existingUser with
     | Some _ => ret (Respond 200 (BText "Username already exists. Please choose another."))
     | None =>
         do* Db.createUser (cred_username c) (cred_password c) (cred_email c) in
         let name := JS.String_of_optional (cred_username c) in
         ret (Redirect ("/dashboard.html?user=" ++ encodeURIComponent name) (Some name))
     end)
    (fun _ => ret (Respond 500 (BText "Server error"))).

(** Route 7: [POST /login]. *)
Definition post_login (c : Credentials) : M Response :=
  try_catch
    (let* user := Db.findUserByUsername (cred_username c) in
     match user with
     | Some u =>
         if bool_decide (Some (user_password u) = cred_password c)
         then let name := JS.String_of_optional (cred_username c) in
              ret (Redirect ("/dashboard.html?user=" ++ encodeURIComponent name) (Some name))
         else ret (Redirect "/?error=invalid" None)
     | None => ret (Redirect "/?error=invalid" None)
     end)
    (fun _ => ret (Redirect "/?error=server" None)).

(** The test of route 10:
    [product.owner && String(product.owner) !== String(ownerCandidate)]. *)
Definition delete_forbidden (product : Product) (ownerCandidate : option string) : bool :=
  JS.truthy_str (product_owner product) &&
  negb (String.eqb (JS.String_of_nullable (product_owner product))
                   (JS.String_of_nullable ownerCandidate)).

(** Route 10: [DELETE /products/:id]. *)
Definition delete_product (req : Request) : M Response :=
  let id := req_param_id req in
  try_catch
    (let* found := Db.getProductById id in
     match found with
     | None => ret (Respond 404 (BError "Product not found"))
     | Some product =>
         let* ownerCandidate := lift (username_of_request req) in
         if delete_forbidden product ownerCandidate
         then ret (Respond 403 (BError "Forbidden"))
         else
           do* (match product_image product with
                | Some image => if String.eqb image "" then ret tt
                                else unlink_if_exists image
                | None => ret tt
                end) in
           do* Db.deleteProduct id in
           ret (Respond 200 BOk)
     end)
    (fun _ => ret (Respond 500 (BError "Server error"))).

(** Route 11: [GET /transactions]. *)
Definition get_transactions (req : Request) : M Response :=
  try_catch
    (let* username := lift (username_of_listing req) in
     let* transactions := Db.getAllTransactions username in
     ret (Respond 200 (BTransactions transactions)))
    (fun _ => ret (Respond 200 (BTransactions []))).

(** [item.qty], [item.price]: reading a property of [null] throws. *)
Definition prop (item : json) (key : string) : outcome (option json) :=
  match item with
  | JNull => Throw TypeError
  | JObj fields => Ok (JS.assoc key fields)
  | _ => Ok None
  end.

(** [Number(v)] in a handler. *)
Definition to_number (v : json) : outcome double :=
  match JS.Number v with
  | Some x => Ok x
  | None => Throw TypeError
  end.

(** [Number(item.qty || 1)]. *)
Definition qty_of (item : json) : outcome double :=
  match prop item "qty" with
  | Ok qty => to_number (JS.or_json qty (JNum 1))
  | Throw e => Throw e
  | Crash => Crash
  end.

(** [Number(item.price || 0)]. *)
Definition price_of (item : json) : outcome double :=
  match prop item "price" with
  | Ok price => to_number (JS.or_json price (JNum 0))
  | Throw e => Throw e
  | Crash => Crash
  end.

(** [arr.reduce(f, init)] with a callback that may throw. *)
Fixpoint reduce {A} (f : A -> json -> outcome A) (arr : list json) (acc : A) : outcome A :=
  match arr with
  | [] => Ok acc
  | item :: rest =>
      match f acc item with
      | Ok acc' => reduce f rest acc'
      | Throw e => Throw e
      | Crash => Crash
      end
  end.

(** [items.reduce(f, 0)]: only an array has a [reduce] to call. *)
Definition items_reduce (f : double -> json -> outcome double) (items : json)
  : outcome double :=
  match items with
  | JArr arr => reduce f arr 0
  | _ => Throw TypeError
  end.

(** [(sum, item) => sum + (Number(item.qty || 1) * Number(item.price || 0))]. *)
Definition add_line_total (sum : double) (item : json) : outcome double :=
  match qty_of item with
  | Ok q =>
      match price_of item with
      | Ok p => Ok (JS.add sum (JS.mul q p))
      | Throw e => Throw e
      | Crash => Crash
      end
  | Throw e => Throw e
  | Crash => Crash
  end.

(** [(sum, item) => sum + Number(item.qty || 1)]. *)
Definition add_line_qty (sum : double) (item : json) : outcome double :=
  match qty_of item with
  | Ok q => Ok (JS.add sum q)
  | Throw e => Throw e
  | Crash => Crash
  end.

(** ToBoolean of [items.length]. *)
Definition has_length (items : json) : bool :=
  match items with
  | JArr arr => negb (bool_decide (arr = []))
  | JStr s => negb (String.eqb s "")
  | JObj fields => JS.truthy_opt (JS.assoc "length" fields)
  | _ => false
  end.

(** [!items || !items.length] on an [items] that is not [undefined]. *)
Definition no_items (items : json) : bool :=
  negb (JS.truthy items) || negb (has_length items).

(** Route 13: [POST /transactions]. *)
Definition post_transactions (req : Request) (body : TxBody) : M Response :=
  try_catch
    (match body_items body with
     | None => ret (Respond 400 (BError "No items in transaction"))
     | Some items =>
       if no_items items
       then ret (Respond 400 (BError "No items in transaction"))
       else
       let* owner := lift (username_of_request req) in
       let* total := lift (items_reduce add_line_total items) in
       let* itemCount := lift (items_reduce add_line_qty items) in
       let* nextId := Db.getNextTransactionId in
       let transactionData :=
         mkTransaction nextId owner items (Some total) (Some itemCount)
           (JS.or_str (body_paymentMethod body) "CASH")
           (JS.truthy_opt (body_proofUploaded body))
           (JS.str_or_null (body_proofFilename body))
           (JS.or_null (body_location body))
           (JS.or_str (body_timestamp body) (req_now_iso req))
           (req_now_locale req) in
       let* newTransaction := Db.createTransaction transactionData in
       ret (Respond 200 (BCreated newTransaction))
     end)
    (fun _ => ret (Respond 500 (BError "Server error"))).

End Routes.

(** The routes that call the store, with what each reads from the
    request. *)
Inductive Route : Type :=
| GetProducts (req : Request)
| PostProducts (req : Request) (form : ProductForm)
| PostProduct (req : Request) (form : ProductForm)
| PostRegister (c : Credentials)
| PostLogin (c : Credentials)
| DeleteProduct (req : Request)
| GetTransactions (req : Request)
| PostTransactions (req : Request) (body : TxBody).

Definition run `{JSRuntime} (r : Route) : M Response :=
  match r with
  | GetProducts req => get_products req
  | PostProducts req form => post_products req form
  | PostProduct req form => post_product req form
  | PostRegister c => post_register c
  | PostLogin c => post_login c
  | DeleteProduct req => delete_product req
  | GetTransactions req => get_transactions req
  | PostTransactions req body => post_transactions req body
  end.

End Server.

(** ** The vocabulary of the specification *)

Module Spec.

(** Identity resolution as the specification words it: the query
    parameter if present, otherwise the header if present, otherwise the
    cookie if present, otherwise absent. *)
Definition first_present (query header cookie : option string) : option string :=
  match query with
  | Some q => Some q
  | None =>
      match header with
      | Some h => Some h
      | None => cookie
      end
  end.

Definition nonempty (x : option string) : option string :=
  match x with
  | Some s => if String.eqb s "" then None else Some s
  | None => None
  end.

(** The same precedence over the sources that are present and not the
    empty string. *)
Definition first_nonempty (query header cookie : option string) : option string :=
  first_present (nonempty query) (nonempty header) (nonempty cookie).

(** The request that names [user] in its query string and nowhere
    else. *)
Definition as_user (user : option string) (req : Request) : Request :=
  mkRequest user None None (req_param_id req) (req_file req)
    (req_now req) (req_now_iso req) (req_now_locale req).

(** The same route, asked by [as_user user]. *)
Definition route_as (user : option string) (r : Server.Route) : Server.Route :=
  match r with
  | Server.GetProducts req => Server.GetProducts (as_user user req)
  | Server.PostProducts req form => Server.PostProducts (as_user user req) form
  | Server.PostProduct req form => Server.PostProduct req form
  | Server.PostRegister c => Server.PostRegister c
  | Server.PostLogin c => Server.PostLogin c
  | Server.DeleteProduct req => Server.DeleteProduct (as_user user req)
  | Server.GetTransactions req => Server.GetTransactions (as_user user req)
  | Server.PostTransactions req body => Server.PostTransactions (as_user user req) body
  end.

(** The three sources of the acting username in the request of a
    route; [None] for a route that does not resolve an identity. *)
Definition identity_request (r : Server.Route) : option Request :=
  match r with
  | Server.GetProducts req | Server.PostProducts req _ | Server.DeleteProduct req
  | Server.GetTransactions req | Server.PostTransactions req _ => Some req
  | Server.PostProduct _ _ | Server.PostRegister _ | Server.PostLogin _ => None
  end.

(** A store call failed between [w] and [w']: the calls before it went
    through, and [w'] holds the fates that were left. *)
Definition store_failed (w w' : World) : Prop :=
  exists (k : nat) (msg : string),
    faults w = (replicate k None ++ Some msg :: faults w')%list.

(** Between [w] and [w'] only store calls that went through were
    made. *)
Definition store_quiet (w w' : World) : Prop :=
  exists k : nat, faults w = (replicate k None ++ faults w')%list.

(** A computation that either throws or leaves [store_quiet] worlds. *)
Definition calm {A} (m : M A) : Prop :=
  forall w, (exists e, fst (m w) = Throw e) \/ store_quiet w (snd (m w)).

(** The world after one store call that read the store and went
    through: nothing but the fate of that call is gone. *)
Definition after_call (w : World) : World := set_faults (tl (faults w)) w.

(** What each route answers when a store call fails. *)
Definition on_store_failure (r : Server.Route) : Response :=
  match r with
  | Server.GetProducts _ => Respond 200 (BProducts [])
  | Server.GetTransactions _ => Respond 200 (BTransactions [])
  | Server.PostLogin _ => Redirect "/?error=server" None
  | Server.PostProducts _ _ | Server.PostProduct _ _ | Server.PostRegister _ =>
      Respond 500 (BText "Server error")
  | Server.DeleteProduct _ | Server.PostTransactions _ _ =>
      Respond 500 (BError "Server error")
  end.

(** A property of a line item; a value that is not an object has
    none. *)
Definition field (item : json) (key : string) : option json :=
  match item with
  | JObj fields => JS.assoc key fields
  | _ => None
  end.

(** The number a value stands for; a value that has none counts as
    [NaN]. *)
Definition number_of `{JSRuntime} (v : json) : double :=
  match JS.Number v with
  | Some x => x
  | None => S754_nan
  end.

(** "qty or 1" and "price or 0". *)
Definition qty_or_1 `{JSRuntime} (item : json) : double :=
  match field item "qty" with
  | Some q => if JS.truthy q then number_of q else 1
  | None => 1
  end.

Definition price_or_0 `{JSRuntime} (item : json) : double :=
  match field item "price" with
  | Some p => if JS.truthy p then number_of p else 0
  | None => 0
  end.

(** A value that converts to a number, or no value. *)
Definition numeric `{JSRuntime} (v : option json) : bool :=
  match v with
  | Some x => bool_decide (is_Some (JS.Number x))
  | None => true
  end.

(** A line item: an entry that is not [null], and whose [qty] and
    [price], when it has them, convert to numbers. *)
Definition line_item `{JSRuntime} (item : json) : bool :=
  match item with
  | JNull => false
  | _ => numeric (field item "qty") && numeric (field item "price")
  end.

(** The sum of [f item] over the items, in the order of the list,
    from 0. *)
Definition sum_of (f : json -> double) (items : list json) : double :=
  List.fold_left (fun sum item => JS.add sum (f item)) items 0.

(** A value that [JSON.parse] recovers from its [JSON.stringify] text,
    the text not being empty. *)
Definition survives_storage `{JSRuntime} (v : json) : Prop :=
  JSON_stringify v <> "" /\ JSON_parse (JSON_stringify v) = Some v.

(** The columns [POST /products/:id] binds for the stored product [p]. *)
Definition merged `{JSRuntime} (req : Request) (form : ProductForm) (p : Product) : Product :=
  mkProduct (product_id p)
    (match form_title form with
     | Some t => t
     | None => product_title p
     end)
    (match form_description form with
     | Some d => Some d
     | None => product_description p
     end)
    (match form_price form with
     | Some x => Some x
     | None => product_price p
     end)
    (match form_stock form with
     | Some s => integer_affinity s
     | None => Db.bound_again (product_stock p)
     end)
    (match req_file req with
     | Some f => Some f
     | None => product_image p
     end)
    (product_owner p).

(** Newest first: the order of [ORDER BY id DESC]. *)
Definition newer_first (a b : TxRow) : Prop := row_id b <= row_id a.

(** The transaction [POST /transactions] builds from a list of line
    items. *)
Definition transaction_of `{JSRuntime} (req : Request) (body : TxBody) (owner : option string)
    (arr : list json) (id : Z) : Transaction :=
  mkTransaction id owner (JArr arr)
    (Some (Spec.sum_of (fun item => JS.mul (Spec.qty_or_1 item) (Spec.price_or_0 item)) arr))
    (Some (Spec.sum_of Spec.qty_or_1 arr))
    (JS.or_str (body_paymentMethod body) "CASH")
    (JS.truthy_opt (body_proofUploaded body))
    (JS.str_or_null (body_proofFilename body))
    (JS.or_null (body_location body))
    (JS.or_str (body_timestamp body) (req_now_iso req))
    (req_now_locale req).

(** A transaction as the ledger gives it back: [total] and [itemCount]
    are the numbers read from their columns. *)
Definition listed (t : Transaction) : Transaction :=
  mkTransaction (tx_id t) (tx_owner t) (tx_items t)
    (match tx_total t with
     | Some x => Db.stored_number x
     | None => None
     end)
    (match tx_itemCount t with
     | Some x => Db.stored_number x
     | None => None
     end)
    (tx_paymentMethod t) (tx_proofUploaded t) (tx_proofFilename t)
    (tx_location t) (tx_timestamp t) (tx_date t).

(** A clock reading whose number is bound as a double and written in
    positional notation: from 1970-01-25 to the year 33658. *)
Definition clock_range (now : Z) : Prop := 2 ^ 31 <= now < 10 ^ 15.

End Spec.

(** ** A runtime to compute with

    An instance of [JSRuntime] for closed examples: ASCII white space,
    percent-decoding of single bytes, decimal numbers and their shortest
    text, and a JSON printer and reader for the values of [json]. *)

Module Ref.

Definition is_space (a : ascii) : bool :=
  let n := nat_of_ascii a in
  ((9 <=? n) && (n <=? 13))%nat || (n =? 32)%nat.

Fixpoint trim_left (s : string) : string :=
  match s with
  | String a rest => if is_space a then trim_left rest else s
  | EmptyString => EmptyString
  end.

Fixpoint trim_right (s : string) : string :=
  match s with
  | String a rest =>
      match trim_right rest with
      | EmptyString => if is_space a then EmptyString else String a EmptyString
      | r => String a r
      end
  | EmptyString => EmptyString
  end.

Definition strip (s : string) : string := trim_right (trim_left s).

Definition hex_digit (a : ascii) : option N :=
  let n := N_of_ascii a in
  if ((48 <=? n) && (n <=? 57))%N then Some (n - 48)%N
  else if ((65 <=? n) && (n <=? 70))%N then Some (n - 55)%N
  else if ((97 <=? n) && (n <=? 102))%N then Some (n - 87)%N
  else None.

Fixpoint percent_decode (s : string) : option string :=
  match s with
  | EmptyString => Some EmptyString
  | String "%" (String h (String l rest)) =>
      match hex_digit h, hex_digit l, percent_decode rest with
      | Some x, Some y, Some r => Some (String (ascii_of_N (16 * x + y)) r)
      | _, _, _ => None
      end
  | String "%" _ => None
  | String a rest => option_map (String a) (percent_decode rest)
  end.

Definition hex_upper (n : N) : ascii :=
  if (n <? 10)%N then ascii_of_N (48 + n) else ascii_of_N (55 + n).

(** Letters, digits and [- _ . ! ~ * ' ( )] are kept; every other
    byte becomes [%XX]. *)
Definition unreserved (a : ascii) : bool :=
  let n := N_of_ascii a in
  ((48 <=? n) && (n <=? 57) || (65 <=? n) && (n <=? 90) ||
   (97 <=? n) && (n <=? 122) ||
   (n =? 45) || (n =? 95) || (n =? 46) || (n =? 33) || (n =? 126) ||
   (n =? 42) || (n =? 39) || (n =? 40) || (n =? 41))%N.

Fixpoint percent_encode (s : string) : string :=
  match s with
  | EmptyString => EmptyString
  | String a rest =>
      if unreserved a then String a (percent_encode rest)
      else let n := N_of_ascii a in
           String "%" (String (hex_upper (n / 16))
                         (String (hex_upper (n mod 16)) (percent_encode rest)))
  end.

(** *** Numbers and their text *)

Definition is_digit (a : ascii) : bool :=
  let n := N_of_ascii a in ((48 <=? n) && (n <=? 57))%N.

(** The value of a text of digits in base [b], after [acc]. *)
Fixpoint digits_in (b : Z) (s : string) (acc : Z) : option Z :=
  match s with
  | EmptyString => Some acc
  | String a rest =>
      match hex_digit a with
      | Some d => if Z.of_N d <? b then digits_in b rest (b * acc + Z.of_N d) else None
      | None => None
      end
  end.

Definition digits (s : string) (acc : Z) : option Z := digits_in 10 s acc.

Definition value_of (s : string) : Z := default 0 (digits s 0).

(** The longest prefix of digits, and what follows it. *)
Fixpoint span_digits (s : string) : string * string :=
  match s with
  | String a rest =>
      if is_digit a
      then let (d, r) := span_digits rest in (String a d, r)
      else (EmptyString, s)
  | EmptyString => (EmptyString, EmptyString)
  end.

(** The double nearest to [p / q], for [0 <= p] and [0 < q]: the
    quotient is computed to 55 bits or more, with one more bit that says
    whether anything was left, and rounded once. *)
Definition nearest (neg : bool) (p q : Z) : double :=
  if p =? 0 then S754_zero neg
  else
    let e := Z.log2 p - Z.log2 q - 55 in
    let a := if 0 <=? e then p else p * 2 ^ (- e) in
    let b := if 0 <=? e then q * 2 ^ e else q in
    let m := 2 * (a / b) + (if a mod b =? 0 then 0 else 1) in
    binary_normalize 53 1024 (if neg then - m else m) (e - 1) false.

(** The double nearest to [p * 10 ^ e10]. *)
Definition scaled (neg : bool) (p e10 : Z) : double :=
  if 0 <=? e10 then nearest neg (p * 10 ^ e10) 1
  else nearest neg p (10 ^ (- e10)).

(** A decimal literal at the front of a text: the digits before the
    point, the digits after it when there is a point, the exponent when
    there is one with its sign, and the rest of the text. *)
Record literal : Type := mkLiteral {
  lit_int : string;
  lit_frac : option string;
  lit_exp : option (bool * string);
  lit_rest : string
}.

Definition read_exponent (s : string) : option (bool * string) * string :=
  match s with
  | String c r =>
      if Ascii.eqb c "e" || Ascii.eqb c "E"
      then
        let signed := match r with
                      | String "-" t => (true, t)
                      | String "+" t => (false, t)
                      | _ => (false, r)
                      end in
        let (d, rest) := span_digits (snd signed) in
        match d with
        | EmptyString => (None, s)
        | _ => (Some (fst signed, d), rest)
        end
      else (None, s)
  | EmptyString => (None, s)
  end.

Definition read_literal (s : string) : literal :=
  let (i, r1) := span_digits s in
  let fraction := match r1 with
                  | String "." r => let (f, r') := span_digits r in (Some f, r')
                  | _ => (None, r1)
                  end in
  let (x, r3) := read_exponent (snd fraction) in
  mkLiteral i (fst fraction) x r3.

(** A literal with a digit in it. *)
Definition has_digit (l : literal) : bool :=
  negb (String.eqb (lit_int l) "") || negb (String.eqb (default "" (lit_frac l)) "").

Definition literal_value (neg : bool) (l : literal) : double :=
  let f := default "" (lit_frac l) in
  let p := value_of (lit_int l ++ f) in
  let x := match lit_exp l with
           | Some (true, d) => - value_of d
           | Some (false, d) => value_of d
           | None => 0
           end in
  scaled neg p (x - Z.of_nat (String.length f)).

(** The sign in front of a text, and the text after it. *)
Definition read_sign (s : string) : bool * string :=
  match s with
  | String "-" r => (true, r)
  | String "+" r => (false, r)
  | _ => (false, s)
  end.

(** [Number(s)]: white space around a decimal literal, [Infinity], or a
    literal in base 16, 8 or 2; the empty text is 0 and any other text
    [NaN]. *)
Definition to_number (s : string) : double :=
  match strip s with
  | EmptyString => S754_zero false
  | String "0" (String c rest) as t =>
      let based (b : Z) :=
        match rest with
        | EmptyString => S754_nan
        | _ => match digits_in b rest 0 with
               | Some n => nearest false n 1
               | None => S754_nan
               end
        end in
      if Ascii.eqb c "x" || Ascii.eqb c "X" then based 16
      else if Ascii.eqb c "o" || Ascii.eqb c "O" then based 8
      else if Ascii.eqb c "b" || Ascii.eqb c "B" then based 2
      else
        let l := read_literal t in
        if has_digit l && String.eqb (lit_rest l) "" then literal_value false l
        else S754_nan
  | t =>
      let (neg, body) := read_sign t in
      if String.eqb body "Infinity" then S754_infinity neg
      else
        let l := read_literal body in
        if has_digit l && String.eqb (lit_rest l) "" then literal_value neg l
        else S754_nan
  end.

(** Two doubles that are the same value with the same sign. *)
Definition same (x y : double) : bool :=
  match x, y with
  | S754_zero a, S754_zero b => Bool.eqb a b
  | S754_infinity a, S754_infinity b => Bool.eqb a b
  | S754_nan, S754_nan => true
  | S754_finite a m e, S754_finite b m' e' => Bool.eqb a b && Pos.eqb m m' && (e =? e')
  | _, _ => false
  end.

(** [p / q < 10 ^ n]. *)
Definition below_pow10 (p q n : Z) : bool :=
  if 0 <=? n then p <? q * 10 ^ n else p * 10 ^ (- n) <? q.

(** The least [n], from [n] upwards, with [p / q < 10 ^ n]. *)
Fixpoint magnitude (fuel : nat) (p q n : Z) : Z :=
  match fuel with
  | O => n
  | S fuel' => if below_pow10 p q n then n else magnitude fuel' p q (n + 1)
  end.

(** The digits [s] and the exponent [e10] of the shortest decimal
    [s * 10 ^ e10] that reads back as [x], the positive double [p / q]
    with [10 ^ (n - 1) <= p / q < 10 ^ n]: [k] digits are tried, then one
    more; of two candidates that read back the nearer one is taken. *)
Fixpoint shortest (fuel : nat) (x : double) (p q n k : Z) : Z * Z :=
  let e10 := n - k in
  let a := if 0 <=? e10 then p else p * 10 ^ (- e10) in
  let b := if 0 <=? e10 then q * 10 ^ e10 else q in
  let lo := a / b in
  let r := a mod b in
  let up := (b <? 2 * r) || ((b =? 2 * r) && Z.odd lo) in
  match fuel with
  | O => (if up then lo + 1 else lo, e10)
  | S fuel' =>
      let lo_ok := same (scaled false lo e10) x in
      let hi_ok := same (scaled false (lo + 1) e10) x in
      if lo_ok && hi_ok then (if up then lo + 1 else lo, e10)
      else if lo_ok then (lo, e10)
      else if hi_ok then (lo + 1, e10)
      else shortest fuel' x p q n (k + 1)
  end.

(** Zeros at the end of the digits go to the exponent. *)
Fixpoint without_zeros (fuel : nat) (s e10 : Z) : Z * Z :=
  match fuel with
  | O => (s, e10)
  | S fuel' =>
      if (s mod 10 =? 0) && negb (s =? 0) then without_zeros fuel' (s / 10) (e10 + 1)
      else (s, e10)
  end.

Fixpoint zeros (n : nat) : string :=
  match n with
  | O => EmptyString
  | S n' => String "0" (zeros n')
  end.

(** The text of the positive number [ds * 10 ^ (n - k)], where [ds] are
    its [k] digits: positional up to 21 digits and down to six zeros
    after the point, with an exponent otherwise. *)
Definition positional (ds : string) (n : Z) : string :=
  let k := Z.of_nat (String.length ds) in
  if (k <=? n) && (n <=? 21) then ds ++ zeros (Z.to_nat (n - k))
  else if (0 <? n) && (n <=? 21)
  then String.substring 0 (Z.to_nat n) ds ++ "." ++
       String.substring (Z.to_nat n) (Z.to_nat (k - n)) ds
  else if (- 6 <? n) && (n <=? 0) then "0." ++ zeros (Z.to_nat (- n)) ++ ds
  else
    let mantissa := match ds with
                    | String d EmptyString => ds
                    | String d rest => String d ("." ++ rest)
                    | EmptyString => ds
                    end in
    mantissa ++ "e" ++ (if n - 1 <? 0 then "-" else "+") ++ JS.decimal (Z.abs (n - 1)).

(** [String(x)]. *)
Definition of_number (x : double) : string :=
  match x with
  | S754_nan => "NaN"
  | S754_zero _ => "0"
  | S754_infinity s => if s then "-Infinity" else "Infinity"
  | S754_finite s m e =>
      let p := if 0 <=? e then Z.pos m * 2 ^ e else Z.pos m in
      let q := if 0 <=? e then 1 else 2 ^ (- e) in
      let n0 := (Z.log2 p - Z.log2 q - 1) * 30103 / 100000 - 1 in
      let n := magnitude 8 p q n0 in
      let (s0, e0) := shortest 17 (S754_finite false m e) p q n 1 in
      let (s1, e1) := without_zeros 400 s0 e0 in
      let ds := JS.decimal s1 in
      (if s then "-" else "") ++ positional ds (e1 + Z.of_nat (String.length ds))
  end.

(** INTEGER affinity on a text: a text that is a decimal literal, with
    white space around it, becomes the integer it is when that is a
    64-bit integer, and the double nearest to it otherwise, which becomes
    an integer when that loses nothing; any other text stays. *)
Definition affinity (s : string) : sqlval :=
  let (neg, body) := read_sign (strip s) in
  let l := read_literal body in
  if has_digit l && String.eqb (lit_rest l) ""
  then
    let n := if neg then - value_of (lit_int l) else value_of (lit_int l) in
    match lit_frac l, lit_exp l with
    | None, None =>
        if (- 2 ^ 63 <=? n) && (n <? 2 ^ 63) then SqlInt n
        else Db.integer_column (literal_value neg l)
    | _, _ => Db.integer_column (literal_value neg l)
    end
  else SqlText s.

(** The format [%!.15g] on an integer of 16 digits or more: 15
    significant digits, a point with a digit after it, and an
    exponent. *)
Definition exponent_text (d : Z) : string :=
  let a := Z.abs d in
  let n := Z.of_nat (String.length (JS.decimal a)) in
  if n <=? 15 then JS.decimal d ++ ".0"
  else
    let scale := 10 ^ (n - 15) in
    let s := (a + scale / 2) / scale in
    let carried := 10 ^ 15 <=? s in
    let (s1, _) := without_zeros 15 (if carried then 1 else s) 0 in
    let x := if carried then n else n - 1 in
    let mantissa := match JS.decimal s1 with
                    | String c EmptyString => String c ".0"
                    | String c rest => String c ("." ++ rest)
                    | EmptyString => EmptyString
                    end in
    (if d <? 0 then "-" else "") ++ mantissa ++ "e+" ++
    (if x <? 10 then "0" else "") ++ JS.decimal x.

(** *** JSON text *)

(** The double quote. *)
Definition dquote : ascii := ascii_of_N 34.

Definition hex_char (n : N) : ascii :=
  if (n <? 10)%N then ascii_of_N (48 + n) else ascii_of_N (87 + n).

(** One character of a string literal, escaped as [JSON.stringify]
    escapes it. *)
Definition escape_char (a : ascii) : string :=
  let n := N_of_ascii a in
  if (n =? 34)%N then String "\" (String dquote "")
  else if (n =? 92)%N then "\\"
  else if (n =? 8)%N then "\b"
  else if (n =? 12)%N then "\f"
  else if (n =? 10)%N then "\n"
  else if (n =? 13)%N then "\r"
  else if (n =? 9)%N then "\t"
  else if (n <? 32)%N
       then "\u00" ++ String (hex_char (n / 16)) (String (hex_char (n mod 16)) "")
       else String a "".

Fixpoint escape (s : string) : string :=
  match s with
  | EmptyString => EmptyString
  | String a rest => escape_char a ++ escape rest
  end.

Definition quote (s : string) : string :=
  String dquote (escape s ++ String dquote "").

(** A number in JSON text: [null] when it is not finite. *)
Definition number_text (x : double) : string :=
  match x with
  | S754_nan => "null"
  | S754_infinity _ => "null"
  | _ => of_number x
  end.

Fixpoint stringify (v : json) : string :=
  match v with
  | JNull => "null"
  | JBool true => "true"
  | JBool false => "false"
  | JNum n => number_text n
  | JStr s => quote s
  | JArr elems => "[" ++ JS.join "," (List.map stringify elems) ++ "]"
  | JObj fields =>
      "{" ++ JS.join ","
               (List.map (fun kv => match kv with
                                    | (k, x) => quote k ++ ":" ++ stringify x
                                    end) fields) ++ "}"
  end.

Definition is_ws (a : ascii) : bool :=
  let n := N_of_ascii a in
  (n =? 32)%N || (n =? 9)%N || (n =? 10)%N || (n =? 13)%N.

Fixpoint skip_ws (s : string) : string :=
  match s with
  | String a rest => if is_ws a then skip_ws rest else s
  | EmptyString => EmptyString
  end.

(** [expect word s]: [s] without its prefix [word]. *)
Fixpoint expect (word s : string) : option string :=
  match word, s with
  | EmptyString, _ => Some s
  | String a w, String b r => if Ascii.eqb a b then expect w r else None
  | String _ _, EmptyString => None
  end.

(** A number literal of JSON: no sign but [-], no zero in front of
    another digit, and a digit after the point. *)
Definition read_number (s : string) : option (double * string) :=
  let (neg, body) := match s with
                     | String "-" r => (true, r)
                     | _ => (false, s)
                     end in
  let l := read_literal body in
  match lit_int l, lit_frac l with
  | EmptyString, _ => None
  | String "0" (String _ _), _ => None
  | _, Some EmptyString => None
  | _, _ => Some (literal_value neg l, lit_rest l)
  end.

(** The body of a string literal, after its opening quote. *)
Fixpoint read_string (s : string) : option (string * string) :=
  match s with
  | EmptyString => None
  | String a rest =>
      if Ascii.eqb a dquote then Some (EmptyString, rest)
      else if Ascii.eqb a "\" then
        match rest with
        | EmptyString => None
        | String c rest' =>
            let plain (x : ascii) (r : string) :=
              match read_string r with
              | Some (t, r') => Some (String x t, r')
              | None => None
              end in
            if Ascii.eqb c dquote then plain dquote rest'
            else
              match c with
              | "\"%char => plain "\"%char rest'
              | "/"%char => plain "/"%char rest'
              | "b"%char => plain (ascii_of_N 8) rest'
              | "f"%char => plain (ascii_of_N 12) rest'
              | "n"%char => plain (ascii_of_N 10) rest'
              | "r"%char => plain (ascii_of_N 13) rest'
              | "t"%char => plain (ascii_of_N 9) rest'
              | "u"%char =>
                  match rest' with
                  | String "0" (String "0" (String h (String l r))) =>
                      match hex_digit h, hex_digit l with
                      | Some x, Some y =>
                          if (16 * x + y <? 128)%N
                          then plain (ascii_of_N (16 * x + y)) r
                          else None
                      | _, _ => None
                      end
                  | _ => None
                  end
              | _ => None
              end
        end
      else if (N_of_ascii a <? 32)%N then None
      else match read_string rest with
           | Some (t, r') => Some (String a t, r')
           | None => None
           end
  end.

Fixpoint read_value (fuel : nat) (s : string) : option (json * string) :=
  match fuel with
  | O => None
  | S fuel' =>
      match skip_ws s with
      | String "n" r => option_map (pair JNull) (expect "ull" r)
      | String "t" r => option_map (pair (JBool true)) (expect "rue" r)
      | String "f" r => option_map (pair (JBool false)) (expect "alse" r)
      | String "[" r =>
          match skip_ws r with
          | String "]" r' => Some (JArr [], r')
          | _ => match read_elems fuel' r with
                 | Some (l, r') => Some (JArr l, r')
                 | None => None
                 end
          end
      | String "{" r =>
          match skip_ws r with
          | String "}" r' => Some (JObj [], r')
          | _ => match read_fields fuel' r with
                 | Some (l, r') => Some (JObj l, r')
                 | None => None
                 end
          end
      | String a r as t =>
          if Ascii.eqb a dquote
          then match read_string r with
               | Some (x, r') => Some (JStr x, r')
               | None => None
               end
          else match read_number t with
               | Some (n, r') => Some (JNum n, r')
               | None => None
               end
      | EmptyString => None
      end
  end
with read_elems (fuel : nat) (s : string) : option (list json * string) :=
  match fuel with
  | O => None
  | S fuel' =>
      match read_value fuel' s with
      | Some (x, r) =>
          match skip_ws r with
          | String "," r' =>
              match read_elems fuel' r' with
              | Some (l, r'') => Some (x :: l, r'')
              | None => None
              end
          | String "]" r' => Some ([x], r')
          | _ => None
          end
      | None => None
      end
  end
with read_fields (fuel : nat) (s : string) : option (list (string * json) * string) :=
  match fuel with
  | O => None
  | S fuel' =>
      match skip_ws s with
      | String a r =>
          if negb (Ascii.eqb a dquote) then None
          else
            match read_string r with
            | Some (k, r1) =>
                match skip_ws r1 with
                | String ":" r2 =>
                    match read_value fuel' r2 with
                    | Some (x, r3) =>
                        match skip_ws r3 with
                        | String "," r4 =>
                            match read_fields fuel' r4 with
                            | Some (l, r5) => Some ((k, x) :: l, r5)
                            | None => None
                            end
                        | String "}" r4 => Some ([(k, x)], r4)
                        | _ => None
                        end
                    | None => None
                    end
                | _ => None
                end
            | None => None
            end
      | EmptyString => None
      end
  end.

Definition parse (s : string) : option json :=
  match read_value (S (String.length s)) s with
  | Some (v, rest) =>
      match skip_ws rest with
      | EmptyString => Some v
      | _ => None
      end
  | None => None
  end.

#[export] Instance runtime : JSRuntime := {|
  decodeURIComponent := percent_decode;
  encodeURIComponent := percent_encode;
  trim := strip;
  JSON_stringify := stringify;
  JSON_parse := parse;
  string_to_number := to_number;
  number_to_string := of_number;
  integer_affinity := affinity;
  real_to_text := exponent_text
|}.

End Ref.

(** ** Examples on the reference runtime *)

Module Examples.
Import Ref.

Definition items25 : json :=
  JArr [JObj [("price", JNum 10); ("qty", JNum 2)];
        JObj [("price", JNum 5); ("qty", JNum 1)]].

Definition empty_world : World := mkWorld [] [] [] ∅ ∅ [].

Definition anonymous : Request :=
  mkRequest None None None "" None 1700000000000
    "2023-11-14T22:13:20.000Z" "11/14/2023, 22:13".

Definition body25 : TxBody :=
  mkTxBody (Some items25) None (Some (JBool true)) None None
    (Some (JObj [("lat", JNum 14); ("lng", JNum 121)])).

(** A body with the given items and nothing else. *)
Definition items_only (items : json) : TxBody :=
  mkTxBody (Some items) None None None None None.

(** A line without [qty] and a line without [price]. *)
Definition partial_lines : json :=
  JArr [JObj [("price", JNum 7)]; JObj [("qty", JNum 3)]].

(** Prices as a form sends them, as text, one with a fraction. *)
Definition dimes : json :=
  JArr [JObj [("price", JStr "0.1"); ("qty", JStr "3")]].

(** Two prices whose sum no double holds. *)
Definition large_prices : json :=
  JArr [JObj [("price", JNum 9007199254740992)]; JObj [("price", JNum 1)]].

Definition alice_pen : Product :=
  mkProduct "1700000000001.0" "Pen" (Some "") (Some "12") (SqlInt 4)
    (Some "1700000000001-pen.png") (Some "alice").

Definition Alice_ink : Product :=
  mkProduct "1700000000002.0" "Ink" (Some "") (Some "30") (SqlInt 1) None (Some "Alice").

Definition sale (id : Z) (owner : string) : TxRow :=
  mkTxRow id (Some owner)
    (Ref.stringify (JArr [JObj [("price", JNum 3); ("qty", JNum 1)]]))
    (Some 3) (Some 1) "CASH" 0
    None None "2023-11-14T22:13:20.000Z" "11/14/2023, 22:13".

Definition ledger : World :=
  mkWorld [] [] [sale 1 "alice"; sale 2 "bob"; sale 3 "alice"] ∅ ∅ [].

(** A ledger whose largest id is 2^53. *)
Definition full_ledger : World :=
  mkWorld [] [] [sale 1 "alice"; sale 9007199254740992 "bob"] ∅ ∅ [].

(** A product whose owner is the user named "null". *)
Definition null_mug : Product :=
  mkProduct "1700000000003.0" "Mug" (Some "") (Some "5") (SqlInt 2)
    (Some "1700000000003-mug.png") (Some "null").

Definition null_shop : World :=
  mkWorld [] [null_mug] [] {["1700000000003-mug.png"]} ∅ [].

Definition delete_anonymously (id : string) : Request :=
  mkRequest None None None id None 1700000000000
    "2023-11-14T22:13:20.000Z" "11/14/2023, 22:13".

(** [?username=] with an [x-username: bob] header. *)
Definition empty_query : Request :=
  mkRequest (Some "") (Some "bob") None "" None 1700000000000
    "2023-11-14T22:13:20.000Z" "11/14/2023, 22:13".

(** No query parameter, no header, two cookies. *)
Definition with_cookie : Request :=
  mkRequest None None (Some "theme=dark; username=alice") "" None 1700000000000
    "2023-11-14T22:13:20.000Z" "11/14/2023, 22:13".

(** The shop of [null_shop] when the second store call to come fails. *)
Definition failing_delete : World :=
  mkWorld [] [null_mug] [] {["1700000000003-mug.png"]} ∅
    [None; Some "SQLITE_BUSY: database is locked"].

(** A shop whose store fails at the next call. *)
Definition broken_shop : World :=
  mkWorld [] [alice_pen; Alice_ink] [] {["1700000000001-pen.png"]} ∅
    [Some "SQLITE_BUSY: database is locked"].

Definition shop : World :=
  mkWorld [] [alice_pen; Alice_ink] [] {["1700000000001-pen.png"]} ∅ [].

(** A product created with the stock "9007199254740993", which the
    column holds as that integer. *)
Definition bulk_nails : Product :=
  mkProduct "1700000000004.0" "Nails" (Some "") (Some "1")
    (SqlInt 9007199254740993) None (Some "alice").

Definition warehouse : World := mkWorld [] [bulk_nails] [] ∅ ∅ [].

End Examples.


(** ** The rest of [server.js] *)

Module Session.

(** Route 9: [GET /whoami].  The handler has no [try]: an exception of
    [parseCookies] leaves it and no body is sent by the handler.  The
    result is the [username] field of the JSON body. *)
Definition whoami `{JSRuntime} (req : Request) : outcome (option string) :=
  match Server.parseCookies (req_cookie req) with
  | Ok cookies => Ok (JS.str_or_null (cookies !! "username"))
  | Throw e => Throw e
  | Crash => Crash
  end.

(** The Cookie header a browser sends back for the cookie that
    [res.cookie('username', name)] sets: the value is written with
    [encodeURIComponent]. *)
Definition cookie_header_for `{JSRuntime} (name : string) : string :=
  "username=" ++ encodeURIComponent name.

End Session.

(** The file names multer is configured with.  A name is a sequence of
    UTF-16 code units, on which the class [\s] of the regular expression
    is defined. *)
Module Upload.

(** [\s]: white space and line terminators. *)
Definition is_white (c : N) : bool :=
  ((c =? 9) || (c =? 10) || (c =? 11) || (c =? 12) || (c =? 13) || (c =? 32) ||
   (c =? 160) || (c =? 5760) || ((8192 <=? c) && (c <=? 8202)) ||
   (c =? 8232) || (c =? 8233) || (c =? 8239) || (c =? 8287) ||
   (c =? 12288) || (c =? 65279))%N.

(** [s.replace(/\s+/g, '-')]: [in_run] says that the code unit before
    was white, so that a run gives one hyphen. *)
Fixpoint collapse (in_run : bool) (s : list N) : list N :=
  match s with
  | [] => []
  | c :: rest =>
      if is_white c
      then if in_run then collapse true rest else 45%N :: collapse true rest
      else c :: collapse false rest
  end.

Definition replace_whitespace (s : list N) : list N := collapse false s.

(** The code units of an ASCII text. *)
Definition units (s : string) : list N :=
  List.map N_of_ascii (list_ascii_of_string s).

(** [Date.now() + '-' + file.originalname.replace(/\s+/g, '-')]. *)
Definition safeName (now : Z) (originalname : list N) : list N :=
  (units (JS.decimal now) ++ units "-" ++ replace_whitespace originalname)%list.

(** [Date.now() + '-proof-' + file.originalname.replace(/\s+/g, '-')]. *)
Definition proofName (now : Z) (originalname : list N) : list N :=
  (units (JS.decimal now) ++ units "-proof-" ++ replace_whitespace originalname)%list.

End Upload.

(** ** Vocabulary for the properties of the routes *)

Module Frame.

(** Every run of [m] relates the world before to the world after. *)
Definition keeps (R : World -> World -> Prop) {A} (m : M A) : Prop :=
  forall w, R w (snd (m w)).

(** A relation between worlds that such runs compose along: it holds
    from a world to itself, follows a chain, and does not look at the
    fates of the store calls. *)
Definition steady (R : World -> World -> Prop) : Prop :=
  (forall w, R w w) /\
  (forall w1 w2 w3, R w1 w2 -> R w2 w3 -> R w1 w3) /\
  (forall w fs, R w (set_faults fs w)).

(** The primary keys: product ids, transaction ids, and the usernames
    that are not NULL. *)
Definition keys_unique (w : World) : Prop :=
  NoDup (product_id <$> products w) /\
  NoDup (row_id <$> transactions w) /\
  NoDup (omap user_username (users w)).

(** Unique keys before give unique keys after. *)
Definition keys_kept (w w' : World) : Prop :=
  keys_unique w -> keys_unique w'.

(** No stored owner is the empty string. *)
Definition owners_named (w : World) : Prop :=
  Forall (fun p => product_owner p <> Some "") (products w) /\
  Forall (fun r => row_owner r <> Some "") (transactions w).

Definition owners_kept (w w' : World) : Prop :=
  owners_named w -> owners_named w'.

Inductive part : Type := Users | Products | Transactions | Uploads.

Definition same_part (p : part) (w w' : World) : Prop :=
  match p with
  | Users => users w' = users w
  | Products => products w' = products w
  | Transactions => transactions w' = transactions w
  | Uploads => uploads w' = uploads w
  end.

(** The parts of the world a route may change. *)
Definition may_change (r : Server.Route) (p : part) : bool :=
  match r, p with
  | Server.PostRegister _, Users => true
  | Server.PostProducts _ _, (Products | Uploads) => true
  | Server.PostProduct _ _, (Products | Uploads) => true
  | Server.DeleteProduct _, (Products | Uploads) => true
  | Server.PostTransactions _ _, Transactions => true
  | _, _ => false
  end.

(** The name and the value [parseCookies] reads from one piece of the
    header. *)
Definition cookie_name `{JSRuntime} (piece : string) : string :=
  trim (List.hd "" (JS.split "=" piece)).

Definition cookie_value (piece : string) : string :=
  JS.join "=" (List.tl (JS.split "=" piece)).

(** The decoded value of [piece] when it is a cookie named [k]. *)
Definition pick `{JSRuntime} (k : string) (piece : string) : option string :=
  if decide (cookie_name piece = k) then decodeURIComponent (cookie_value piece)
  else None.

(** The world after the image clean-up of the two product routes. *)
Definition after_unlink (image : option string) (w : World) : World :=
  match image with
  | Some old => if String.eqb old "" then w else snd (Server.unlink_if_exists old w)
  | None => w
  end.

(** [c] occurs in [s]. *)
Fixpoint occurs (c : ascii) (s : string) : bool :=
  match s with
  | EmptyString => false
  | String a rest => Ascii.eqb a c || occurs c rest
  end.

(** The product [POST /products] inserts. *)
Definition new_product `{JSRuntime} (req : Request) (form : ProductForm)
    (owner : option string) : Product :=
  mkProduct (Db.number_as_text (req_now req))
    (JS.or_str (form_title form) "Untitled")
    (Some (JS.or_str (form_description form) ""))
    (Some (JS.or_str (form_price form) ""))
    (match form_stock form with
     | Some stock => if String.eqb stock "" then SqlInt 0 else integer_affinity stock
     | None => SqlInt 0
     end)
    (req_file req) owner.

End Frame.

(** More sample data. *)
Module Samples.

Definition carol : Credentials :=
  mkCredentials (Some "carol") (Some "pw1") (Some "c@x.com").

Definition carol_wrong : Credentials :=
  mkCredentials (Some "carol") (Some "PW1") None.

Definition at_time (now : Z) (user : option string) (file : option string) : Request :=
  mkRequest user None None "" file now "2023-11-14T22:13:20.000Z" "11/14/2023, 22:13".

Definition on_product (id : string) (user : option string) (file : option string) : Request :=
  mkRequest user None None id file 1700000000000
    "2023-11-14T22:13:20.000Z" "11/14/2023, 22:13".

Definition pen_form : ProductForm :=
  mkProductForm (Some "Pen") None (Some "12") (Some "4").

Definition broken_row : TxRow :=
  mkTxRow 7 (Some "alice") "oops" (Some 3) (Some 1) "CASH" 0
    None None "2023-11-14T22:13:20.000Z" "11/14/2023, 22:13".

Definition broken_ledger : World :=
  mkWorld [] [] [Examples.sale 1 "bob"; broken_row] ∅ ∅ [].

Definition members : World :=
  mkWorld [mkUser (Some "carol") "pw1" "c@x.com"; mkUser (Some "dave") "x" "d@x.com"]
    [] [] ∅ ∅ [].

(** A request that carries the cookie of "carol" and names "mallory" in
    its query string. *)
Definition carol_as_mallory : Request :=
  mkRequest (Some "mallory") None (Some "username=carol") "" None 1700000000000
    "2023-11-14T22:13:20.000Z" "11/14/2023, 22:13".

(** The owner of the pen deletes it; the image file is there. *)
Definition alice_deletes_pen : Request := on_product "1700000000001.0" (Some "alice") None.

(** Someone else tries. *)
Definition bob_deletes_pen : Request := on_product "1700000000001.0" (Some "bob") None.

(** A new picture for the pen. *)
Definition new_pen_picture : Request :=
  on_product "1700000000001.0" None (Some "1700000000500-pen2.png").

(** A request on the nails that carries a new title and nothing else. *)
Definition rename_nails : Request := on_product "1700000000004.0" None None.

End Samples.


(** ** Properties *)

(** *** The monad and the store calls *)

Lemma set_faults_same (w : World) : set_faults (faults w) w = w.
Proof. by destruct w. Qed.

Lemma db_call_through {A} (f : M A) (w : World) :
  faults w = [] -> db_call f w = f w.
Proof. unfold db_call. by intros ->. Qed.

Lemma db_call_fault {A} (f : M A) (w : World) msg rest :
  faults w = Some msg :: rest ->
  db_call f w = (Throw (DbError msg), set_faults rest w).
Proof. unfold db_call. by intros ->. Qed.

(** A store call that goes through runs on the world without the fate
    of that call. *)
Lemma db_call_next {A} (f : M A) (w : World) :
  hd None (faults w) = None -> db_call f w = f (Spec.after_call w).
Proof.
  unfold db_call, Spec.after_call.
  destruct (faults w) as [|[msg|] rest] eqn:Hfaults; [|done|done].
  intros _. simpl. by rewrite <- Hfaults, set_faults_same.
Qed.

(** *** Integers held by doubles *)

Section Doubles.

(** Up to 2^53 in magnitude an integer is a double. *)
Lemma round_exact (z : Z) : - 2 ^ 53 <= z <= 2 ^ 53 -> Double.round z = z.
Proof.
  intros Hz. unfold Double.round.
  destruct (Z.leb_spec (Z.log2 (Z.abs z) - 52) 0) as [|Hk]; [done|].
  assert (Hbig : 2 ^ 53 <= Z.abs z).
  { destruct (Z.lt_ge_cases (Z.abs z) (2 ^ 53)) as [Hlt|]; [|done].
    destruct (Z.eq_dec (Z.abs z) 0) as [Hzero|Hnz].
    - rewrite Hzero in Hk. simpl in Hk. lia.
    - apply Z.log2_lt_pow2 in Hlt; lia. }
  assert (z = 2 ^ 53 \/ z = - 2 ^ 53) as [-> | ->] by lia; reflexivity.
Qed.

Lemma round_safe (z : Z) : Double.safe z -> Double.round z = z.
Proof. unfold Double.safe. intros Hz. apply round_exact. lia. Qed.

(** The digits of a significand, and a significand shifted left. *)
Lemma digits2_size (p : positive) : digits2_pos p = Pos.size p.
Proof. induction p; simpl; congruence. Qed.

Lemma iter_xO (p k : positive) : Z.pos (Pos.iter xO p k) = Z.pos p * 2 ^ Z.pos k.
Proof.
  induction k using Pos.peano_ind.
  - simpl. lia.
  - rewrite Pos.iter_succ, Pos2Z.inj_succ, Z.pow_succ_r by lia.
    rewrite Pos2Z.inj_xO, IHk. lia.
Qed.

Lemma size_iter_xO (p k : positive) :
  Pos.size (Pos.iter xO p k) = (Pos.size p + k)%positive.
Proof.
  induction k using Pos.peano_ind.
  - simpl. lia.
  - rewrite Pos.iter_succ. simpl. rewrite IHk. lia.
Qed.

Lemma size_bound (p : positive) : Z.pos p < 2 ^ 53 -> Z.pos (Pos.size p) <= 53.
Proof.
  intros Hp. pose proof (Pos.size_le p) as Hle.
  destruct (Z.le_gt_cases (Z.pos (Pos.size p)) 53) as [|Hgt]; [assumption|].
  exfalso.
  assert (H2 : 2 ^ 54 <= 2 ^ Z.pos (Pos.size p)) by (apply Z.pow_le_mono_r; lia).
  assert (H3 : 2 ^ Z.pos (Pos.size p) <= Z.pos (p~0)).
  { rewrite <- Pos2Z.inj_pow. apply Pos2Z.pos_le_pos. exact Hle. }
  lia.
Qed.

(** A significand below 2^53 at exponent 0 is kept by the rounding of
    binary64. *)
Lemma round_pos (s : bool) (p : positive) :
  Z.pos p < 2 ^ 53 ->
  Double.to_Z (binary_round 53 1024 s p 0) = Some (cond_Zopp s (Z.pos p)).
Proof.
  intros Hp. pose proof (size_bound p Hp) as Hsize.
  unfold binary_round. rewrite digits2_size.
  unfold fexp, emin.
  replace (Z.max (Z.pos (Pos.size p) + 0 - 53) (3 - 1024 - 53))
    with (Z.pos (Pos.size p) - 53) by lia.
  unfold shl_align.
  destruct (Z.pos (Pos.size p) - 53 - 0) as [|k|k] eqn:Hk; [|lia|].
  - unfold binary_round_aux, shr_fexp, fexp, emin. cbn [Zdigits2 shr_record_of_loc].
    rewrite digits2_size.
    replace (Z.max (Z.pos (Pos.size p) + 0 - 53) (3 - 1024 - 53) - 0) with 0 by lia.
    cbn [shr shr_m loc_of_shr_record round_nearest_even Zdigits2].
    rewrite digits2_size.
    replace (Z.max (Z.pos (Pos.size p) + 0 - 53) (3 - 1024 - 53) - 0) with 0 by lia.
    cbn [shr shr_m]. change (0 <=? 1024 - 53) with true.
    cbn [Double.to_Z]. change (0 <=? 0) with true.
    by rewrite Z.pow_0_r, Z.mul_1_r.
  - assert (Hsz : Z.pos (Pos.size (Pos.iter xO p k)) = 53).
    { rewrite size_iter_xO. lia. }
    assert (He : Z.pos (Pos.size p) - 53 = Z.neg k) by lia.
    rewrite He.
    unfold binary_round_aux, shr_fexp, fexp, emin. cbn [Zdigits2 shr_record_of_loc].
    rewrite digits2_size, Hsz.
    replace (Z.max (53 + Z.neg k - 53) (3 - 1024 - 53) - Z.neg k) with 0 by lia.
    cbn [shr shr_m loc_of_shr_record round_nearest_even Zdigits2].
    rewrite digits2_size, Hsz.
    replace (Z.max (53 + Z.neg k - 53) (3 - 1024 - 53) - Z.neg k) with 0 by lia.
    cbn [shr shr_m].
    replace (Z.neg k <=? 1024 - 53) with true by (symmetry; apply Z.leb_le; lia).
    cbn [Double.to_Z]. replace (0 <=? Z.neg k) with false by (symmetry; apply Z.leb_gt; lia).
    rewrite iter_xO. cbn [Z.opp].
    rewrite Z.mod_mul by lia. rewrite Z.eqb_refl. rewrite Z.div_mul by lia. reflexivity.
Qed.

(** A safe integer is a double: the conversion to binary64 and back
    returns it, as the rounding written out on integers does. *)
Lemma of_Z_exact (z : Z) :
  Double.safe z -> Double.to_Z (Double.of_Z z) = Some (Double.round z).
Proof.
  intros Hz. rewrite round_safe by done.
  unfold Double.safe in Hz. unfold Double.of_Z, binary_normalize.
  destruct z as [|p|p]; [done| |].
  - apply (round_pos false). lia.
  - apply (round_pos true). lia.
Qed.

(** Beyond the safe integers the rounding written out on integers is
    the one of binary64 on sample points around the limits. *)
Lemma round_agrees :
  Forall (fun z => Double.to_Z (Double.of_Z z) = Some (Double.round z))
    [0; 1; -1; 4; 1700000000009; 9007199254740991; 9007199254740992;
     9007199254740993; 9007199254740994; 9007199254740995;
     -9007199254740993; 18014398509481986; 18014398509481990;
     18014398509481991; 9223372036854775295; 9223372036854775807;
     -9223372036854775808; 12345678901234567890123].
Proof. repeat constructor. Qed.

End Doubles.

(** *** Transaction ids *)

Section NextId.

Lemma fold_max_spec (rest : list TxRow) (m0 : Z) :
  let m := List.fold_left (fun m r' => Z.max m (row_id r')) rest m0 in
  (m = m0 \/ m ∈ row_id <$> rest) /\
  m0 <= m /\ (forall x, x ∈ row_id <$> rest -> x <= m).
Proof.
  revert m0. induction rest as [|r rest IH]; intros m0; simpl.
  - split; [by left|]. split; [lia|]. intros x Hx. by apply elem_of_nil in Hx.
  - destruct (IH (Z.max m0 (row_id r))) as (Hin & Hle & Hall).
    split; [|split].
    + destruct Hin as [Hin|Hin].
      * destruct (Z.max_spec m0 (row_id r)) as [[_ Hm]|[_ Hm]].
        -- right. rewrite Hin, Hm. apply elem_of_cons. by left.
        -- left. by rewrite Hin, Hm.
      * right. apply elem_of_cons. by right.
    + lia.
    + intros x Hx. apply elem_of_cons in Hx as [->|Hx]; [lia|by apply Hall].
Qed.

(** [MAX(id)] is the id of a stored row and bounds every stored id. *)
Lemma max_id_spec (rows : list TxRow) (m : Z) :
  Db.max_id rows = Some m ->
  m ∈ row_id <$> rows /\ forall x, x ∈ row_id <$> rows -> x <= m.
Proof.
  destruct rows as [|r rest]; [done|]. simpl. intros [= <-].
  destruct (fold_max_spec rest (row_id r)) as (Hin & Hle & Hall).
  split.
  - apply elem_of_cons. destruct Hin as [->|Hin]; [by left|by right].
  - intros x Hx. apply elem_of_cons in Hx as [->|Hx]; [done|by apply Hall].
Qed.

Lemma max_id_none (rows : list TxRow) : Db.max_id rows = None <-> rows = [].
Proof. by destruct rows. Qed.

(** After a maximum that is a safe integer comes the next integer. *)
Lemma next_id_of_some (m : Z) : Double.safe m -> Db.next_id_of (Some m) = m + 1.
Proof.
  intros Hm. unfold Db.next_id_of. rewrite (round_safe m Hm).
  unfold Double.safe in Hm.
  destruct (Z.eqb_spec m 0) as [->|]; [reflexivity|].
  apply round_exact. lia.
Qed.

Lemma max_id_safe (rows : list TxRow) (m : Z) :
  Forall (fun r => Double.safe (row_id r)) rows ->
  Db.max_id rows = Some m -> Double.safe m.
Proof.
  intros Hsafe Hm. apply max_id_spec in Hm as [Hin _].
  apply list_elem_of_fmap in Hin as (r & -> & Hr).
  rewrite Forall_forall in Hsafe. by apply Hsafe.
Qed.

End NextId.

(** What [(MAX(id) || 0) + 1] is, in terms of the stored ids, when these
    are safe integers. *)
Lemma next_id_spec (rows : list TxRow) :
  Forall (fun r => Double.safe (row_id r)) rows ->
  let n := Db.next_id_of (Db.max_id rows) in
  (rows = [] -> n = 1) /\
  (rows <> [] ->
     n - 1 ∈ row_id <$> rows /\ forall x, x ∈ row_id <$> rows -> x <= n - 1) /\
  (forall k : nat, row_id <$> rows ≡ₚ Z.of_nat <$> seq 1 k -> n = Z.of_nat k + 1).
Proof.
  intros Hsafe.
  assert (Hnext :
    let n := Db.next_id_of (Db.max_id rows) in
    (rows = [] -> n = 1) /\
    (rows <> [] ->
       n - 1 ∈ row_id <$> rows /\ forall x, x ∈ row_id <$> rows -> x <= n - 1)).
  { destruct (Db.max_id rows) as [m|] eqn:Hm.
    - pose proof (max_id_safe rows m Hsafe Hm) as Hsafe_m.
      apply max_id_spec in Hm as [Hin Hle]. simpl.
      rewrite (next_id_of_some m Hsafe_m).
      split.
      + intros E. rewrite E in Hin. by apply elem_of_nil in Hin.
      + intros _. by replace (m + 1 - 1) with m by lia.
    - apply max_id_none in Hm. by rewrite Hm. }
  intros n. destruct Hnext as [Hempty Hmax]. fold n in Hempty, Hmax.
  split; [done|]. split; [done|].
  intros k Hk. destruct rows as [|r rows].
  - specialize (Hempty eq_refl). simpl in Hk.
    apply Permutation_nil_l in Hk. destruct k; [simpl; lia|done].
  - destruct Hmax as [Hin Hle]; [done|].
    assert (Hup : n - 1 <= Z.of_nat k).
    { rewrite Hk in Hin. apply list_elem_of_fmap in Hin as (j & -> & Hj).
      apply elem_of_seq in Hj. lia. }
    assert (Hk0 : (0 < k)%nat).
    { destruct k; [|lia]. simpl in Hk. symmetry in Hk.
      by apply Permutation_nil_l in Hk. }
    assert (Hlow : Z.of_nat k <= n - 1).
    { apply Hle. rewrite Hk. apply list_elem_of_fmap. exists k. split; [done|].
      apply elem_of_seq. lia. }
    lia.
Qed.

(** C2 (amended).  When the store call goes through and the stored ids
    are safe integers (below 2^53 in magnitude), [getNextTransactionId]
    resolves with (the largest stored transaction id, or 0 on an empty
    ledger) + 1 and leaves the ledger as it is: 1 on an empty ledger, and
    [n + 1] when the stored ids are 1..n. *)
Theorem next_transaction_id (w : World) :
  hd None (faults w) = None ->
  Forall (fun r => Double.safe (row_id r)) (transactions w) ->
  exists n w',
    Db.getNextTransactionId w = (Ok n, w') /\
    transactions w' = transactions w /\
    (transactions w = [] -> n = 1) /\
    (transactions w <> [] ->
       n - 1 ∈ row_id <$> transactions w /\
       forall x, x ∈ row_id <$> transactions w -> x <= n - 1) /\
    (forall k : nat,
       row_id <$> transactions w ≡ₚ Z.of_nat <$> seq 1 k -> n = Z.of_nat k + 1).
Proof.
  intros Hf Hsafe.
  destruct (next_id_spec (transactions w) Hsafe) as (Hempty & Hmax & Hperm).
  unfold Db.getNextTransactionId. rewrite (db_call_next _ _ Hf).
  exists (Db.next_id_of (Db.max_id (transactions w))), (Spec.after_call w). auto.
Qed.

Lemma next_transaction_id_witness :
  (exists n w',
     Db.getNextTransactionId Examples.ledger = (Ok n, w') /\
     transactions w' = transactions Examples.ledger /\ n = 4) /\
  (exists n w',
     Db.getNextTransactionId Examples.empty_world = (Ok n, w') /\ n = 1).
Proof.
  split.
  - destruct (next_transaction_id Examples.ledger eq_refl)
      as (n & w' & Hrun & Hsame & _ & _ & Hperm).
    { repeat constructor; unfold Double.safe; simpl; lia. }
    exists n, w'. split; [done|]. split; [done|]. by apply (Hperm 3%nat).
  - destruct (next_transaction_id Examples.empty_world eq_refl)
      as (n & w' & Hrun & _ & Hempty & _); [constructor|].
    exists n, w'. split; [done|]. by apply Hempty.
Defined.

(** On a ledger whose largest id is 2^53 the next id is 2^53 again:
    [2^53 + 1] is no double.  The id is taken, and a transaction posted to
    that ledger is answered 500. *)
Lemma next_id_repeats :
  Db.max_id (transactions Examples.full_ledger) = Some 9007199254740992 /\
  Db.getNextTransactionId Examples.full_ledger =
    (Ok 9007199254740992, Examples.full_ledger) /\
  9007199254740992 ∈ row_id <$> transactions Examples.full_ledger /\
  9007199254740992 <> 9007199254740992 + 1 /\
  @Server.post_transactions Ref.runtime Examples.anonymous Examples.body25
    Examples.full_ledger =
  (Ok (Respond 500 (BError "Server error")), Examples.full_ledger).
Proof.
  split; [reflexivity|]. split; [reflexivity|]. split; [|split; [lia|reflexivity]].
  apply elem_of_cons. right. apply elem_of_cons. by left.
Qed.

(** The id that [getNextTransactionId] hands out is accepted by the
    ledger, when the stored ids are safe integers: it is a 64-bit integer
    that no stored row has, and a double. *)
Lemma next_id_accepted (rows : list TxRow) :
  Forall (fun r => Double.safe (row_id r)) rows ->
  let n := Db.next_id_of (Db.max_id rows) in
  Double.inside_int64 n = true /\
  existsb (fun r => row_id r =? n) rows = false /\
  Double.round n = n /\
  forall r, r ∈ rows -> row_id r < n.
Proof.
  intros Hsafe n.
  assert (Hn : - 2 ^ 53 < n <= 2 ^ 53 /\ forall r, r ∈ rows -> row_id r < n).
  { unfold n. destruct (Db.max_id rows) as [m|] eqn:Hm.
    - pose proof (max_id_safe rows m Hsafe Hm) as Hsafe_m.
      rewrite (next_id_of_some m Hsafe_m).
      apply max_id_spec in Hm as [_ Hle]. unfold Double.safe in Hsafe_m.
      split; [lia|]. intros r Hr.
      assert (row_id r <= m); [|lia].
      apply Hle, list_elem_of_fmap. by exists r.
    - apply max_id_none in Hm. subst rows. split; [by vm_compute|].
      intros r Hr. by apply elem_of_nil in Hr. }
  destruct Hn as [Hrange Hbelow].
  split; [|split; [|split; [|done]]].
  - unfold Double.inside_int64. apply andb_true_iff. split.
    + apply Z.ltb_lt. lia.
    + apply Z.ltb_lt. lia.
  - apply not_true_is_false. intros Hex.
    apply existsb_exists in Hex as (r & Hr & Heq).
    apply Z.eqb_eq in Heq. apply list_elem_of_In in Hr.
    specialize (Hbelow r Hr). lia.
  - apply round_exact. lia.
Qed.

(** *** Totals of a transaction *)

Section Totals.
Context `{JSRuntime}.

(** A value that does not convert to a number is an array or an object,
    and so it is truthy. *)
Lemma no_number_truthy (v : json) : JS.Number v = None -> JS.truthy v = true.
Proof. by destruct v. Qed.

Lemma qty_of_line (item : json) :
  Spec.line_item item = true -> Server.qty_of item = Ok (Spec.qty_or_1 item).
Proof.
  unfold Server.qty_of, Spec.qty_or_1, Spec.line_item, Server.prop, Spec.field,
    Server.to_number, Spec.number_of.
  destruct item; try done; simpl.
  destruct (JS.assoc "qty" fields) as [q|]; [|done]. simpl.
  intros Hline. apply andb_true_iff in Hline as [Hq _].
  apply bool_decide_eq_true in Hq as [x Hx].
  destruct (JS.truthy q); [by rewrite Hx|done].
Qed.

Lemma price_of_line (item : json) :
  Spec.line_item item = true -> Server.price_of item = Ok (Spec.price_or_0 item).
Proof.
  unfold Server.price_of, Spec.price_or_0, Spec.line_item, Server.prop, Spec.field,
    Server.to_number, Spec.number_of.
  destruct item; try done; simpl.
  destruct (JS.assoc "price" fields) as [p|]; [|done]. simpl.
  intros Hline. apply andb_true_iff in Hline as [_ Hp].
  apply bool_decide_eq_true in Hp as [x Hx].
  destruct (JS.truthy p); [by rewrite Hx|done].
Qed.

(** [Number(v || d)] on a value that converts, and on one that does
    not. *)
Lemma to_number_or (v : option json) (d : double) :
  Spec.numeric v = true ->
  exists y, Server.to_number (JS.or_json v (JNum d)) = Ok y.
Proof.
  unfold Server.to_number, Spec.numeric, JS.or_json.
  destruct v as [x|]; [|by eexists].
  intros Hx. apply bool_decide_eq_true in Hx as [y Hy].
  destruct (JS.truthy x); [rewrite Hy|]; by eexists.
Qed.

Lemma to_number_or_throws (v : option json) (d : double) :
  Spec.numeric v = false ->
  Server.to_number (JS.or_json v (JNum d)) = Throw TypeError.
Proof.
  unfold Server.to_number, Spec.numeric, JS.or_json.
  destruct v as [x|]; [|done].
  intros Hx. apply bool_decide_eq_false in Hx.
  destruct (JS.Number x) as [y|] eqn:Hy; [by destruct Hx; eexists|].
  by rewrite (no_number_truthy x Hy), Hy.
Qed.

(** An entry that is no line item stops the first reduction with a
    [TypeError]. *)
Lemma add_line_total_throws (sum : double) (item : json) :
  Spec.line_item item = false -> Server.add_line_total sum item = Throw TypeError.
Proof.
  unfold Server.add_line_total, Server.qty_of, Server.price_of, Spec.line_item.
  destruct item; try done; cbn [Server.prop Spec.field].
  destruct (Spec.numeric (JS.assoc "qty" fields)) eqn:Hq.
  - destruct (to_number_or _ 1 Hq) as [y ->]. cbn [andb]. intros Hp.
    by rewrite (to_number_or_throws _ 0 Hp).
  - intros _. by rewrite (to_number_or_throws _ 1 Hq).
Qed.

(** The first reduction accumulates the line totals, in the order of the
    list. *)
Lemma reduce_line_totals (arr : list json) (acc : double) :
  Forall (fun item => Spec.line_item item = true) arr ->
  Server.reduce Server.add_line_total arr acc =
  Ok (List.fold_left
        (fun sum item => JS.add sum (JS.mul (Spec.qty_or_1 item) (Spec.price_or_0 item)))
        arr acc).
Proof.
  intros Hall. revert acc.
  induction Hall as [|item rest Hitem _ IH]; intros acc; simpl; [done|].
  unfold Server.add_line_total.
  by rewrite (qty_of_line _ Hitem), (price_of_line _ Hitem), IH.
Qed.

(** The second one the quantities. *)
Lemma reduce_line_qtys (arr : list json) (acc : double) :
  Forall (fun item => Spec.line_item item = true) arr ->
  Server.reduce Server.add_line_qty arr acc =
  Ok (List.fold_left (fun sum item => JS.add sum (Spec.qty_or_1 item)) arr acc).
Proof.
  intros Hall. revert acc.
  induction Hall as [|item rest Hitem _ IH]; intros acc; simpl; [done|].
  unfold Server.add_line_qty. by rewrite (qty_of_line _ Hitem), IH.
Qed.

Lemma reduce_stops (arr : list json) (acc : double) :
  Exists (fun item => Spec.line_item item = false) arr ->
  Server.reduce Server.add_line_total arr acc = Throw TypeError.
Proof.
  intros Hex. revert acc. induction arr as [|item rest IH]; intros acc.
  - by apply Exists_nil in Hex.
  - simpl. destruct (Spec.line_item item) eqn:Hitem.
    + apply Exists_cons in Hex as [Hex|Hex]; [congruence|].
      unfold Server.add_line_total.
      rewrite (qty_of_line _ Hitem), (price_of_line _ Hitem). by apply IH.
    + by rewrite add_line_total_throws.
Qed.

Lemma lines_or_not (arr : list json) :
  Forall (fun item => Spec.line_item item = true) arr \/
  Exists (fun item => Spec.line_item item = false) arr.
Proof.
  induction arr as [|item arr [Hall|Hex]].
  - left. constructor.
  - destruct (Spec.line_item item) eqn:Hitem.
    + left. by constructor.
    + right. by left.
  - right. by right.
Qed.

(** With line items, an identity that resolves, a store that answers and
    stored ids that are safe integers, the route stores one new row and
    answers 200. *)
Lemma post_transactions_ok (req : Request) (body : TxBody) (w : World)
    (arr : list json) (owner : option string) :
  body_items body = Some (JArr arr) ->
  arr <> [] ->
  Forall (fun item => Spec.line_item item = true) arr ->
  Server.username_of_request req = Ok owner ->
  faults w = [] ->
  Forall (fun r => Double.safe (row_id r)) (transactions w) ->
  let t := Spec.transaction_of req body owner arr
             (Db.next_id_of (Db.max_id (transactions w))) in
  Server.post_transactions req body w =
  (Ok (Respond 200 (BCreated t)),
   set_transactions (transactions w ++ [Db.row_of t]) w).
Proof.
  intros Hitems Hne Hall Howner Hfaults Hsafe t.
  destruct (next_id_accepted (transactions w) Hsafe) as (Hint & Hfresh & _ & _).
  unfold Server.post_transactions, try_catch, bind, lift.
  rewrite Hitems.
  replace (Server.no_items (JArr arr)) with false.
  2:{ unfold Server.no_items. simpl. by rewrite bool_decide_eq_false_2. }
  rewrite Howner. simpl.
  rewrite (reduce_line_totals _ _ Hall), (reduce_line_qtys _ _ Hall).
  unfold Db.getNextTransactionId. rewrite (db_call_through _ _ Hfaults).
  unfold Db.createTransaction. rewrite (db_call_through _ _ Hfaults).
  cbn [tx_id]. by rewrite Hint, Hfresh.
Qed.

(** Posting to a ledger whose ids are 1..k leaves one whose ids are
    1..k+1. *)
Lemma ledger_ids_grow (req : Request) (body : TxBody) (w : World)
    (arr : list json) (owner : option string) (k : nat) :
  body_items body = Some (JArr arr) ->
  arr <> [] ->
  Forall (fun item => Spec.line_item item = true) arr ->
  Server.username_of_request req = Ok owner ->
  faults w = [] ->
  Forall (fun r => Double.safe (row_id r)) (transactions w) ->
  row_id <$> transactions w ≡ₚ Z.of_nat <$> seq 1 k ->
  row_id <$> transactions (snd (Server.post_transactions req body w)) ≡ₚ
  Z.of_nat <$> seq 1 (S k).
Proof.
  intros Hitems Hne Hall Howner Hfaults Hsafe Hids.
  rewrite seq_S, fmap_app.
  rewrite (post_transactions_ok req body w arr owner) by done.
  destruct (next_id_spec (transactions w) Hsafe) as (_ & _ & Hnext).
  cbn [snd transactions set_transactions].
  rewrite fmap_app, Hids. cbn. rewrite (Hnext k Hids).
  by replace (Z.of_nat k + 1) with (Z.of_nat (1 + k)) by lia.
Qed.

(** A request with an entry that is no line item is answered 500 before
    any store call. *)
Lemma bad_item_rejected (req : Request) (body : TxBody) (w : World)
    (arr : list json) (owner : option string) :
  body_items body = Some (JArr arr) ->
  Exists (fun item => Spec.line_item item = false) arr ->
  Server.username_of_request req = Ok owner ->
  Server.post_transactions req body w = (Ok (Respond 500 (BError "Server error")), w).
Proof.
  intros Hitems Hex Howner.
  unfold Server.post_transactions, try_catch, bind, lift.
  rewrite Hitems.
  replace (Server.no_items (JArr arr)) with false.
  2:{ unfold Server.no_items. simpl. rewrite bool_decide_eq_false_2; [done|].
      intros ->. by apply Exists_nil in Hex. }
  rewrite Howner. simpl. by rewrite reduce_stops.
Qed.

End Totals.

(** C10 (amended).  For a non-empty list of line items (entries that are
    not null and whose [qty] and [price], where present, convert to
    numbers), posted to a ledger that takes the next id, the total is the
    sum over the items, in their order, of (qty or 1) × (price or 0) and
    the item count the sum of (qty or 1), sums and products being those of
    doubles; an item without [qty] counts with quantity 1 and an item
    without [price] with price 0.  The row holds those numbers, NULL
    standing for [NaN]. *)
Theorem line_item_defaults `{JSRuntime} (req : Request) (body : TxBody) (w : World)
    (arr : list json) (owner : option string) :
  body_items body = Some (JArr arr) ->
  arr <> [] ->
  Forall (fun item => Spec.line_item item = true) arr ->
  Server.username_of_request req = Ok owner ->
  faults w = [] ->
  Forall (fun r => Double.safe (row_id r)) (transactions w) ->
  exists t w' total count,
    Server.post_transactions req body w = (Ok (Respond 200 (BCreated t)), w') /\
    tx_total t = Some total /\ tx_itemCount t = Some count /\
    total =
      Spec.sum_of (fun item => JS.mul (Spec.qty_or_1 item) (Spec.price_or_0 item)) arr /\
    count = Spec.sum_of Spec.qty_or_1 arr /\
    (exists r, transactions w' = (transactions w ++ [r])%list /\
               row_total r = Db.stored_number total /\
               row_itemCount r = Db.stored_number count) /\
    (forall item, Spec.field item "qty" = None -> Spec.qty_or_1 item = 1) /\
    (forall item, Spec.field item "price" = None -> Spec.price_or_0 item = 0).
Proof.
  intros Hitems Hne Hall Howner Hfaults Hsafe.
  eexists _, _, _, _. split; [by apply post_transactions_ok|].
  split; [reflexivity|]. split; [reflexivity|]. split; [done|]. split; [done|]. split.
  - eexists. split; [reflexivity|done].
  - split; intros item Hnone.
    + unfold Spec.qty_or_1. by rewrite Hnone.
    + unfold Spec.price_or_0. by rewrite Hnone.
Qed.

(** C9.  A request whose [items] is missing or the empty list is answered
    400; no store call is made and the world is left as it was. *)
Theorem no_items_rejected `{JSRuntime} (req : Request) (body : TxBody) (w : World) :
  body_items body = None \/ body_items body = Some (JArr []) ->
  Server.post_transactions req body w =
  (Ok (Respond 400 (BError "No items in transaction")), w).
Proof.
  unfold Server.post_transactions, try_catch, ret.
  by intros [-> | ->].
Qed.

Lemma line_item_defaults_witness :
  (exists t w',
     @Server.post_transactions Ref.runtime Examples.anonymous
       (Examples.items_only Examples.partial_lines) Examples.ledger =
       (Ok (Respond 200 (BCreated t)), w') /\
     tx_total t = Some 7 /\ tx_itemCount t = Some 4) /\
  (exists t w',
     @Server.post_transactions Ref.runtime Examples.anonymous
       (Examples.items_only Examples.dimes) Examples.ledger =
       (Ok (Respond 200 (BCreated t)), w') /\
     tx_total t = Some (Ref.to_number "0.30000000000000004") /\
     tx_total t <> Some (Ref.to_number "0.3") /\
     tx_itemCount t = Some 3).
Proof.
  assert (Hsafe : Forall (fun r => Double.safe (row_id r)) (transactions Examples.ledger)).
  { repeat constructor; unfold Double.safe; simpl; lia. }
  split.
  - destruct (@line_item_defaults Ref.runtime Examples.anonymous
                (Examples.items_only Examples.partial_lines) Examples.ledger _ None eq_refl)
      as (t & w' & total & count & Hrun & Htotal & Hcount & -> & -> & _); try done.
    { repeat constructor. }
    exists t, w'. split; [done|]. split; [by rewrite Htotal|by rewrite Hcount].
  - destruct (@line_item_defaults Ref.runtime Examples.anonymous
                (Examples.items_only Examples.dimes) Examples.ledger _ None eq_refl)
      as (t & w' & total & count & Hrun & Htotal & Hcount & -> & -> & _); try done.
    { repeat constructor. }
    exists t, w'. split; [done|]. rewrite Htotal, Hcount.
    split; [by vm_compute|]. split; [by vm_compute|by vm_compute].
Defined.

(** A list with a null entry has no total: the request is answered 500
    and nothing is stored.  And the sum is the sum of doubles: the prices
    2^53 and 1 give the total 2^53. *)
Lemma null_entry_has_no_total :
  @Server.post_transactions Ref.runtime Examples.anonymous
    (Examples.items_only (JArr [JObj [("price", JNum 5)]; JNull])) Examples.ledger =
    (Ok (Respond 500 (BError "Server error")), Examples.ledger) /\
  exists t w',
    @Server.post_transactions Ref.runtime Examples.anonymous
      (Examples.items_only Examples.large_prices) Examples.ledger =
      (Ok (Respond 200 (BCreated t)), w') /\
    tx_total t = Some 9007199254740992.
Proof.
  split; [reflexivity|]. eexists _, _. split; reflexivity.
Qed.

Lemma no_items_rejected_witness :
  @Server.post_transactions Ref.runtime Examples.anonymous
    (mkTxBody (Some (JArr [])) None None None None None) Examples.shop =
  (Ok (Respond 400 (BError "No items in transaction")), Examples.shop).
Proof. apply (@no_items_rejected Ref.runtime). by right. Defined.

(** *** Listing *)

Section Listing.
Context `{JSRuntime}.

Lemma filter_bool_decide {A} (P : A -> Prop) `{!forall x, Decision (P x)} (l : list A) :
  List.filter (fun x => bool_decide (P x)) l = filter P l.
Proof.
  induction l as [|x l IH]; [done|]. simpl. rewrite filter_cons.
  destruct (decide (P x)) as [HP|HP].
  - by rewrite bool_decide_eq_true_2, IH.
  - by rewrite bool_decide_eq_false_2, IH.
Qed.

Lemma insert_desc_perm (r : TxRow) (l : list TxRow) :
  Db.insert_desc r l ≡ₚ r :: l.
Proof.
  induction l as [|r' l IH]; [done|]. simpl.
  destruct (row_id r' <=? row_id r); [done|].
  rewrite IH. apply Permutation_swap.
Qed.

Lemma order_by_id_desc_perm (l : list TxRow) : Db.order_by_id_desc l ≡ₚ l.
Proof.
  induction l as [|r l IH]; [done|].
  unfold Db.order_by_id_desc in *. simpl.
  by rewrite insert_desc_perm, IH.
Qed.

Lemma insert_desc_sorted (r : TxRow) (l : list TxRow) :
  Sorted Spec.newer_first l -> Sorted Spec.newer_first (Db.insert_desc r l).
Proof.
  induction 1 as [|r' l Hl IH Hhd]; simpl.
  - by repeat constructor.
  - destruct (Z.leb_spec (row_id r') (row_id r)) as [Hle|Hlt].
    + constructor; [by constructor|]. by constructor.
    + constructor; [done|].
      destruct Hhd as [|r'' l' Hr'']; simpl.
      * constructor. unfold Spec.newer_first. lia.
      * destruct (row_id r'' <=? row_id r); constructor;
          unfold Spec.newer_first in *; lia.
Qed.

Lemma order_by_id_desc_sorted (l : list TxRow) :
  StronglySorted Spec.newer_first (Db.order_by_id_desc l).
Proof.
  apply Sorted_StronglySorted.
  - intros a b c. unfold Spec.newer_first. lia.
  - induction l as [|r l IH]; [constructor|].
    by apply insert_desc_sorted.
Qed.

(** Rows that all parse give a list of transactions, one per row. *)
Lemma parse_rows_all (rows : list TxRow) :
  Forall (fun r => is_Some (Db.parse_row r)) rows ->
  exists ts, Db.parse_rows rows = Some ts /\
             Forall2 (fun t r => Db.parse_row r = Some t) ts rows.
Proof.
  induction 1 as [|r rows [t Ht] _ (ts & Hts & Hall)]; simpl.
  - by exists [].
  - rewrite Ht, Hts. exists (t :: ts). split; [done|]. by constructor.
Qed.

Lemma select_transactions_perm (owner : option string) (rows : list TxRow) :
  Db.select_transactions owner rows ≡ₚ
  if JS.truthy_str owner then filter (fun r => row_owner r = owner) rows else rows.
Proof.
  unfold Db.select_transactions. rewrite order_by_id_desc_perm.
  by rewrite filter_bool_decide.
Qed.

Lemma select_transactions_parse (owner : option string) (rows : list TxRow) :
  Forall (fun r => is_Some (Db.parse_row r)) rows ->
  Forall (fun r => is_Some (Db.parse_row r)) (Db.select_transactions owner rows).
Proof.
  rewrite !Forall_forall. intros Hparse r Hr. apply Hparse.
  rewrite select_transactions_perm in Hr.
  destruct (JS.truthy_str owner); [|done].
  by apply list_elem_of_filter in Hr as [_ Hr].
Qed.

Lemma truthy_str_nonempty (o : string) : o <> "" -> JS.truthy_str (Some o) = true.
Proof.
  intros Hne. simpl. by destruct (String.eqb_spec o "").
Qed.

End Listing.

(** C4 (amended).  With a filter string that is not empty, listing products
    or transactions returns exactly the records whose stored owner equals
    the filter character for character (the transactions newest first);
    without a filter, or with the empty string as filter, it returns every
    record. *)
Theorem listing_by_owner `{JSRuntime} (owner : option string) (w : World) :
  faults w = [] ->
  Forall (fun r => is_Some (Db.parse_row r)) (transactions w) ->
  exists ps ts rs,
    Db.getAllProducts owner w = (Ok ps, w) /\
    Db.getAllTransactions owner w = (Ok ts, w) /\
    Forall2 (fun t r => Db.parse_row r = Some t) ts rs /\
    StronglySorted Spec.newer_first rs /\
    (forall o, owner = Some o -> o <> "" ->
       ps = filter (fun p => product_owner p = Some o) (products w) /\
       rs ≡ₚ filter (fun r => row_owner r = Some o) (transactions w)) /\
    (owner = None \/ owner = Some "" ->
       ps = products w /\ rs ≡ₚ transactions w).
Proof.
  intros Hfaults Hparse.
  destruct (parse_rows_all _ (select_transactions_parse owner _ Hparse))
    as (ts & Hts & Hall).
  exists (Db.select_products owner (products w)), ts,
         (Db.select_transactions owner (transactions w)).
  split; [|split; [|split; [|split; [|split]]]].
  - unfold Db.getAllProducts. by rewrite db_call_through.
  - unfold Db.getAllTransactions. rewrite db_call_through by done. by rewrite Hts.
  - done.
  - apply order_by_id_desc_sorted.
  - intros o -> Hne. split.
    + unfold Db.select_products. rewrite truthy_str_nonempty by done.
      apply filter_bool_decide.
    + rewrite select_transactions_perm. by rewrite truthy_str_nonempty.
  - intros [-> | ->]; (split; [done|]); by rewrite select_transactions_perm.
Qed.

Lemma listing_by_owner_witness :
  exists ts,
    @Db.getAllProducts (Some "alice") Examples.shop = (Ok [Examples.alice_pen], Examples.shop) /\
    @Db.getAllTransactions Ref.runtime (Some "alice") Examples.ledger = (Ok ts, Examples.ledger) /\
    tx_id <$> ts = [3; 1].
Proof.
  destruct (@listing_by_owner Ref.runtime (Some "alice") Examples.shop eq_refl)
    as (ps & ts0 & rs0 & Hps & _ & _ & _ & Hsome & _); [by constructor|].
  destruct (Hsome "alice" eq_refl) as [Heq _]; [done|].
  destruct (@listing_by_owner Ref.runtime (Some "alice") Examples.ledger eq_refl)
    as (ps1 & ts & rs & _ & Hts & _ & _ & _ & _).
  { repeat constructor; eexists; vm_compute; reflexivity. }
  exists ts. split; [|split; [done|]].
  - rewrite Hps, Heq. reflexivity.
  - vm_compute in Hts. by injection Hts as <-.
Defined.

(** With the empty string as filter the WHERE clause is left out. *)
Lemma empty_filter_lists_everything :
  Db.getAllProducts (Some "") Examples.shop =
    (Ok [Examples.alice_pen; Examples.Alice_ink], Examples.shop) /\
  filter (fun p => product_owner p = Some "") (products Examples.shop) = [].
Proof. split; reflexivity. Qed.

(** *** Writing a transaction and reading it back *)

Section RoundTrip.
Context `{JSRuntime}.

Lemma or_null_truthy (x : option json) (l : json) :
  JS.or_null x = Some l -> JS.truthy l = true.
Proof.
  destruct x as [v|]; [|done]. simpl.
  destruct (JS.truthy v) eqn:Hv; [|done]. by intros [= <-].
Qed.

(** [x || null] keeps a truthy value and nothing else. *)
Lemma or_null_spec (x : option json) :
  match x with
  | Some l => JS.or_null x = if JS.truthy l then Some l else None
  | None => JS.or_null x = None
  end.
Proof. by destruct x. Qed.

(** A number that was read from its column is stored as it is. *)
Lemma stored_number_idem (x y : double) :
  Db.stored_number x = Some y -> Db.stored_number y = Some y.
Proof. destruct x; simpl; intros [= <-]; done. Qed.

(** The row written for [t] reads back as [t] with the numbers of its
    columns and its id as a double. *)
Lemma parse_row_of (t : Transaction) :
  JSON_parse (JSON_stringify (tx_items t)) = Some (tx_items t) ->
  (forall l, tx_location t = Some l -> JS.truthy l = true /\ Spec.survives_storage l) ->
  exists t',
    Db.parse_row (Db.row_of t) = Some t' /\
    (Double.round (tx_id t) = tx_id t -> t' = Spec.listed t).
Proof.
  intros Hitems Hloc. unfold Db.parse_row, Db.row_of, Spec.listed. simpl. rewrite Hitems.
  destruct t as [id owner items total count method proof file loc ts date]. simpl in *.
  destruct loc as [l|].
  - destruct (Hloc l eq_refl) as (Htruthy & Hne & Hparse). rewrite Htruthy.
    destruct (String.eqb_spec (JSON_stringify l) ""); [done|].
    rewrite Hparse. simpl. eexists. split; [reflexivity|].
    intros ->. by destruct proof.
  - eexists. split; [reflexivity|]. intros ->. by destruct proof.
Qed.

(** When the store answers, the identity resolves and every stored row
    parses, [GET /transactions] lists the selected rows, parsed. *)
Lemma get_transactions_ok (req : Request) (w : World) (user : option string) :
  faults w = [] ->
  Server.username_of_listing req = Ok user ->
  Forall (fun r => is_Some (Db.parse_row r)) (transactions w) ->
  exists ts,
    Server.get_transactions req w = (Ok (Respond 200 (BTransactions ts)), w) /\
    Forall2 (fun t r => Db.parse_row r = Some t) ts
      (Db.select_transactions user (transactions w)).
Proof.
  intros Hfaults Huser Hparse.
  destruct (parse_rows_all _ (select_transactions_parse user _ Hparse))
    as (ts & Hts & Hall).
  exists ts. split; [|done].
  unfold Server.get_transactions, try_catch, bind, lift.
  rewrite Huser. unfold Db.getAllTransactions.
  rewrite db_call_through by done. by rewrite Hts.
Qed.

(** A transaction posted and listed: what the route answers, what the
    ledger holds afterwards and what a listing gives to the owner and to a
    request with no identity. *)
Lemma post_then_list (req req' : Request) (body : TxBody) (w : World)
    (arr : list json) (owner : option string) :
  body_items body = Some (JArr arr) ->
  arr <> [] ->
  Forall (fun item => Spec.line_item item = true) arr ->
  Server.username_of_request req = Ok owner ->
  faults w = [] ->
  Forall (fun r => Double.safe (row_id r)) (transactions w) ->
  JSON_parse (JSON_stringify (JArr arr)) = Some (JArr arr) ->
  (forall l, body_location body = Some l -> JS.truthy l = true -> Spec.survives_storage l) ->
  Forall (fun r => is_Some (Db.parse_row r)) (transactions w) ->
  Server.username_of_listing req' = Ok owner \/
  Server.username_of_listing req' = Ok None ->
  let t := Spec.transaction_of req body owner arr
             (Db.next_id_of (Db.max_id (transactions w))) in
  let w' := set_transactions (transactions w ++ [Db.row_of t]) w in
  exists ts user,
    Server.post_transactions req body w = (Ok (Respond 200 (BCreated t)), w') /\
    Server.get_transactions req' w' = (Ok (Respond 200 (BTransactions ts)), w') /\
    Forall2 (fun t' r => Db.parse_row r = Some t') ts
      (Db.select_transactions user (transactions w')) /\
    Db.parse_row (Db.row_of t) = Some (Spec.listed t) /\
    Db.row_of t ∈ Db.select_transactions user (transactions w') /\
    (forall r, r ∈ Db.select_transactions user (transactions w') ->
       r ∈ transactions w \/ r = Db.row_of t) /\
    (forall r, r ∈ transactions w -> row_id r < tx_id t).
Proof.
  intros Hitems Hne Hall Howner Hfaults Hsafe Hjson Hloc Hparse Hlisting t w'.
  pose proof (post_transactions_ok req body w arr owner Hitems Hne Hall Howner Hfaults Hsafe)
    as Hpost. cbv zeta in Hpost. fold t in Hpost. fold w' in Hpost.
  destruct (next_id_accepted (transactions w) Hsafe) as (_ & _ & Hround & Hbelow).
  assert (Hback : Db.parse_row (Db.row_of t) = Some (Spec.listed t)).
  { destruct (parse_row_of t) as (t' & Ht' & Hsame).
    - done.
    - simpl. intros l Hl. pose proof (or_null_spec (body_location body)) as Hspec.
      destruct (body_location body) as [l0|]; [|by rewrite Hspec in Hl].
      rewrite Hspec in Hl. destruct (JS.truthy l0) eqn:Htruthy; [|done].
      injection Hl as <-. split; [done|by apply Hloc].
    - rewrite Ht'. f_equal. by apply Hsame. }
  assert (Hparse' : Forall (fun r => is_Some (Db.parse_row r)) (transactions w')).
  { simpl. apply Forall_app. split; [done|]. by repeat constructor. }
  assert (Hlist : exists user, Server.username_of_listing req' = Ok user /\
                               (user = owner \/ user = None)).
  { destruct Hlisting as [Hl|Hl]; eauto. }
  destruct Hlist as (user & Huser & Hwho).
  destruct (get_transactions_ok req' w' user Hfaults Huser Hparse') as (ts & Hget & Hrows).
  exists ts, user. split; [done|]. split; [done|]. split; [done|]. split; [done|].
  split; [|split; [|done]].
  - rewrite select_transactions_perm. simpl.
    assert (Hlast : Db.row_of t ∈ (transactions w ++ [Db.row_of t])%list).
    { apply elem_of_app. right. constructor. }
    destruct (JS.truthy_str user) eqn:Htruthy; [|done].
    apply list_elem_of_filter. split; [|done].
    simpl. by destruct Hwho as [-> | ->].
  - intros r Hr. rewrite select_transactions_perm in Hr.
    assert (Hr' : r ∈ transactions w').
    { destruct (JS.truthy_str user); [|done].
      by apply list_elem_of_filter in Hr as [_ Hr]. }
    simpl in Hr'. apply elem_of_app in Hr' as [Hr'|Hr']; [by left|].
    right. by apply list_elem_of_singleton in Hr'.
Qed.

End RoundTrip.

(** C3.  A transaction posted with the items
    [[{price:10,qty:2},{price:5,qty:1}]] to a ledger whose ids are safe
    integers is stored under the next id and listed afterwards, to its
    owner and to a request with no identity, with total 25 and item count
    3, the items as the structured value they were, the location as the
    structured value that was posted (null when none or a falsy one was)
    and [proofUploaded] the boolean of the posted value (a 0/1 flag in the
    row). *)
Theorem transaction_round_trip `{JSRuntime} (req req' : Request) (body : TxBody)
    (w : World) (owner : option string) :
  body_items body = Some Examples.items25 ->
  Server.username_of_request req = Ok owner ->
  faults w = [] ->
  Forall (fun r => Double.safe (row_id r)) (transactions w) ->
  JSON_parse (JSON_stringify Examples.items25) = Some Examples.items25 ->
  (forall l, body_location body = Some l -> JS.truthy l = true ->
     Spec.survives_storage l) ->
  Forall (fun r => is_Some (Db.parse_row r)) (transactions w) ->
  Server.username_of_listing req' = Ok owner \/
  Server.username_of_listing req' = Ok None ->
  exists t w' ts r,
    Server.post_transactions req body w = (Ok (Respond 200 (BCreated t)), w') /\
    Server.get_transactions req' w' = (Ok (Respond 200 (BTransactions ts)), w') /\
    t ∈ ts /\
    tx_total t = Some 25 /\ tx_itemCount t = Some 3 /\
    tx_items t = Examples.items25 /\
    (forall l, body_location body = Some l -> JS.truthy l = true ->
       tx_location t = Some l /\ row_location r = Some (JSON_stringify l)) /\
    (body_location body = None \/
     (exists l, body_location body = Some l /\ JS.truthy l = false) ->
       tx_location t = None /\ row_location r = None) /\
    (forall v, body_proofUploaded body = Some v -> tx_proofUploaded t = JS.truthy v) /\
    (body_proofUploaded body = None -> tx_proofUploaded t = false) /\
    transactions w' = (transactions w ++ [r])%list /\
    row_id r = tx_id t /\
    (forall r0, r0 ∈ transactions w -> row_id r0 < tx_id t) /\
    row_items r = JSON_stringify Examples.items25 /\
    row_total r = Some 25 /\ row_itemCount r = Some 3 /\
    row_proofUploaded r = (if tx_proofUploaded t then 1 else 0).
Proof.
  intros Hitems Howner Hfaults Hsafe Hjson Hloc Hparse Hlisting.
  destruct (post_then_list req req' body w _ owner Hitems) as
    (ts & user & Hpost & Hget & Hrows & Hback & Hselected & _ & Hbelow); try done.
  { repeat constructor. }
  set (t := Spec.transaction_of req body owner _ _) in *.
  set (w' := set_transactions (transactions w ++ [Db.row_of t]) w) in *.
  assert (Hlisted : Spec.listed t = t) by reflexivity.
  exists t, w', ts, (Db.row_of t).
  split; [done|]. split; [done|]. split.
  { apply list_elem_of_lookup in Hselected as [i Hi].
    destruct (Forall2_lookup_r _ _ _ _ _ Hrows Hi) as (t' & Ht' & Hrow).
    rewrite Hback, Hlisted in Hrow. injection Hrow as <-.
    by eapply list_elem_of_lookup_2. }
  split; [reflexivity|]. split; [reflexivity|]. split; [reflexivity|].
  split; [|split; [|split; [|split]]].
  - intros l Hl Htruthy. simpl. rewrite Hl. simpl. rewrite Htruthy. simpl.
    by rewrite Htruthy.
  - intros [Hnone|(l & Hl & Hfalsy)]; simpl.
    + by rewrite Hnone.
    + rewrite Hl. simpl. by rewrite Hfalsy.
  - intros v Hv. simpl. by rewrite Hv.
  - intros Hnone. simpl. by rewrite Hnone.
  - repeat split; try done.
Qed.

Lemma transaction_round_trip_witness :
  exists t w' ts,
    @Server.post_transactions Ref.runtime Examples.anonymous Examples.body25
      Examples.ledger = (Ok (Respond 200 (BCreated t)), w') /\
    @Server.get_transactions Ref.runtime Examples.anonymous w' =
      (Ok (Respond 200 (BTransactions ts)), w') /\
    t ∈ ts /\ tx_id t = 4 /\ tx_total t = Some 25 /\ tx_itemCount t = Some 3 /\
    tx_items t = Examples.items25 /\
    tx_location t = Some (JObj [("lat", JNum 14); ("lng", JNum 121)]) /\
    tx_proofUploaded t = true.
Proof.
  destruct (@transaction_round_trip Ref.runtime Examples.anonymous Examples.anonymous
              Examples.body25 Examples.ledger None)
    as (t & w' & ts & r & Hpost & Hget & Hin & Htotal & Hcount & Hitems & Hloc &
        _ & Hproof & _).
  - reflexivity.
  - reflexivity.
  - reflexivity.
  - repeat constructor; unfold Double.safe; simpl; lia.
  - vm_compute. reflexivity.
  - intros l [= <-] _. split; [done|]. vm_compute. reflexivity.
  - repeat constructor; eexists; vm_compute; reflexivity.
  - by right.
  - exists t, w', ts. split; [done|]. split; [done|]. split; [done|].
    split; [|split; [done|split; [done|split; [done|split]]]].
    + vm_compute in Hpost. by injection Hpost as <- _.
    + by destruct (Hloc _ eq_refl eq_refl).
    + by apply (Hproof (JBool true)).
Defined.

(** *** Updating a product *)

Section Update.
Context `{JSRuntime}.

Lemma find_map_update (id : string) (f : Product -> Product)
    (rows : list Product) (p : Product) :
  (forall q, product_id (f q) = product_id q) ->
  List.find (fun q => String.eqb (product_id q) id) rows = Some p ->
  List.find (fun q => String.eqb (product_id q) id)
    (List.map (fun q => if String.eqb (product_id q) id then f q else q) rows) =
  Some (f p).
Proof.
  intros Hid. induction rows as [|q rows IH]; [done|]. simpl.
  destruct (String.eqb (product_id q) id) eqn:Hq.
  - intros [= ->]. simpl. by rewrite Hid, Hq.
  - intros Hfind. simpl. rewrite Hq. by apply IH.
Qed.

Lemma filter_map_others (id : string) (f : Product -> Product) (rows : list Product) :
  (forall q, product_id (f q) = product_id q) ->
  List.filter (fun q => negb (String.eqb (product_id q) id))
    (List.map (fun q => if String.eqb (product_id q) id then f q else q) rows) =
  List.filter (fun q => negb (String.eqb (product_id q) id)) rows.
Proof.
  intros Hid. induction rows as [|q rows IH]; [done|]. simpl.
  destruct (String.eqb (product_id q) id) eqn:Hq; simpl.
  - by rewrite Hid, Hq.
  - by rewrite Hq, IH.
Qed.

(** A stock that is NULL or an integer up to 2^53 in magnitude is bound
    again as it was read. *)
Lemma bound_again_exact (v : sqlval) :
  v = SqlNull \/ (exists n, v = SqlInt n /\ - 2 ^ 53 <= n <= 2 ^ 53) ->
  Db.bound_again v = v.
Proof.
  intros [->|(n & -> & Hn)]; [done|]. simpl. rewrite (round_exact n Hn).
  replace (Double.inside_int64 n) with true; [done|].
  symmetry. unfold Double.inside_int64. apply andb_true_iff.
  split; apply Z.ltb_lt; lia.
Qed.

(** When the product is there and the store answers, the route rewrites
    the rows of that id and touches nothing else in the table. *)
Lemma post_product_ok (req : Request) (form : ProductForm) (w : World) (p : Product) :
  faults w = [] ->
  List.find (fun q => String.eqb (product_id q) (req_param_id req)) (products w) = Some p ->
  exists w',
    Server.post_product req form w = (Ok (Redirect "/inventory.html" None), w') /\
    products w' =
      List.map (fun q => if String.eqb (product_id q) (req_param_id req)
                         then Db.set_columns (product_title (Spec.merged req form p))
                                (product_description (Spec.merged req form p))
                                (product_price (Spec.merged req form p))
                                (product_stock (Spec.merged req form p))
                                (product_image (Spec.merged req form p)) q
                         else q) (products w) /\
    transactions w' = transactions w /\ users w' = users w /\
    (req_file req = None -> uploads w' = uploads w).
Proof.
  intros Hfaults Hfind.
  unfold Server.post_product, Server.multer_single, try_catch, bind, Spec.merged.
  unfold Db.getProductById, Db.updateProduct, Server.unlink_if_exists, ret.
  destruct (req_file req) as [file|] eqn:Hfile.
  - rewrite db_call_through by done. simpl. rewrite Hfind.
    destruct (product_image p) as [old|] eqn:Hold.
    + destruct (String.eqb old "").
      * rewrite db_call_through by done. simpl. eexists. by split.
      * destruct (_ && _); rewrite db_call_through by done; simpl;
          eexists; by split.
    + rewrite db_call_through by done. simpl. eexists. by split.
  - rewrite db_call_through by done. rewrite Hfind.
    rewrite db_call_through by done. simpl. eexists. by split.
Qed.

End Update.

(** C5 (amended).  Updating an existing product leaves the title, the
    description, the price and the image that the request does not carry
    at their stored values, and leaves the owner, the id and the other
    products alone.  A stock that the request does not carry is written
    back from the number it was read as: it keeps its stored value when
    that is NULL or an integer up to 2^53 in magnitude.  In particular a
    request that carries only [stock] changes only the stock. *)
Theorem update_frame `{JSRuntime} (req : Request) (form : ProductForm) (w : World)
    (p : Product) :
  faults w = [] ->
  List.find (fun q => String.eqb (product_id q) (req_param_id req)) (products w) = Some p ->
  exists w' p',
    Server.post_product req form w = (Ok (Redirect "/inventory.html" None), w') /\
    List.find (fun q => String.eqb (product_id q) (req_param_id req)) (products w') = Some p' /\
    List.filter (fun q => negb (String.eqb (product_id q) (req_param_id req))) (products w') =
    List.filter (fun q => negb (String.eqb (product_id q) (req_param_id req))) (products w) /\
    product_id p' = product_id p /\
    product_owner p' = product_owner p /\
    (form_title form = None -> product_title p' = product_title p) /\
    (form_description form = None -> product_description p' = product_description p) /\
    (form_price form = None -> product_price p' = product_price p) /\
    (form_stock form = None -> product_stock p' = Db.bound_again (product_stock p)) /\
    (form_stock form = None ->
     product_stock p = SqlNull \/
     (exists n, product_stock p = SqlInt n /\ - 2 ^ 53 <= n <= 2 ^ 53) ->
     product_stock p' = product_stock p) /\
    (req_file req = None ->
       product_image p' = product_image p /\ uploads w' = uploads w) /\
    (forall s, form_stock form = Some s -> product_stock p' = integer_affinity s) /\
    (forall s, form = mkProductForm None None None (Some s) -> req_file req = None ->
       p' = mkProduct (product_id p) (product_title p) (product_description p)
              (product_price p) (integer_affinity s) (product_image p)
              (product_owner p)).
Proof.
  intros Hfaults Hfind.
  destruct (post_product_ok req form w p Hfaults Hfind)
    as (w' & Hrun & Hproducts & _ & _ & Huploads).
  exists w', (Spec.merged req form p).
  split; [done|]. rewrite Hproducts. split; [|split].
  - by rewrite (find_map_update _ _ _ p) by done.
  - by apply filter_map_others.
  - unfold Spec.merged. simpl.
    split; [done|]. split; [done|].
    split; [by intros ->|]. split; [by intros ->|].
    split; [by intros ->|]. split; [by intros ->|].
    split; [|split; [|split]].
    + intros -> Hstock. by apply bound_again_exact.
    + intros Hfile. rewrite Hfile. split; [done|by apply Huploads].
    + by intros s ->.
    + intros s -> Hfile. simpl. by rewrite Hfile.
Qed.

Lemma update_frame_witness :
  exists w',
    @Server.post_product Ref.runtime
      (mkRequest None None None "1700000000001.0" None 0 "" "")
      (mkProductForm None None None (Some "9")) Examples.shop =
    (Ok (Redirect "/inventory.html" None), w') /\
    products w' =
      [mkProduct "1700000000001.0" "Pen" (Some "") (Some "12") (SqlInt 9)
         (Some "1700000000001-pen.png") (Some "alice");
       Examples.Alice_ink] /\
    uploads w' = uploads Examples.shop /\
    exists w'',
      @Server.post_product Ref.runtime
        (mkRequest None None None "1700000000001.0" None 0 "" "")
        (mkProductForm (Some "Quill") None None None) Examples.shop =
      (Ok (Redirect "/inventory.html" None), w'') /\
      products w'' =
        [mkProduct "1700000000001.0" "Quill" (Some "") (Some "12") (SqlInt 4)
           (Some "1700000000001-pen.png") (Some "alice");
         Examples.Alice_ink].
Proof.
  destruct (@update_frame Ref.runtime
              (mkRequest None None None "1700000000001.0" None 0 "" "")
              (mkProductForm None None None (Some "9")) Examples.shop
              Examples.alice_pen eq_refl eq_refl)
    as (w' & p' & Hrun & _ & _ & _ & _ & _ & _ & _ & _ & _ & Himage & _).
  destruct (@update_frame Ref.runtime
              (mkRequest None None None "1700000000001.0" None 0 "" "")
              (mkProductForm (Some "Quill") None None None) Examples.shop
              Examples.alice_pen eq_refl eq_refl)
    as (w'' & p'' & Hrun' & _).
  exists w'. split; [done|]. split; [|split; [by apply Himage|]].
  - vm_compute in Hrun. by injection Hrun as <-.
  - exists w''. split; [done|]. vm_compute in Hrun'. by injection Hrun' as <-.
Defined.

(** A stock above 2^53 does not survive an update that does not carry
    it: the product created with the stock "9007199254740993" holds that
    integer, and an update of its title alone leaves 9007199254740992, the
    double the stock was read as. *)
Lemma absent_stock_is_rewritten :
  products
    (snd (@Server.post_products Ref.runtime
            (Samples.at_time 1700000000004 (Some "alice") None)
            (mkProductForm (Some "Nails") None (Some "1") (Some "9007199254740993"))
            Examples.empty_world)) = [Examples.bulk_nails] /\
  product_stock Examples.bulk_nails = SqlInt 9007199254740993 /\
  let result := @Server.post_product Ref.runtime Samples.rename_nails
                  (mkProductForm (Some "Screws") None None None) Examples.warehouse in
  fst result = Ok (Redirect "/inventory.html" None) /\
  products (snd result) =
    [mkProduct "1700000000004.0" "Screws" (Some "") (Some "1")
       (SqlInt 9007199254740992) None (Some "alice")] /\
  SqlInt 9007199254740992 <> product_stock Examples.bulk_nails.
Proof. repeat split. done. Qed.

(** *** Products that are not there *)

Section Missing.
Context `{JSRuntime}.

Lemma map_untouched (id : string) (f : Product -> Product) (rows : list Product) :
  List.find (fun q => String.eqb (product_id q) id) rows = None ->
  List.map (fun q => if String.eqb (product_id q) id then f q else q) rows = rows.
Proof.
  induction rows as [|q rows IH]; [done|]. simpl.
  destruct (String.eqb (product_id q) id); [done|].
  intros Hfind. by rewrite IH.
Qed.

Lemma filter_untouched (id : string) (rows : list Product) :
  List.find (fun q => String.eqb (product_id q) id) rows = None ->
  List.filter (fun q => negb (String.eqb (product_id q) id)) rows = rows.
Proof.
  induction rows as [|q rows IH]; [done|]. simpl.
  destruct (String.eqb (product_id q) id); [done|].
  intros Hfind. simpl. by rewrite IH.
Qed.

Lemma set_products_same (w : World) : set_products (products w) w = w.
Proof. by destruct w. Qed.

Lemma after_call_products (w : World) :
  products (Spec.after_call w) = products w /\
  uploads (Spec.after_call w) = uploads w /\
  faults (Spec.after_call w) = tl (faults w).
Proof. done. Qed.

End Missing.

(** C8 (amended).  For an id with no stored product the store operations
    [updateProduct] and [deleteProduct] succeed and change nothing; it is
    the routes that look the product up first and answer 404.  They make
    that one store call and no other: the world they leave is the world
    after one call that went through, with the fates of the calls after it
    still to come. *)
Theorem missing_product `{JSRuntime} (req : Request) (form : ProductForm) (w : World)
    (title : string) (description price : option string) (stock : sqlval)
    (image : option string) :
  hd None (faults w) = None ->
  List.find (fun q => String.eqb (product_id q) (req_param_id req)) (products w) = None ->
  Db.updateProduct (req_param_id req) title description price stock image w =
    (Ok tt, Spec.after_call w) /\
  Db.deleteProduct (req_param_id req) w = (Ok tt, Spec.after_call w) /\
  Server.post_product req form w =
    (Ok (Respond 404 (BText "Product not found")),
     Spec.after_call (snd (Server.multer_single req w))) /\
  Server.delete_product req w =
    (Ok (Respond 404 (BError "Product not found")), Spec.after_call w) /\
  faults (Spec.after_call w) = tl (faults w) /\
  products (Spec.after_call w) = products w /\
  uploads (Spec.after_call w) = uploads w.
Proof.
  intros Hfaults Hfind. split; [|split; [|split; [|split; [|done]]]].
  - unfold Db.updateProduct. rewrite db_call_next by done.
    cbn [products Spec.after_call set_faults].
    rewrite map_untouched by done. by destruct w.
  - unfold Db.deleteProduct. rewrite db_call_next by done.
    cbn [products Spec.after_call set_faults].
    rewrite filter_untouched by done. by destruct w.
  - unfold Server.post_product, Server.multer_single, try_catch, bind, Db.getProductById.
    destruct (req_file req); rewrite db_call_next by done; simpl; by rewrite Hfind.
  - unfold Server.delete_product, try_catch, bind, Db.getProductById.
    rewrite db_call_next by done. simpl. by rewrite Hfind.
Qed.

Lemma missing_product_witness :
  @Server.delete_product Ref.runtime (Examples.delete_anonymously "404")
    Examples.failing_delete =
  (Ok (Respond 404 (BError "Product not found")),
   set_faults [Some "SQLITE_BUSY: database is locked"] Examples.failing_delete) /\
  @Server.post_product Ref.runtime (Examples.delete_anonymously "404")
    (mkProductForm (Some "Cup") None None None) Examples.failing_delete =
  (Ok (Respond 404 (BText "Product not found")),
   set_faults [Some "SQLITE_BUSY: database is locked"] Examples.failing_delete).
Proof.
  destruct (@missing_product Ref.runtime (Examples.delete_anonymously "404")
              (mkProductForm (Some "Cup") None None None) Examples.failing_delete
              "" None None SqlNull None eq_refl eq_refl)
    as (_ & _ & Hupdate & Hdelete & _).
  split; [exact Hdelete|exact Hupdate].
Defined.

(** The store operations on an id that is not stored: both resolve. *)
Lemma store_accepts_missing_id :
  List.find (fun q => String.eqb (product_id q) "404") (products Examples.shop) = None /\
  Db.updateProduct "404" "Cup" None None SqlNull None Examples.shop = (Ok tt, Examples.shop) /\
  Db.deleteProduct "404" Examples.shop = (Ok tt, Examples.shop).
Proof. repeat split. Qed.

(** *** Deleting a product *)

Section Delete.
Context `{JSRuntime}.

(** The test of the route refuses exactly when the product has an owner
    that is not the empty string and whose text differs from the text of
    the requester, [null] reading as "null". *)
Lemma delete_forbidden_spec (p : Product) (user : option string) :
  Server.delete_forbidden p user = true <->
  exists o, product_owner p = Some o /\ o <> "" /\ o <> JS.String_of_nullable user.
Proof.
  unfold Server.delete_forbidden. destruct (product_owner p) as [o|]; simpl.
  - rewrite andb_true_iff, !negb_true_iff.
    destruct (String.eqb_spec o ""), (String.eqb_spec o (JS.String_of_nullable user));
      split; try (by intros [? ?]); try (intros (o' & [= <-] & ? & ?)); try done.
    intros _. by exists o.
  - split; [done|]. by intros (o & ? & _).
Qed.

(** What the route does with a stored product. *)
Lemma delete_product_found (req : Request) (w : World) (p : Product) (user : option string) :
  faults w = [] ->
  List.find (fun q => String.eqb (product_id q) (req_param_id req)) (products w) = Some p ->
  Server.username_of_request req = Ok user ->
  if Server.delete_forbidden p user
  then Server.delete_product req w = (Ok (Respond 403 (BError "Forbidden")), w)
  else exists w',
      Server.delete_product req w = (Ok (Respond 200 BOk), w') /\
      products w' =
        List.filter (fun q => negb (String.eqb (product_id q) (req_param_id req)))
          (products w).
Proof.
  intros Hfaults Hfind Huser.
  unfold Server.delete_product, try_catch, bind, lift, Db.getProductById.
  rewrite db_call_through by done. rewrite Hfind, Huser.
  destruct (Server.delete_forbidden p user); [done|].
  unfold Db.deleteProduct, Server.unlink_if_exists, ret.
  destruct (product_image p) as [image|].
  - destruct (String.eqb image "").
    + rewrite db_call_through by done. by eexists.
    + destruct (_ && _); rewrite db_call_through by done; by eexists.
  - rewrite db_call_through by done. by eexists.
Qed.

End Delete.

(** C1 (the code at the failing input).  A product owned by the user
    "null" is deleted, with its image, by a request that carries no
    identity: the route compares [String(product.owner)] with
    [String(null)]. *)
Theorem anonymous_deletes_product_of_null :
  let result := @Server.delete_product Ref.runtime
                  (Examples.delete_anonymously "1700000000003.0") Examples.null_shop in
  product_owner Examples.null_mug = Some "null" /\
  @Server.username_of_request Ref.runtime
    (Examples.delete_anonymously "1700000000003.0") = Ok None /\
  fst result = Ok (Respond 200 BOk) /\
  products (snd result) = [] /\
  uploads (snd result) = ∅.
Proof. repeat split. Qed.

(** *** Who is asking *)

Section Identity.
Context `{JSRuntime}.

(** The chain [a || b || c || null] picks the first operand that is
    present and not the empty string. *)
Lemma or_chain (a b c : option string) :
  JS.str_or_null (JS.or_else (JS.or_else a b) c) = Spec.first_nonempty a b c.
Proof.
  unfold JS.str_or_null, JS.or_else, JS.truthy_str, Spec.first_nonempty, Spec.nonempty.
  destruct a as [a|], b as [b|], c as [c|]; simpl;
    repeat (match goal with
            | |- context [String.eqb ?x ""] => destruct (String.eqb x "") eqn:?; simpl
            end); try done; congruence.
Qed.

Lemma nonempty_idem (x : option string) : Spec.nonempty (Spec.nonempty x) = Spec.nonempty x.
Proof.
  destruct x as [s|]; [|done]. simpl.
  destruct (String.eqb s "") eqn:E; [done|]. simpl. by rewrite E.
Qed.

Lemma first_present_only (x : option string) : Spec.first_present x None None = x.
Proof. by destruct x. Qed.

Lemma first_nonempty_idem (a b c : option string) :
  Spec.first_nonempty (Spec.first_nonempty a b c) None None = Spec.first_nonempty a b c.
Proof.
  unfold Spec.first_nonempty at 1. simpl. rewrite first_present_only.
  unfold Spec.first_nonempty, Spec.first_present.
  destruct (Spec.nonempty a) eqn:Ha; [by rewrite <- Ha, nonempty_idem|].
  destruct (Spec.nonempty b) eqn:Hb; [by rewrite <- Hb, nonempty_idem|].
  apply nonempty_idem.
Qed.

Lemma username_of_listing_ok (req : Request) (jar : gmap string string) :
  Server.parseCookies (req_cookie req) = Ok jar ->
  Server.username_of_listing req =
  Ok (Spec.first_nonempty (req_query_username req) (req_header_username req)
        (jar !! "username")).
Proof. unfold Server.username_of_listing. intros ->. by rewrite or_chain. Qed.

Lemma username_of_request_ok (req : Request) (jar : gmap string string) :
  Server.parseCookies (req_cookie req) = Ok jar ->
  Server.username_of_request req =
  Ok (Spec.first_nonempty (req_query_username req) (req_header_username req)
        (jar !! "username")).
Proof.
  unfold Server.username_of_request. intros ->.
  destruct (JS.truthy_str _) eqn:Hfirst; [|by rewrite or_chain].
  rewrite <- or_chain. do 2 f_equal.
  unfold JS.or_else at 2. by rewrite Hfirst.
Qed.

(** Query and header decide alone when one of them is not empty: the
    one-line form does not look at the cookies then. *)
Lemma username_of_request_early (req : Request) :
  Spec.first_nonempty (req_query_username req) (req_header_username req) None <> None ->
  Server.username_of_request req =
  Ok (Spec.first_nonempty (req_query_username req) (req_header_username req) None).
Proof.
  rewrite <- or_chain. unfold Server.username_of_request.
  destruct (JS.truthy_str (JS.or_else _ _)) eqn:Hfirst.
  - intros _. do 2 f_equal. unfold JS.or_else at 2. by rewrite Hfirst.
  - intros Hsome. exfalso. apply Hsome.
    unfold JS.or_else at 1. by rewrite Hfirst.
Qed.

(** The request of [Spec.as_user user] resolves to [user]. *)
Lemma as_user_resolves (req : Request) (a b c : option string) :
  let user := Spec.first_nonempty a b c in
  Server.username_of_request (Spec.as_user user req) = Ok user /\
  Server.username_of_listing (Spec.as_user user req) = Ok user.
Proof.
  intros user. split.
  - rewrite (username_of_request_ok _ ∅) by done. simpl.
    rewrite lookup_empty. apply f_equal, first_nonempty_idem.
  - rewrite (username_of_listing_ok _ ∅) by done. simpl.
    rewrite lookup_empty. apply f_equal, first_nonempty_idem.
Qed.

(** A Cookie header that does not decode: the listing routes, which
    parse it first, answer with an empty list whatever the query string
    says. *)
Lemma listing_with_bad_cookie (req : Request) (w : World) :
  Server.parseCookies (req_cookie req) = Throw URIError ->
  Server.get_products req w = (Ok (Respond 200 (BProducts [])), w) /\
  Server.get_transactions req w = (Ok (Respond 200 (BTransactions [])), w).
Proof.
  intros Hbad.
  unfold Server.get_products, Server.get_transactions, try_catch, bind, lift,
    Server.username_of_listing.
  by rewrite Hbad.
Qed.

End Identity.

(** C6 (amended).  When the Cookie header of a request decodes, the acting
    username is the first of the query parameter, the [x-username] header
    and the [username] cookie that is present and not the empty string,
    and absent when there is none; product listing, product creation,
    product deletion, transaction listing and transaction creation all
    resolve it so: each behaves as on the request that names that user in
    its query string and nowhere else. *)
Theorem identity_resolution `{JSRuntime} (req : Request) (jar : gmap string string) :
  Server.parseCookies (req_cookie req) = Ok jar ->
  let user := Spec.first_nonempty (req_query_username req) (req_header_username req)
                (jar !! "username") in
  Server.username_of_request req = Ok user /\
  Server.username_of_listing req = Ok user /\
  forall r : Server.Route,
    Spec.identity_request r = Some req ->
    forall w, Server.run r w = Server.run (Spec.route_as user r) w.
Proof.
  intros Hjar user.
  pose proof (username_of_request_ok req jar Hjar) as Hreq.
  pose proof (username_of_listing_ok req jar Hjar) as Hlist.
  destruct (as_user_resolves req (req_query_username req) (req_header_username req)
              (jar !! "username")) as [Hreq' Hlist'].
  fold user in Hreq, Hlist, Hreq', Hlist'.
  split; [done|]. split; [done|].
  intros r Hr w. destruct r; simpl in Hr; try done; injection Hr as ->; simpl.
  - unfold Server.get_products. by rewrite Hlist, Hlist'.
  - unfold Server.post_products. by rewrite Hreq, Hreq'.
  - unfold Server.delete_product. by rewrite Hreq, Hreq'.
  - unfold Server.get_transactions. by rewrite Hlist, Hlist'.
  - unfold Server.post_transactions. by rewrite Hreq, Hreq'.
Qed.

Lemma identity_resolution_witness :
  @Server.username_of_request Ref.runtime Examples.with_cookie = Ok (Some "alice") /\
  @Server.username_of_listing Ref.runtime Examples.with_cookie = Ok (Some "alice") /\
  @Server.get_products Ref.runtime Examples.with_cookie Examples.shop =
  @Server.get_products Ref.runtime (Spec.as_user (Some "alice") Examples.with_cookie)
    Examples.shop.
Proof.
  destruct (@identity_resolution Ref.runtime Examples.with_cookie
              (<["username" := "alice"]> (<["theme" := "dark"]> ∅)))
    as (Hreq & Hlist & Hroutes).
  - reflexivity.
  - split; [exact Hreq|]. split; [exact Hlist|].
    exact (Hroutes (Server.GetProducts Examples.with_cookie) eq_refl Examples.shop).
Defined.

(** A query parameter that is present and empty does not win: the header
    is taken, where the rule by presence names the empty string. *)
Lemma empty_query_is_skipped :
  req_query_username Examples.empty_query = Some "" /\
  @Server.username_of_request Ref.runtime Examples.empty_query = Ok (Some "bob") /\
  @Server.username_of_listing Ref.runtime Examples.empty_query = Ok (Some "bob") /\
  Spec.first_present (req_query_username Examples.empty_query)
    (req_header_username Examples.empty_query) None = Some "" /\
  @Server.username_of_request Ref.runtime Examples.empty_query <>
  Ok (Spec.first_present (req_query_username Examples.empty_query)
        (req_header_username Examples.empty_query) None).
Proof. repeat split. done. Qed.

(** *** Store failures *)

Section StoreFailure.
Context `{JSRuntime}.

Lemma replicate_none_prefix (j k : nat) (msg : string) (fs : list (option string)) :
  (replicate j None ++ fs)%list = (replicate k None ++ Some msg :: fs)%list -> False.
Proof.
  intros Heq.
  assert (j = S k) as ->.
  { apply (f_equal length) in Heq.
    rewrite !length_app, !length_replicate in Heq. simpl in Heq. lia. }
  induction k as [|k IH]; simpl in Heq; [done|].
  injection Heq as Heq. by apply IH.
Qed.

Lemma quiet_not_failed (w w' : World) :
  Spec.store_quiet w w' -> Spec.store_failed w w' -> False.
Proof.
  intros [j Hj] (k & msg & Hk). rewrite Hj in Hk.
  by apply replicate_none_prefix in Hk.
Qed.

Lemma quiet_refl (w w' : World) : faults w' = faults w -> Spec.store_quiet w w'.
Proof. intros Hsame. exists 0%nat. by rewrite Hsame. Qed.

Lemma quiet_trans (w1 w2 w3 : World) :
  Spec.store_quiet w1 w2 -> Spec.store_quiet w2 w3 -> Spec.store_quiet w1 w3.
Proof.
  intros [j Hj] [k Hk]. exists (j + k)%nat.
  by rewrite Hj, Hk, replicate_add, <- app_assoc.
Qed.

Lemma calm_pure {A} (f : M A) :
  (forall w, faults (snd (f w)) = faults w) -> Spec.calm f.
Proof. intros Hf w. right. by apply quiet_refl. Qed.

Lemma calm_ret {A} (a : A) : Spec.calm (ret a).
Proof. by apply calm_pure. Qed.

Lemma calm_lift {A} (o : outcome A) : Spec.calm (lift o).
Proof. by apply calm_pure. Qed.

Lemma calm_bind {A B} (m : M A) (k : A -> M B) :
  Spec.calm m -> (forall a, Spec.calm (k a)) -> Spec.calm (bind m k).
Proof.
  intros Hm Hk w. unfold bind. specialize (Hm w).
  destruct (m w) as [[a|e|] w1]; simpl in *.
  - destruct Hm as [[e He]|Hm]; [done|].
    destruct (Hk a w1) as [Hthrow|Hquiet]; [by left|].
    right. by eapply quiet_trans.
  - left. by exists e.
  - destruct Hm as [[e He]|Hm]; [done|]. by right.
Qed.

Lemma calm_db_call {A} (f : M A) : Spec.calm f -> Spec.calm (db_call f).
Proof.
  intros Hf w. unfold db_call.
  destruct (faults w) as [|[msg|] rest] eqn:Hfaults.
  - apply Hf.
  - left. by exists (DbError msg).
  - destruct (Hf (set_faults rest w)) as [Hthrow|Hquiet]; [by left|].
    right. eapply quiet_trans; [|done].
    exists 1%nat. by rewrite Hfaults.
Qed.

(** A handler in a [try] whose [catch] answers [resp]: when a store call
    failed, the answer is [resp]. *)
Lemma caught_failure (body : M Response) (resp : Response) (w : World) :
  Spec.calm body ->
  let result := try_catch body (fun _ => ret resp) w in
  Spec.store_failed w (snd result) -> fst result = Ok resp.
Proof.
  intros Hbody. unfold try_catch. specialize (Hbody w).
  destruct (body w) as [[a|e|] w1]; simpl in *; [|done|];
    (destruct Hbody as [[e He]|Hquiet]; [done|]);
    intros Hfailed; by destruct (quiet_not_failed _ _ Hquiet Hfailed).
Qed.

Lemma store_failed_from (w w1 w' : World) :
  faults w1 = faults w -> Spec.store_failed w w' -> Spec.store_failed w1 w'.
Proof. intros Hsame (k & msg & Hk). exists k, msg. by rewrite Hsame. Qed.

End StoreFailure.

Ltac calm_step :=
  first
    [ apply calm_ret
    | apply calm_lift
    | apply calm_bind; [|intros ?]
    | apply calm_db_call
    | apply calm_pure; intros ?; unfold Server.unlink_if_exists; simpl;
      repeat case_match; reflexivity
    | case_match ].

(** C7 (amended).  When a store call fails, product creation, product
    update and registration answer 500 with the text "Server error",
    product deletion and transaction creation answer 500 with the JSON
    error "Server error", the two listing routes answer 200 with an empty
    list and login redirects to [/?error=server]; the answer never depends
    on the failure. *)
Theorem store_failure_response `{JSRuntime} (r : Server.Route) (w : World) :
  Spec.store_failed w (snd (Server.run r w)) ->
  fst (Server.run r w) = Ok (Spec.on_store_failure r).
Proof.
  destruct r; simpl.
  - apply caught_failure. repeat calm_step.
  - unfold Server.post_products, bind at 1, Server.multer_single.
    destruct (req_file req) as [file|]; simpl;
      match goal with
      | |- Spec.store_failed _ (snd (try_catch _ _ ?w1)) -> _ =>
          intros Hfailed; apply (store_failed_from w w1) in Hfailed; [|reflexivity]
      end;
      revert Hfailed; apply caught_failure; repeat calm_step.
  - unfold Server.post_product, bind at 1, Server.multer_single.
    destruct (req_file req) as [file|]; simpl;
      match goal with
      | |- Spec.store_failed _ (snd (try_catch _ _ ?w1)) -> _ =>
          intros Hfailed; apply (store_failed_from w w1) in Hfailed; [|reflexivity]
      end;
      revert Hfailed; apply caught_failure; repeat calm_step.
  - apply caught_failure. repeat calm_step.
  - apply caught_failure. repeat calm_step.
  - apply caught_failure. repeat calm_step.
  - apply caught_failure. repeat calm_step.
  - apply caught_failure. repeat calm_step.
Qed.

Lemma store_failure_response_witness :
  fst (@Server.delete_product Ref.runtime (Examples.delete_anonymously "1700000000003.0")
         Examples.failing_delete) =
  Ok (Respond 500 (BError "Server error")).
Proof.
  apply (@store_failure_response Ref.runtime
           (Server.DeleteProduct (Examples.delete_anonymously "1700000000003.0"))
           Examples.failing_delete).
  exists 1%nat, "SQLITE_BUSY: database is locked". reflexivity.
Defined.

(** [GET /products] on a store that fails: status 200 and an empty list,
    though two products are stored. *)
Lemma listing_hides_store_failure :
  let result := @Server.get_products Ref.runtime Examples.anonymous Examples.broken_shop in
  Spec.store_failed Examples.broken_shop (snd result) /\
  length (products Examples.broken_shop) = 2%nat /\
  fst result = Ok (Respond 200 (BProducts [])) /\
  fst result <> Ok (Respond 500 (BError "Server error")) /\
  fst result <> Ok (Respond 500 (BText "Server error")).
Proof.
  repeat split; try done.
  exists 0%nat, "SQLITE_BUSY: database is locked". reflexivity.
Qed.

(** *** Accounts *)

Section Accounts.
Context `{JSRuntime}.

Lemma find_user_spec (u : string) (us : list User) :
  match List.find (fun r => bool_decide (user_username r = Some u)) us with
  | Some r => r ∈ us /\ user_username r = Some u
  | None => existsb (fun r => bool_decide (user_username r = Some u)) us = false /\
            forall r, r ∈ us -> user_username r <> Some u
  end.
Proof.
  induction us as [|r us IH]; simpl.
  - split; [done|]. intros r Hr. by apply elem_of_nil in Hr.
  - destruct (decide (user_username r = Some u)) as [Hr|Hr].
    + rewrite bool_decide_eq_true_2 by done. split; [by left|done].
    + rewrite bool_decide_eq_false_2 by done.
      destruct (List.find _ us) as [r'|].
      * destruct IH as [Hin Hname]. split; [by right|done].
      * destruct IH as [Hex Hall]. split; [done|].
        intros r' Hr'. apply elem_of_cons in Hr' as [->|Hr']; [done|by apply Hall].
Qed.

Lemma find_user_app (u : string) (us : list User) (r : User) :
  List.find (fun r => bool_decide (user_username r = Some u)) us = None ->
  user_username r = Some u ->
  List.find (fun r => bool_decide (user_username r = Some u)) (us ++ [r]) = Some r.
Proof.
  intros Hnone Hr. induction us as [|r' us IH]; simpl in *.
  - by rewrite bool_decide_eq_true_2.
  - destruct (bool_decide (user_username r' = Some u)); [done|]. by apply IH.
Qed.

(** Two stored users of the same name are the same row when the names
    are unique. *)
Lemma unique_user (us : list User) (r r' : User) (u : string) :
  NoDup (omap user_username us) ->
  r ∈ us -> r' ∈ us ->
  user_username r = Some u -> user_username r' = Some u -> r = r'.
Proof.
  induction us as [|x us IH]; intros Hnd Hr Hr' Hu Hu'.
  - by apply elem_of_nil in Hr.
  - assert (Hin : forall y, y ∈ us -> user_username y = Some u ->
                            u ∈ omap user_username us).
    { intros y Hy Hname. apply list_elem_of_omap. by exists y. }
    simpl in Hnd. apply elem_of_cons in Hr as [->|Hr], Hr' as [->|Hr'].
    + done.
    + rewrite Hu in Hnd. apply NoDup_cons in Hnd as [Hnot _].
      destruct Hnot. by apply (Hin r').
    + rewrite Hu' in Hnd. apply NoDup_cons in Hnd as [Hnot _].
      destruct Hnot. by apply (Hin r).
    + apply IH; try done.
      destruct (user_username x); [by apply NoDup_cons in Hnd as [_ Hnd]|done].
Qed.

(** What [POST /login] does when the store answers. *)
Lemma post_login_run (c : Credentials) (w : World) :
  faults w = [] ->
  Server.post_login c w =
  (Ok (match cred_username c with
       | Some u =>
           match List.find (fun r => bool_decide (user_username r = Some u)) (users w) with
           | Some r =>
               if bool_decide (Some (user_password r) = cred_password c)
               then Redirect ("/dashboard.html?user=" ++ encodeURIComponent u) (Some u)
               else Redirect "/?error=invalid" None
           | None => Redirect "/?error=invalid" None
           end
       | None => Redirect "/?error=invalid" None
       end), w).
Proof.
  intros Hfaults.
  unfold Server.post_login, try_catch, bind, Db.findUserByUsername.
  rewrite db_call_through by done.
  destruct (cred_username c) as [u|]; [|done]. simpl.
  destruct (List.find _ (users w)) as [r|]; [|done].
  by destruct (bool_decide _).
Qed.

(** What [POST /register] does for a new name when the store answers. *)
Lemma post_register_new (c : Credentials) (w : World) (u p e : string) :
  faults w = [] ->
  c = mkCredentials (Some u) (Some p) (Some e) ->
  List.find (fun r => bool_decide (user_username r = Some u)) (users w) = None ->
  Server.post_register c w =
  (Ok (Redirect ("/dashboard.html?user=" ++ encodeURIComponent u) (Some u)),
   set_users (users w ++ [mkUser (Some u) p e]) w).
Proof.
  intros Hfaults -> Hfind.
  unfold Server.post_register, try_catch, bind, Db.findUserByUsername, Db.createUser.
  rewrite db_call_through by done. simpl. rewrite Hfind.
  rewrite db_call_through by done. simpl.
  pose proof (find_user_spec u (users w)) as Hspec. rewrite Hfind in Hspec.
  destruct Hspec as [Hex _]. by rewrite Hex.
Qed.

End Accounts.

(** X1.  A user who registers under a name that is not taken is stored
    and gets the identity cookie; logging in afterwards with the same name
    and password sets the cookie again and leads to the dashboard, and any
    other password leads to [/?error=invalid] with no cookie. *)
Theorem register_then_login `{JSRuntime} (w : World) (u p e : string)
    (attempt : option string) :
  faults w = [] ->
  List.find (fun r => bool_decide (user_username r = Some u)) (users w) = None ->
  let c := mkCredentials (Some u) (Some p) (Some e) in
  exists w',
    Server.post_register c w =
      (Ok (Redirect ("/dashboard.html?user=" ++ encodeURIComponent u) (Some u)), w') /\
    users w' = (users w ++ [mkUser (Some u) p e])%list /\
    Server.post_login (mkCredentials (Some u) attempt None) w' =
      (Ok (if bool_decide (attempt = Some p)
           then Redirect ("/dashboard.html?user=" ++ encodeURIComponent u) (Some u)
           else Redirect "/?error=invalid" None), w').
Proof.
  intros Hfaults Hfind c.
  eexists. split; [by apply (post_register_new c w u p e)|]. split; [done|].
  rewrite post_login_run by done. simpl.
  rewrite (find_user_app u (users w) (mkUser (Some u) p e)) by done. simpl.
  destruct (decide (attempt = Some p)) as [->|Hne].
  - by rewrite !bool_decide_eq_true_2.
  - rewrite !bool_decide_eq_false_2; [done|done|]. intros Heq. by destruct Hne.
Qed.

Lemma register_then_login_witness :
  exists w',
    @Server.post_register Ref.runtime Samples.carol Examples.shop =
      (Ok (Redirect "/dashboard.html?user=carol" (Some "carol")), w') /\
    @Server.post_login Ref.runtime Samples.carol w' =
      (Ok (Redirect "/dashboard.html?user=carol" (Some "carol")), w') /\
    @Server.post_login Ref.runtime Samples.carol_wrong w' =
      (Ok (Redirect "/?error=invalid" None), w').
Proof.
  destruct (@register_then_login Ref.runtime Examples.shop "carol" "pw1" "c@x.com"
              (Some "pw1") eq_refl eq_refl) as (w' & Hreg & Husers & Hlogin).
  exists w'. split; [exact Hreg|].
  vm_compute in Hreg. injection Hreg as <-. split; reflexivity.
Defined.

(** X2.  When the store answers and the stored usernames are unique, a
    login is accepted exactly when some stored user has that username and
    that password, character for character; it is refused with a
    redirect to [/?error=invalid] otherwise, and the world is left as it
    was in both cases. *)
Theorem login_decision `{JSRuntime} (c : Credentials) (w : World) :
  faults w = [] ->
  NoDup (omap user_username (users w)) ->
  let accepted :=
    exists r u, r ∈ users w /\ user_username r = Some u /\
                cred_username c = Some u /\ cred_password c = Some (user_password r) in
  snd (Server.post_login c w) = w /\
  (accepted ->
   exists u, cred_username c = Some u /\
     fst (Server.post_login c w) =
     Ok (Redirect ("/dashboard.html?user=" ++ encodeURIComponent u) (Some u))) /\
  (~ accepted ->
   fst (Server.post_login c w) = Ok (Redirect "/?error=invalid" None)).
Proof.
  intros Hfaults Hnd accepted. rewrite post_login_run by done. simpl.
  split; [done|]. split.
  - intros (r & u & Hr & Hname & Hu & Hp). exists u. split; [done|]. rewrite Hu.
    pose proof (find_user_spec u (users w)) as Hspec.
    destruct (List.find _ (users w)) as [r'|].
    + destruct Hspec as [Hr' Hname'].
      rewrite (unique_user (users w) r' r u) by done.
      by rewrite bool_decide_eq_true_2.
    + destruct Hspec as [_ Hall]. by destruct (Hall r Hr).
  - intros Hno. destruct (cred_username c) as [u|] eqn:Hu; [|done].
    pose proof (find_user_spec u (users w)) as Hspec.
    destruct (List.find _ (users w)) as [r'|]; [|done].
    destruct Hspec as [Hr' Hname'].
    destruct (decide (Some (user_password r') = cred_password c)) as [Hp|Hp].
    + destruct Hno. by exists r', u.
    + by rewrite bool_decide_eq_false_2.
Qed.

Lemma login_decision_witness :
  fst (@Server.post_login Ref.runtime Samples.carol Samples.members) =
    Ok (Redirect "/dashboard.html?user=carol" (Some "carol")) /\
  fst (@Server.post_login Ref.runtime Samples.carol_wrong Samples.members) =
    Ok (Redirect "/?error=invalid" None).
Proof.
  assert (Hnd : NoDup (omap user_username (users Samples.members))).
  { apply (NoDup_fmap_1 String.length). by apply NoDup_ListNoDup; repeat constructor;
      simpl; intuition lia. }
  destruct (@login_decision Ref.runtime Samples.carol Samples.members eq_refl Hnd)
    as (_ & Hyes & _).
  destruct (@login_decision Ref.runtime Samples.carol_wrong Samples.members eq_refl Hnd)
    as (_ & _ & Hno).
  split.
  - destruct Hyes as (u & Hu & Hresp).
    + exists (mkUser (Some "carol") "pw1" "c@x.com"), "carol".
      repeat split. by left.
    + injection Hu as <-. exact Hresp.
  - apply Hno. intros (r & u & Hr & Hname & [= <-] & [= Hp]).
    apply elem_of_cons in Hr as [->|Hr]; [done|].
    apply elem_of_cons in Hr as [->|Hr]; [done|].
    by apply elem_of_nil in Hr.
Defined.

(** X3.  A registration under a name that is taken is answered with
    status 200 and the text "Username already exists. Please choose
    another."; one under a free name but without a password or an email is
    answered 500.  In both cases nothing is stored and no cookie is set. *)
Theorem register_refusals `{JSRuntime} (c : Credentials) (w : World) (u : string) :
  faults w = [] ->
  cred_username c = Some u ->
  ((exists r, r ∈ users w /\ user_username r = Some u) ->
   Server.post_register c w =
   (Ok (Respond 200 (BText "Username already exists. Please choose another.")), w)) /\
  ((forall r, r ∈ users w -> user_username r <> Some u) ->
   cred_password c = None \/ cred_email c = None ->
   Server.post_register c w = (Ok (Respond 500 (BText "Server error")), w)).
Proof.
  intros Hfaults Hu.
  pose proof (find_user_spec u (users w)) as Hspec.
  unfold Server.post_register, try_catch, bind, Db.findUserByUsername, Db.createUser.
  rewrite db_call_through by done. rewrite Hu. simpl.
  destruct (List.find _ (users w)) as [r'|]; split.
  - done.
  - intros Hall. destruct Hspec as [Hr' Hname]. by destruct (Hall r' Hr').
  - intros (r & Hr & Hname). destruct Hspec as [_ Hall]. by destruct (Hall r Hr).
  - intros _ Hmissing. rewrite db_call_through by done.
    destruct (cred_password c), (cred_email c); try done. by destruct Hmissing.
Qed.

Lemma register_refusals_witness :
  @Server.post_register Ref.runtime Samples.carol Samples.members =
    (Ok (Respond 200 (BText "Username already exists. Please choose another.")),
     Samples.members) /\
  @Server.post_register Ref.runtime (mkCredentials (Some "erin") None (Some "e@x.com"))
    Samples.members =
    (Ok (Respond 500 (BText "Server error")), Samples.members).
Proof.
  split.
  - apply (@register_refusals Ref.runtime Samples.carol Samples.members "carol");
      [reflexivity|reflexivity|].
    exists (mkUser (Some "carol") "pw1" "c@x.com"). split; [by left|done].
  - apply (@register_refusals Ref.runtime _ Samples.members "erin");
      [reflexivity|reflexivity| |by left].
    intros r Hr.
    apply elem_of_cons in Hr as [->|Hr]; [done|].
    apply elem_of_cons in Hr as [->|Hr]; [done|].
    by apply elem_of_nil in Hr.
Defined.

(** *** Runs that keep a relation *)

Section Keeps.
Context `{JSRuntime}.
Variable R : World -> World -> Prop.
Hypothesis HR : Frame.steady R.

Lemma keeps_pure {A} (f : M A) : (forall w, R w (snd (f w))) -> Frame.keeps R f.
Proof. done. Qed.

Lemma keeps_ret {A} (a : A) : Frame.keeps R (ret a).
Proof. intros w. apply HR. Qed.

Lemma keeps_lift {A} (o : outcome A) : Frame.keeps R (lift o).
Proof. intros w. apply HR. Qed.

Lemma keeps_bind {A B} (m : M A) (k : A -> M B) :
  Frame.keeps R m -> (forall a, Frame.keeps R (k a)) -> Frame.keeps R (bind m k).
Proof.
  intros Hm Hk w. unfold bind. specialize (Hm w).
  destruct (m w) as [[a| |] w1]; simpl in *; try done.
  destruct HR as (_ & Htrans & _). eapply Htrans; [done|]. apply Hk.
Qed.

Lemma keeps_try_catch {A} (body : M A) (handler : exn -> M A) :
  Frame.keeps R body -> (forall e, Frame.keeps R (handler e)) ->
  Frame.keeps R (try_catch body handler).
Proof.
  intros Hm Hk w. unfold try_catch. specialize (Hm w).
  destruct (body w) as [[a|e|] w1]; simpl in *; try done.
  destruct HR as (_ & Htrans & _). eapply Htrans; [done|]. apply Hk.
Qed.

Lemma keeps_db_call {A} (f : M A) : Frame.keeps R f -> Frame.keeps R (db_call f).
Proof.
  intros Hf w. unfold db_call. destruct HR as (Hrefl & Htrans & Hfaults).
  destruct (faults w) as [|[msg|] rest]; simpl.
  - apply Hf.
  - apply Hfaults.
  - eapply Htrans; [apply (Hfaults w rest)|apply Hf].
Qed.

End Keeps.

(** *** Primary keys *)

Section Keys.
Context `{JSRuntime}.

Lemma keys_kept_steady : Frame.steady Frame.keys_kept.
Proof.
  split; [|split].
  - intros w Hw. exact Hw.
  - intros w1 w2 w3 H12 H23 H1. by apply H23, H12.
  - intros w fs Hw. exact Hw.
Qed.

Lemma NoDup_snoc_fresh {A} (l : list A) (x : A) :
  NoDup l -> x ∉ l -> NoDup (l ++ [x]).
Proof.
  intros Hnd Hx. apply NoDup_app. split; [done|]. split.
  - intros y Hy Hin. apply list_elem_of_singleton in Hin as ->. done.
  - apply NoDup_singleton.
Qed.

Lemma filter_ids_sublist (f : Product -> bool) (rows : list Product) :
  product_id <$> List.filter f rows `sublist_of` product_id <$> rows.
Proof.
  induction rows as [|q rows IH]; [done|]. simpl.
  destruct (f q); simpl; by constructor.
Qed.

Lemma keys_createProduct id title description price stock image owner :
  Frame.keeps Frame.keys_kept (Db.createProduct id title description price stock image owner).
Proof.
  apply keeps_db_call; [apply keys_kept_steady|].
  intros w (Hp & Ht & Hu).
  destruct (existsb _ (products w)) eqn:Hex; simpl; [done|].
  split; [|done]. simpl. rewrite fmap_app. apply NoDup_snoc_fresh; [done|].
  intros Hin. apply list_elem_of_fmap in Hin as (q & Hq & Hin).
  apply not_true_iff_false in Hex. apply Hex, existsb_exists.
  exists q. split; [by apply list_elem_of_In|]. apply String.eqb_eq.
  simpl in Hq. congruence.
Qed.

Lemma map_update_ids (id : string) (f : Product -> Product) (rows : list Product) :
  (forall q, product_id (f q) = product_id q) ->
  product_id <$> List.map (fun q => if String.eqb (product_id q) id then f q else q) rows =
  product_id <$> rows.
Proof.
  intros Hid. induction rows as [|q rows IH]; [done|].
  cbn [List.map]. rewrite !fmap_cons, IH.
  destruct (String.eqb (product_id q) id); [by rewrite Hid|done].
Qed.

Lemma keys_updateProduct id title description price stock image :
  Frame.keeps Frame.keys_kept (Db.updateProduct id title description price stock image).
Proof.
  apply keeps_db_call; [apply keys_kept_steady|].
  intros w (Hp & Ht & Hu). split; [|done]. simpl.
  by rewrite map_update_ids.
Qed.

Lemma keys_deleteProduct id : Frame.keeps Frame.keys_kept (Db.deleteProduct id).
Proof.
  apply keeps_db_call; [apply keys_kept_steady|].
  intros w (Hp & Ht & Hu). split; [|done]. simpl.
  eapply sublist_NoDup; [exact Hp|apply filter_ids_sublist].
Qed.

Lemma keys_createTransaction (t : Transaction) :
  Frame.keeps Frame.keys_kept (Db.createTransaction t).
Proof.
  apply keeps_db_call; [apply keys_kept_steady|].
  intros w (Hp & Ht & Hu).
  destruct (negb _); simpl; [done|].
  destruct (existsb _ (transactions w)) eqn:Hex; simpl; [done|].
  split; [done|]. split; [|done]. simpl. rewrite fmap_app.
  apply NoDup_snoc_fresh; [done|].
  intros Hin. apply list_elem_of_fmap in Hin as (r & Hr & Hin).
  apply not_true_iff_false in Hex. apply Hex, existsb_exists.
  exists r. split; [by apply list_elem_of_In|]. apply Z.eqb_eq.
  simpl in Hr. congruence.
Qed.

Lemma keys_createUser (username password email : option string) :
  Frame.keeps Frame.keys_kept (Db.createUser username password email).
Proof.
  apply keeps_db_call; [apply keys_kept_steady|].
  intros w (Hp & Ht & Hu).
  destruct password as [p|], email as [e|]; simpl; try done.
  destruct (_ && _) eqn:Hex; simpl; [done|].
  split; [done|]. split; [done|]. simpl. rewrite omap_app. simpl.
  destruct username as [u|]; simpl; [|by rewrite app_nil_r].
  apply NoDup_snoc_fresh; [done|].
  intros Hin. apply list_elem_of_omap in Hin as (r & Hr & Hname).
  apply not_true_iff_false in Hex. apply Hex.
  rewrite bool_decide_eq_true_2 by eauto. simpl. apply existsb_exists.
  exists r. split; [by apply list_elem_of_In|]. by apply bool_decide_eq_true_2.
Qed.

End Keys.

Ltac keeps_step HR :=
  first
    [ apply keeps_ret; exact HR
    | apply keeps_lift; exact HR
    | apply keys_createProduct
    | apply keys_updateProduct
    | apply keys_deleteProduct
    | apply keys_createTransaction
    | apply keys_createUser
    | apply keeps_bind; [exact HR| |intros ?]
    | apply keeps_try_catch; [exact HR| |intros ?]
    | apply keeps_db_call; [exact HR|]
    | apply keeps_pure; intros ?;
      unfold Server.unlink_if_exists, Server.multer_single; simpl;
      repeat case_match; simpl;
      first [ done | let Hw := fresh in intros Hw; exact Hw ]
    | case_match ].

(** X4.  Whatever a route does, fail or succeed, the primary keys stay
    unique: no two products share an id, no two transactions share an id
    and no two users share a username. *)
Theorem primary_keys_preserved `{JSRuntime} (r : Server.Route) (w : World) :
  Frame.keys_unique w -> Frame.keys_unique (snd (Server.run r w)).
Proof.
  revert w. change (Frame.keeps Frame.keys_kept (Server.run r)).
  pose proof keys_kept_steady as HR.
  destruct r; simpl;
    unfold Server.get_products, Server.post_products, Server.post_product,
      Server.post_register, Server.post_login, Server.delete_product,
      Server.get_transactions, Server.post_transactions,
      Db.getAllProducts, Db.getProductById, Db.findUserByUsername,
      Db.getAllTransactions, Db.getNextTransactionId;
    repeat keeps_step HR.
Qed.

Lemma primary_keys_preserved_witness :
  Frame.keys_unique
    (snd (@Server.run Ref.runtime
            (Server.PostTransactions Examples.anonymous Examples.body25) Examples.ledger)).
Proof.
  apply (@primary_keys_preserved Ref.runtime).
  repeat split; apply NoDup_ListNoDup; repeat constructor; simpl; intuition lia.
Defined.

(** *** What a route leaves alone *)

Lemma same_part_steady (p : Frame.part) : Frame.steady (Frame.same_part p).
Proof.
  split; [|split].
  - by destruct p.
  - intros w1 w2 w3. destruct p; simpl; congruence.
  - by destruct p.
Qed.

Ltac frame_step HR :=
  first
    [ apply keeps_ret; exact HR
    | apply keeps_lift; exact HR
    | apply keeps_bind; [exact HR| |intros ?]
    | apply keeps_try_catch; [exact HR| |intros ?]
    | apply keeps_db_call; [exact HR|]
    | apply keeps_pure; intros ?;
      unfold Server.unlink_if_exists, Server.multer_single; simpl;
      repeat case_match; simpl; reflexivity
    | case_match ].

(** X5.  The listing routes and login never change the users, the
    products, the transactions or the uploaded files; registration touches
    only the users, the product routes only the products and the files,
    and transaction creation only the transactions.  This holds for every
    request and every outcome, failures included. *)
Theorem route_frames `{JSRuntime} (r : Server.Route) (p : Frame.part) (w : World) :
  Frame.may_change r p = false ->
  Frame.same_part p w (snd (Server.run r w)).
Proof.
  intros Hno. revert w. change (Frame.keeps (Frame.same_part p) (Server.run r)).
  pose proof (same_part_steady p) as HR.
  destruct r, p; try discriminate Hno; clear Hno; simpl;
    unfold Server.get_products, Server.post_products, Server.post_product,
      Server.post_register, Server.post_login, Server.delete_product,
      Server.get_transactions, Server.post_transactions,
      Db.getAllProducts, Db.getProductById, Db.findUserByUsername,
      Db.getAllTransactions, Db.getNextTransactionId, Db.createProduct,
      Db.updateProduct, Db.deleteProduct, Db.createTransaction, Db.createUser;
    repeat frame_step HR.
Qed.

Lemma route_frames_witness :
  products (snd (@Server.run Ref.runtime
                   (Server.PostTransactions Examples.anonymous Examples.body25)
                   Examples.shop)) = products Examples.shop /\
  uploads (snd (@Server.run Ref.runtime (Server.PostLogin Samples.carol)
                  Examples.broken_shop)) = uploads Examples.broken_shop.
Proof.
  split.
  - exact (@route_frames Ref.runtime
             (Server.PostTransactions Examples.anonymous Examples.body25)
             Frame.Products Examples.shop eq_refl).
  - exact (@route_frames Ref.runtime (Server.PostLogin Samples.carol)
             Frame.Uploads Examples.broken_shop eq_refl).
Defined.

(** *** Cookies *)

Section Cookies.
Context `{JSRuntime}.

Lemma split_absent (c : ascii) (s : string) :
  Frame.occurs c s = false -> JS.split c s = [s].
Proof.
  induction s as [|a s IH]; [done|]. simpl.
  destruct (Ascii.eqb a c); [done|]. simpl. intros Hs. by rewrite IH.
Qed.

Lemma split_at (c : ascii) (a b : string) :
  Frame.occurs c a = false ->
  JS.split c (a ++ String c b) = a :: JS.split c b.
Proof.
  induction a as [|x a IH]; simpl.
  - by rewrite Ascii.eqb_refl.
  - destruct (Ascii.eqb x c); [done|]. simpl. intros Ha. by rewrite IH.
Qed.

Lemma split_nonempty (c : ascii) (s : string) : JS.split c s <> [].
Proof.
  destruct s as [|a s]; [done|]. simpl.
  destruct (Ascii.eqb a c); [done|]. by destruct (JS.split c s).
Qed.

(** Joining the pieces with the separator gives the text back. *)
Lemma join_split (c : ascii) (s : string) :
  JS.join (String c "") (JS.split c s) = s.
Proof.
  induction s as [|a s IH]; [done|]. simpl.
  destruct (Ascii.eqb_spec a c) as [->|Hne].
  - pose proof (split_nonempty c s) as Hne.
    destruct (JS.split c s) as [|h t]; [done|].
    change (JS.join (String c "") ("" :: h :: t))
      with ("" ++ String c "" ++ JS.join (String c "") (h :: t)).
    by rewrite IH.
  - pose proof (split_nonempty c s) as Hne'.
    destruct (JS.split c s) as [|h t]; [done|].
    destruct t as [|h' t].
    + simpl in *. by rewrite IH.
    + change (JS.join (String c "") (String a h :: h' :: t))
        with (String a (h ++ String c "" ++ JS.join (String c "") (h' :: t))).
      f_equal. exact IH.
Qed.

Lemma cookies_fold_stuck (pieces : list string) (o : outcome (gmap string string)) :
  (forall jar, o <> Ok jar) ->
  List.fold_left
    (fun acc cookie =>
       match acc with
       | Ok list =>
           let parts := JS.split "=" cookie in
           let name := trim (List.hd "" parts) in
           let value := JS.join "=" (List.tl parts) in
           match decodeURIComponent value with
           | Some v =>
               Ok (if String.eqb name "__proto__" then list
                   else <[name := v]> list)
           | None => Throw URIError
           end
       | _ => acc
       end) pieces o = o.
Proof.
  intros Ho. induction pieces as [|piece rest IH]; [done|]. simpl.
  destruct o as [jar| |]; [by destruct (Ho jar)|apply IH|apply IH].
Qed.

(** The loop of [parseCookies], from the jar [acc]. *)
Lemma cookies_fold (pieces : list string) (acc : gmap string string) :
  match List.fold_left
          (fun acc cookie =>
             match acc with
             | Ok list =>
                 let parts := JS.split "=" cookie in
                 let name := trim (List.hd "" parts) in
                 let value := JS.join "=" (List.tl parts) in
                 match decodeURIComponent value with
                 | Some v =>
                     Ok (if String.eqb name "__proto__" then list
                         else <[name := v]> list)
                 | None => Throw URIError
                 end
             | _ => acc
             end) pieces (Ok acc) with
  | Ok jar =>
      Forall (fun piece => is_Some (decodeURIComponent (Frame.cookie_value piece))) pieces /\
      jar !! "__proto__" = acc !! "__proto__" /\
      forall k, k <> "__proto__" ->
                jar !! k = match last (omap (Frame.pick k) pieces) with
                           | Some v => Some v
                           | None => acc !! k
                           end
  | Throw e =>
      e = URIError /\
      Exists (fun piece => decodeURIComponent (Frame.cookie_value piece) = None) pieces
  | Crash => False
  end.
Proof.
  revert acc. induction pieces as [|piece rest IH]; intros acc.
  - simpl. split; [constructor|done].
  - cbn [List.fold_left]. cbv zeta.
    fold (Frame.cookie_name piece). fold (Frame.cookie_value piece).
    destruct (decodeURIComponent (Frame.cookie_value piece)) as [v|] eqn:Hv.
    + specialize (IH (if String.eqb (Frame.cookie_name piece) "__proto__" then acc
                      else <[Frame.cookie_name piece := v]> acc)).
      destruct (List.fold_left _ rest _) as [jar|e|]; [|by destruct IH; auto|done].
      destruct IH as (Hall & Hproto & Hlook).
      split; [constructor; [by rewrite Hv|done]|]. split.
      * rewrite Hproto.
        destruct (String.eqb_spec (Frame.cookie_name piece) "__proto__") as [|Hne];
          [done|]. by rewrite lookup_insert_ne.
      * intros k Hk. rewrite (Hlook k Hk). cbn [omap list_omap].
        unfold Frame.pick at 2.
        destruct (decide (Frame.cookie_name piece = k)) as [Heq|Hne].
        -- rewrite Hv, last_cons.
           destruct (String.eqb_spec (Frame.cookie_name piece) "__proto__") as [Hp|_];
             [congruence|].
           rewrite Heq, lookup_insert_eq. by destruct (last (omap _ rest)).
        -- destruct (String.eqb (Frame.cookie_name piece) "__proto__"); [done|].
           by rewrite lookup_insert_ne.
    + rewrite cookies_fold_stuck by done. split; [done|]. by left.
Qed.

(** One cookie in the header: its value is decoded whole, the [=] signs
    in it included. *)
Lemma parse_single_cookie (name value : string) :
  Frame.occurs ";" (name ++ String "=" value) = false ->
  Frame.occurs "=" name = false ->
  Server.parseCookies (Some (name ++ String "=" value)) =
  match decodeURIComponent value with
  | Some v => Ok (if String.eqb (trim name) "__proto__" then ∅ else {[trim name := v]})
  | None => Throw URIError
  end.
Proof.
  intros Hsemi Heq. unfold Server.parseCookies.
  destruct (String.eqb_spec (name ++ String "=" value) "") as [Hempty|_].
  { by destruct name. }
  rewrite split_absent by done. simpl.
  rewrite split_at by done. simpl.
  change "=" with (String "=" ""). rewrite join_split.
  destruct (decodeURIComponent value); [|done]. by rewrite insert_empty.
Qed.

End Cookies.

(** X6.  For a Cookie header that is not empty, [parseCookies] throws
    [URIError] exactly when the value of one of the pieces between the
    semicolons does not decode; otherwise the jar has no entry for the
    name [__proto__], and every other name maps to the decoded value of
    the last piece of that name, and to nothing when there is no such
    piece. *)
Theorem parse_cookies_spec `{JSRuntime} (header : string) :
  header <> "" ->
  let pieces := JS.split ";" header in
  match Server.parseCookies (Some header) with
  | Ok jar =>
      Forall (fun piece => is_Some (decodeURIComponent (Frame.cookie_value piece))) pieces /\
      jar !! "__proto__" = None /\
      forall k, k <> "__proto__" -> jar !! k = last (omap (Frame.pick k) pieces)
  | Throw e =>
      e = URIError /\
      Exists (fun piece => decodeURIComponent (Frame.cookie_value piece) = None) pieces
  | Crash => False
  end.
Proof.
  intros Hne pieces. unfold Server.parseCookies.
  destruct (String.eqb_spec header ""); [done|].
  pose proof (cookies_fold pieces ∅) as Hfold. fold pieces.
  destruct (List.fold_left _ pieces (Ok ∅)) as [jar|e|]; [|done|done].
  destruct Hfold as (Hall & Hproto & Hlook). split; [done|]. split; [done|].
  intros k Hk. rewrite (Hlook k Hk), lookup_empty. by destruct (last _).
Qed.

Lemma parse_cookies_spec_witness :
  match @Server.parseCookies Ref.runtime (Some "a=1; username=bob; __proto__=x; a=2") with
  | Ok jar => jar !! "a" = Some "2" /\ jar !! "username" = Some "bob" /\
              jar !! "b" = None /\ jar !! "__proto__" = None
  | _ => False
  end /\
  @Server.parseCookies Ref.runtime (Some "a=1; b=%zz") = Throw URIError.
Proof.
  split.
  - pose proof (@parse_cookies_spec Ref.runtime "a=1; username=bob; __proto__=x; a=2"
                  ltac:(done)) as Hspec.
    cbv zeta in Hspec.
    assert (Hrun : exists jar, @Server.parseCookies Ref.runtime
                                 (Some "a=1; username=bob; __proto__=x; a=2") = Ok jar)
      by (eexists; vm_compute; reflexivity).
    destruct Hrun as [jar Hrun]. rewrite Hrun in Hspec |- *.
    destruct Hspec as (_ & Hproto & Hlook).
    rewrite !Hlook by done. repeat split; try exact Hproto; vm_compute; reflexivity.
  - pose proof (@parse_cookies_spec Ref.runtime "a=1; b=%zz" ltac:(done)) as Hspec.
    cbv zeta in Hspec.
    assert (Hrun : exists e, @Server.parseCookies Ref.runtime (Some "a=1; b=%zz") = Throw e)
      by (eexists; vm_compute; reflexivity).
    destruct Hrun as [e Hrun]. rewrite Hrun in Hspec |- *. by destruct Hspec as [-> _].
Defined.

(** X7.  A header with one cookie, [name=value], gives a jar with the one
    entry [trim(name)], whose value is [value] decoded as a whole: the [=]
    signs inside the value stay in it.  The jar is empty when that name is
    [__proto__], and the call throws when the value does not decode. *)
Theorem single_cookie `{JSRuntime} (name value : string) :
  Frame.occurs ";" (name ++ String "=" value) = false ->
  Frame.occurs "=" name = false ->
  Server.parseCookies (Some (name ++ String "=" value)) =
  match decodeURIComponent value with
  | Some v => Ok (if String.eqb (trim name) "__proto__" then ∅ else {[trim name := v]})
  | None => Throw URIError
  end.
Proof.
  intros Hsemi Heq. unfold Server.parseCookies.
  destruct (String.eqb_spec (name ++ String "=" value) "") as [Hempty|_].
  { by destruct name. }
  rewrite split_absent by done. simpl.
  rewrite split_at by done. simpl.
  change "=" with (String "=" ""). rewrite join_split.
  destruct (decodeURIComponent value); [|done]. by rewrite insert_empty.
Qed.

Lemma single_cookie_witness :
  @Server.parseCookies Ref.runtime (Some " token=a=b%3D") = Ok {["token" := "a=b="]} /\
  @Server.parseCookies Ref.runtime (Some "__proto__=x") = Ok ∅.
Proof.
  split.
  - exact (@single_cookie Ref.runtime " token" "a=b%3D" eq_refl eq_refl).
  - exact (@single_cookie Ref.runtime "__proto__" "x" eq_refl eq_refl).
Defined.

(** X8.  A request that sends back the cookie set at login is recognised:
    [GET /whoami] reports that user, and so do the routes that resolve an
    identity when the request has no [username] query parameter and no
    [x-username] header.  A query parameter that names someone else takes
    over in those routes, while [whoami] still reports the cookie. *)
Theorem session_cookie `{JSRuntime} (name : string) (req : Request) :
  req_cookie req = Some (Session.cookie_header_for name) ->
  trim "username" = "username" ->
  Frame.occurs ";" (encodeURIComponent name) = false ->
  decodeURIComponent (encodeURIComponent name) = Some name ->
  Session.whoami req = Ok (Spec.nonempty (Some name)) /\
  (req_query_username req = None -> req_header_username req = None ->
   Server.username_of_request req = Ok (Spec.nonempty (Some name)) /\
   Server.username_of_listing req = Ok (Spec.nonempty (Some name))) /\
  (forall q, req_query_username req = Some q -> q <> "" ->
   Server.username_of_request req = Ok (Some q) /\
   Server.username_of_listing req = Ok (Some q)).
Proof.
  intros Hcookie Htrim Hsemi Hdecode.
  assert (Hjar : Server.parseCookies (req_cookie req) = Ok {["username" := name]}).
  { rewrite Hcookie. unfold Session.cookie_header_for.
    change ("username=" ++ encodeURIComponent name)
      with ("username" ++ String "=" (encodeURIComponent name)).
    rewrite parse_single_cookie; [by rewrite Hdecode, Htrim|by simpl|done]. }
  assert (Hnull : forall x, JS.str_or_null x = Spec.nonempty x).
  { intros [x|]; [|done]. unfold JS.str_or_null. simpl.
    by destruct (String.eqb x ""). }
  split; [|split].
  - unfold Session.whoami. by rewrite Hjar, lookup_singleton_eq, Hnull.
  - intros Hq Hh.
    rewrite (username_of_request_ok req _ Hjar), (username_of_listing_ok req _ Hjar).
    rewrite Hq, Hh, lookup_singleton_eq. unfold Spec.first_nonempty. simpl.
    by destruct (String.eqb name "").
  - intros q Hq Hne.
    rewrite (username_of_request_ok req _ Hjar), (username_of_listing_ok req _ Hjar).
    rewrite Hq. unfold Spec.first_nonempty. simpl.
    by destruct (String.eqb_spec q "").
Qed.

Lemma session_cookie_witness :
  @Session.whoami Ref.runtime Samples.carol_as_mallory = Ok (Some "carol") /\
  @Server.username_of_request Ref.runtime Samples.carol_as_mallory = Ok (Some "mallory").
Proof.
  destruct (@session_cookie Ref.runtime "carol" Samples.carol_as_mallory
              eq_refl eq_refl eq_refl eq_refl) as (Hwho & _ & Hquery).
  split; [exact Hwho|]. by apply (Hquery "mallory").
Defined.

(** *** Creating a product *)

Section Create.
Context `{JSRuntime}.

(** The decimal text determines the integer. *)
Lemma decimal_inj (a b : Z) : JS.decimal a = JS.decimal b -> a = b.
Proof.
  unfold JS.decimal. intros Heq.
  assert (Hnonnil : forall n, Z.to_int n <> Decimal.Pos Decimal.Nil /\
                              Z.to_int n <> Decimal.Neg Decimal.Nil).
  { intros [|q|q]; simpl; split; try done; intros [= Hq];
      by apply DecimalPos.Unsigned.to_uint_nonnil in Hq. }
  apply DecimalZ.to_int_inj.
  assert (Hsome : Some (Z.to_int a) = Some (Z.to_int b)); [|by injection Hsome].
  rewrite <- (NilZero.isi (Z.to_int a)), <- (NilZero.isi (Z.to_int b));
    try apply Hnonnil.
  by rewrite Heq.
Qed.

Lemma list_of_append (s t : string) :
  list_ascii_of_string (s ++ t) =
  (list_ascii_of_string s ++ list_ascii_of_string t)%list.
Proof. induction s as [|a s IH]; [done|]. simpl. by rewrite IH. Qed.

(** Two texts with the same ending are the same when they are the same
    with it. *)
Lemma append_inv_tail (s t u : string) : s ++ u = t ++ u -> s = t.
Proof.
  intros Heq. apply (f_equal list_ascii_of_string) in Heq.
  rewrite !list_of_append in Heq. apply app_inv_tail in Heq.
  apply (f_equal string_of_list_ascii) in Heq.
  by rewrite !string_of_list_ascii_of_string in Heq.
Qed.

(** The id made of a clock reading of these days: its decimal text with
    [.0] after it, the text of a double. *)
Lemma number_as_text_clock (now : Z) :
  Spec.clock_range now -> Db.number_as_text now = JS.decimal now ++ ".0".
Proof.
  unfold Spec.clock_range, Db.number_as_text. intros Hnow.
  assert (Hbound : (10 : Z) ^ 15 < 2 ^ 53) by done.
  rewrite round_exact by lia. cbv zeta.
  replace (Double.int32 now) with false.
  2:{ symmetry. unfold Double.int32. apply andb_false_iff. right.
      apply Z.ltb_ge. lia. }
  replace (Z.abs now <? 10 ^ 15) with true; [done|].
  symmetry. apply Z.ltb_lt. lia.
Qed.

(** Two such readings give two ids. *)
Lemma number_as_text_inj (a b : Z) :
  Spec.clock_range a -> Spec.clock_range b ->
  Db.number_as_text a = Db.number_as_text b -> a = b.
Proof.
  intros Ha Hb. rewrite !number_as_text_clock by done.
  intros Heq. by apply append_inv_tail, decimal_inj in Heq.
Qed.

Lemma find_product_spec (id : string) (rows : list Product) :
  match List.find (fun q => String.eqb (product_id q) id) rows with
  | Some q => q ∈ rows /\ product_id q = id
  | None => existsb (fun q => String.eqb (product_id q) id) rows = false
  end.
Proof.
  induction rows as [|q rows IH]; [done|]. simpl.
  destruct (String.eqb_spec (product_id q) id) as [Hq|Hq].
  - split; [by left|done].
  - destruct (List.find _ rows); [|done]. destruct IH. split; [by right|done].
Qed.

Lemma find_product_app (id : string) (rows : list Product) (q : Product) :
  List.find (fun q => String.eqb (product_id q) id) (rows ++ [q]) =
  match List.find (fun q => String.eqb (product_id q) id) rows with
  | Some q' => Some q'
  | None => if String.eqb (product_id q) id then Some q else None
  end.
Proof.
  induction rows as [|q' rows IH]; [done|]. simpl.
  by destruct (String.eqb (product_id q') id).
Qed.

(** What [POST /products] does when the store answers and the identity
    resolves. *)
Lemma post_products_run (req : Request) (form : ProductForm) (w : World)
    (owner : option string) :
  faults w = [] ->
  Server.username_of_request req = Ok owner ->
  Server.post_products req form w =
  let w1 := snd (Server.multer_single req w) in
  if existsb (fun q => String.eqb (product_id q) (Db.number_as_text (req_now req)))
       (products w)
  then (Ok (Respond 500 (BText "Server error")), w1)
  else (Ok (Redirect "/inventory.html" None),
        set_products (products w ++ [Frame.new_product req form owner]) w1).
Proof.
  intros Hfaults Howner.
  unfold Server.post_products, Server.multer_single, try_catch, bind at 1, bind, lift,
    Db.createProduct, Frame.new_product.
  rewrite Howner.
  destruct (req_file req) as [file|]; simpl;
    rewrite db_call_through by done; simpl;
    by destruct (existsb _ (products w)).
Qed.

Lemma resolved_listing (req : Request) (v : option string) :
  Server.username_of_listing req = Ok v -> v = None \/ JS.truthy_str v = true.
Proof.
  unfold Server.username_of_listing.
  destruct (Server.parseCookies _) as [jar| |]; [|done|done].
  intros [= <-]. unfold JS.str_or_null.
  destruct (JS.truthy_str _) eqn:Htruthy; [by right|by left].
Qed.

End Create.

(** X9.  A product posted when no product has the id made of the clock
    reading is stored under that id and found again by it, with the
    resolved identity as owner, the uploaded file as image, "Untitled" for
    a missing or empty title and stock 0 for a missing or empty stock; the
    products that were there are found as before.  The id is the text the
    column gives to the number [Date.now()]: for a clock of these days,
    its decimal text followed by [.0]. *)
Theorem create_then_lookup `{JSRuntime} (req : Request) (form : ProductForm) (w : World)
    (owner : option string) :
  faults w = [] ->
  Server.username_of_request req = Ok owner ->
  List.find (fun q => String.eqb (product_id q) (Db.number_as_text (req_now req)))
    (products w) = None ->
  exists w' p,
    Server.post_products req form w = (Ok (Redirect "/inventory.html" None), w') /\
    Db.getProductById (Db.number_as_text (req_now req)) w' = (Ok (Some p), w') /\
    product_id p = Db.number_as_text (req_now req) /\
    (Spec.clock_range (req_now req) ->
       product_id p = JS.decimal (req_now req) ++ ".0") /\
    product_owner p = owner /\
    product_image p = req_file req /\
    (forall f, req_file req = Some f -> f ∈ uploads w') /\
    (form_title form = None \/ form_title form = Some "" -> product_title p = "Untitled") /\
    (forall t, form_title form = Some t -> t <> "" -> product_title p = t) /\
    (form_stock form = None \/ form_stock form = Some "" -> product_stock p = SqlInt 0) /\
    (forall id, id <> Db.number_as_text (req_now req) ->
       Db.getProductById id w' = (fst (Db.getProductById id w), w')).
Proof.
  intros Hfaults Howner Hfind.
  pose proof (find_product_spec (Db.number_as_text (req_now req)) (products w)) as Hex.
  rewrite Hfind in Hex.
  eexists _, (Frame.new_product req form owner).
  split; [by rewrite (post_products_run req form w owner), Hex|].
  assert (Hf : forall w1 : World, faults w1 = [] ->
            faults (set_products (products w ++ [Frame.new_product req form owner]) w1) = []).
  { done. }
  assert (Hw1 : faults (snd (Server.multer_single req w)) = []).
  { unfold Server.multer_single. by destruct (req_file req). }
  split; [|split; [done|split; [|split; [done|split; [done|split; [|split; [|split;
    [|split]]]]]]]].
  - unfold Db.getProductById. rewrite db_call_through by auto. simpl.
    rewrite find_product_app, Hfind. simpl. by rewrite String.eqb_refl.
  - intros Hclock. simpl. by apply number_as_text_clock.
  - intros f Hfile. unfold Server.multer_single. rewrite Hfile. simpl.
    apply elem_of_union. left. by apply elem_of_singleton.
  - simpl. by intros [-> | ->].
  - simpl. intros t -> Hne. simpl. by destruct (String.eqb_spec t "").
  - simpl. by intros [-> | ->].
  - intros id Hid. unfold Db.getProductById.
    rewrite !db_call_through by auto. simpl.
    rewrite find_product_app. simpl.
    cbn [Frame.new_product product_id].
    destruct (String.eqb_spec (Db.number_as_text (req_now req)) id); [by subst|].
    by destruct (List.find (fun q => String.eqb (product_id q) id) (products w)).
Qed.

Lemma create_then_lookup_witness :
  exists w',
    @Server.post_products Ref.runtime
      (Samples.at_time 1700000000009 (Some "bob") (Some "1700000000009-cup.png"))
      (mkProductForm None None None None) Examples.shop =
      (Ok (Redirect "/inventory.html" None), w') /\
    @Db.getProductById "1700000000009.0" w' =
      (Ok (Some (mkProduct "1700000000009.0" "Untitled" (Some "") (Some "") (SqlInt 0)
                   (Some "1700000000009-cup.png") (Some "bob"))), w') /\
    @Db.getProductById "1700000000009" w' = (Ok None, w').
Proof.
  destruct (@create_then_lookup Ref.runtime
              (Samples.at_time 1700000000009 (Some "bob") (Some "1700000000009-cup.png"))
              (mkProductForm None None None None) Examples.shop (Some "bob")
              eq_refl eq_refl eq_refl) as (w' & p & Hrun & Hget & _).
  exists w'. split; [exact Hrun|].
  vm_compute in Hrun. injection Hrun as <-. split; reflexivity.
Defined.

(** X10.  After a product was created, a second creation whose clock
    reads the same millisecond is answered 500 and stores no product,
    though its uploaded file stays on disk; one whose clock gives another
    id is stored when no older product has that id, and two clocks of
    these days that read different milliseconds give different ids. *)
Theorem second_creation `{JSRuntime} (req req2 : Request) (form form2 : ProductForm)
    (w : World) (owner owner2 : option string) :
  faults w = [] ->
  Server.username_of_request req = Ok owner ->
  Server.username_of_request req2 = Ok owner2 ->
  List.find (fun q => String.eqb (product_id q) (Db.number_as_text (req_now req)))
    (products w) = None ->
  let w' := snd (Server.post_products req form w) in
  let result := Server.post_products req2 form2 w' in
  (req_now req2 = req_now req ->
   fst result = Ok (Respond 500 (BText "Server error")) /\
   products (snd result) = products w' /\
   forall f, req_file req2 = Some f -> f ∈ uploads (snd result)) /\
  (Db.number_as_text (req_now req2) <> Db.number_as_text (req_now req) ->
   List.find (fun q => String.eqb (product_id q) (Db.number_as_text (req_now req2)))
     (products w) = None ->
   fst result = Ok (Redirect "/inventory.html" None) /\
   products (snd result) =
     (products w ++ [Frame.new_product req form owner;
                     Frame.new_product req2 form2 owner2])%list) /\
  (Spec.clock_range (req_now req) -> Spec.clock_range (req_now req2) ->
   req_now req2 <> req_now req ->
   Db.number_as_text (req_now req2) <> Db.number_as_text (req_now req)).
Proof.
  intros Hfaults Howner Howner2 Hfind w' result.
  pose proof (find_product_spec (Db.number_as_text (req_now req)) (products w)) as Hex.
  rewrite Hfind in Hex.
  assert (Hw' : w' = set_products (products w ++ [Frame.new_product req form owner])
                      (snd (Server.multer_single req w))).
  { unfold w'. by rewrite (post_products_run req form w owner), Hex. }
  assert (Hfaults' : faults w' = []).
  { rewrite Hw'. unfold Server.multer_single. by destruct (req_file req). }
  assert (Hproducts : products w' = (products w ++ [Frame.new_product req form owner])%list).
  { by rewrite Hw'. }
  unfold result. rewrite (post_products_run req2 form2 w' owner2) by done.
  rewrite Hproducts. cbv zeta. split; [|split].
  - intros Hsame. rewrite Hsame.
    replace (existsb _ (products w ++ [Frame.new_product req form owner])) with true.
    2:{ symmetry. apply existsb_exists. exists (Frame.new_product req form owner).
        split; [apply in_or_app; right; by left|]. simpl. apply String.eqb_refl. }
    split; [done|]. split.
    + unfold Server.multer_single. by destruct (req_file req2).
    + intros f Hfile. unfold Server.multer_single. rewrite Hfile. simpl.
      apply elem_of_union. left. by apply elem_of_singleton.
  - intros Hother Hfind2.
    pose proof (find_product_spec (Db.number_as_text (req_now req2)) (products w)) as Hex2.
    rewrite Hfind2 in Hex2.
    rewrite existsb_app, Hex2. simpl.
    destruct (String.eqb_spec (Db.number_as_text (req_now req))
                (Db.number_as_text (req_now req2))) as [Heq|_].
    { by destruct Hother. }
    simpl. split; [done|]. by rewrite <- app_assoc.
  - intros Hclock Hclock2 Hother Heq. apply Hother.
    by apply number_as_text_inj.
Qed.

Lemma second_creation_witness :
  let first := Samples.at_time 1700000000009 (Some "bob") None in
  let again := Samples.at_time 1700000000009 (Some "alice") (Some "1700000000009-x.png") in
  let later := Samples.at_time 1700000000010 (Some "alice") None in
  let w' := snd (@Server.post_products Ref.runtime first Samples.pen_form Examples.shop) in
  fst (@Server.post_products Ref.runtime again Samples.pen_form w') =
    Ok (Respond 500 (BText "Server error")) /\
  length (products (snd (@Server.post_products Ref.runtime again Samples.pen_form w'))) = 3%nat /\
  product_id <$> products (snd (@Server.post_products Ref.runtime later Samples.pen_form w')) =
    ["1700000000001.0"; "1700000000002.0"; "1700000000009.0"; "1700000000010.0"].
Proof.
  intros first again later w'.
  destruct (@second_creation Ref.runtime first again Samples.pen_form Samples.pen_form
              Examples.shop (Some "bob") (Some "alice") eq_refl eq_refl eq_refl eq_refl)
    as (Hsame & _ & _).
  destruct (@second_creation Ref.runtime first later Samples.pen_form Samples.pen_form
              Examples.shop (Some "bob") (Some "alice") eq_refl eq_refl eq_refl eq_refl)
    as (_ & Hother & _).
  destruct (Hsame eq_refl) as (Hresp & Hproducts & _).
  split; [exact Hresp|]. fold w' in Hproducts. split.
  - rewrite Hproducts. reflexivity.
  - destruct Hother as [_ Hlater]; [done|reflexivity|].
    fold w' in Hlater. rewrite Hlater. reflexivity.
Defined.

(** X11.  A product that was just created is listed to a request that
    resolves to no identity and to one that resolves to its owner, and to
    no other. *)
Theorem created_product_listing `{JSRuntime} (req req' : Request) (form : ProductForm)
    (w : World) (owner viewer : option string) :
  faults w = [] ->
  Server.username_of_request req = Ok owner ->
  List.find (fun q => String.eqb (product_id q) (Db.number_as_text (req_now req)))
    (products w) = None ->
  Server.username_of_listing req' = Ok viewer ->
  let w' := snd (Server.post_products req form w) in
  exists ps,
    Server.get_products req' w' = (Ok (Respond 200 (BProducts ps)), w') /\
    (Frame.new_product req form owner ∈ ps <-> viewer = None \/ viewer = owner).
Proof.
  intros Hfaults Howner Hfind Hviewer w'.
  pose proof (find_product_spec (Db.number_as_text (req_now req)) (products w)) as Hex.
  rewrite Hfind in Hex.
  assert (Hw' : w' = set_products (products w ++ [Frame.new_product req form owner])
                      (snd (Server.multer_single req w))).
  { unfold w'. by rewrite (post_products_run req form w owner), Hex. }
  assert (Hfaults' : faults w' = []).
  { rewrite Hw'. unfold Server.multer_single. by destruct (req_file req). }
  exists (Db.select_products viewer (products w')). split.
  - unfold Server.get_products, try_catch, bind, lift, Db.getAllProducts.
    rewrite Hviewer. by rewrite db_call_through.
  - assert (Hlast : Frame.new_product req form owner ∈ products w').
    { rewrite Hw'. simpl. apply elem_of_app. right. constructor. }
    unfold Db.select_products.
    destruct (resolved_listing req' viewer Hviewer) as [->|Htruthy].
    + simpl. split; [by left|done].
    + rewrite Htruthy, filter_bool_decide. rewrite list_elem_of_filter. simpl.
      split.
      * intros [Hown _]. by right.
      * intros [Hv|Hv]; rewrite Hv in *; [done|]. by split.
Qed.

Lemma created_product_listing_witness :
  let create := Samples.at_time 1700000000009 (Some "bob") None in
  let w' := snd (@Server.post_products Ref.runtime create Samples.pen_form Examples.shop) in
  product_id (@Frame.new_product Ref.runtime create Samples.pen_form (Some "bob")) =
    "1700000000009.0" /\
  exists ps,
    @Server.get_products Ref.runtime (Samples.at_time 1700000000010 (Some "alice") None) w' =
      (Ok (Respond 200 (BProducts ps)), w') /\
    ~ @Frame.new_product Ref.runtime create Samples.pen_form (Some "bob") ∈ ps.
Proof.
  intros create w'.
  destruct (@created_product_listing Ref.runtime create
              (Samples.at_time 1700000000010 (Some "alice") None) Samples.pen_form
              Examples.shop (Some "bob") (Some "alice") eq_refl eq_refl eq_refl eq_refl)
    as (ps & Hget & Hin).
  split; [reflexivity|].
  exists ps. split; [exact Hget|]. intros Hps. apply Hin in Hps as [Hps|Hps]; done.
Defined.

(** *** Deleting and the image files *)

Section Removal.
Context `{JSRuntime}.

Lemma after_unlink_faults (image : option string) (w : World) :
  faults (Frame.after_unlink image w) = faults w /\
  products (Frame.after_unlink image w) = products w.
Proof.
  unfold Frame.after_unlink, Server.unlink_if_exists.
  destruct image as [old|]; [|done].
  destruct (String.eqb old ""); [done|]. by destruct (_ && _).
Qed.

(** What [DELETE /products/:id] does with a stored product when the
    store answers and the identity resolves. *)
Lemma delete_product_run (req : Request) (w : World) (p : Product) (user : option string) :
  faults w = [] ->
  List.find (fun q => String.eqb (product_id q) (req_param_id req)) (products w) = Some p ->
  Server.username_of_request req = Ok user ->
  Server.delete_product req w =
  if Server.delete_forbidden p user
  then (Ok (Respond 403 (BError "Forbidden")), w)
  else (Ok (Respond 200 BOk),
        set_products
          (List.filter (fun q => negb (String.eqb (product_id q) (req_param_id req)))
             (products w))
          (Frame.after_unlink (product_image p) w)).
Proof.
  intros Hfaults Hfind Huser.
  unfold Server.delete_product, try_catch, bind, lift, Db.getProductById.
  rewrite db_call_through by done. rewrite Hfind, Huser.
  destruct (Server.delete_forbidden p user); [done|].
  unfold Db.deleteProduct, Frame.after_unlink, Server.unlink_if_exists, ret.
  destruct (product_image p) as [image|].
  - destruct (String.eqb image "").
    + by rewrite db_call_through.
    + destruct (_ && _); by rewrite db_call_through.
  - by rewrite db_call_through.
Qed.

Lemma find_after_delete (id id' : string) (rows : list Product) :
  List.find (fun q => String.eqb (product_id q) id')
    (List.filter (fun q => negb (String.eqb (product_id q) id)) rows) =
  if String.eqb id id' then None
  else List.find (fun q => String.eqb (product_id q) id') rows.
Proof.
  induction rows as [|q rows IH]; simpl.
  - by destruct (String.eqb id id').
  - destruct (String.eqb_spec (product_id q) id) as [Hq|Hq]; simpl.
    + rewrite IH. destruct (String.eqb_spec id id') as [Heq|Hne]; [done|].
      destruct (String.eqb_spec (product_id q) id'); [congruence|done].
    + rewrite IH. destruct (String.eqb_spec id id') as [Heq|Hne]; [|done].
      destruct (String.eqb_spec (product_id q) id'); [congruence|done].
Qed.

(** What [POST /products/:id] does with a stored product when the store
    answers. *)
Lemma post_product_run (req : Request) (form : ProductForm) (w : World) (p : Product) :
  faults w = [] ->
  List.find (fun q => String.eqb (product_id q) (req_param_id req)) (products w) = Some p ->
  Server.post_product req form w =
  (Ok (Redirect "/inventory.html" None),
   set_products
     (List.map (fun q => if String.eqb (product_id q) (req_param_id req)
                         then Db.set_columns (product_title (Spec.merged req form p))
                                (product_description (Spec.merged req form p))
                                (product_price (Spec.merged req form p))
                                (product_stock (Spec.merged req form p))
                                (product_image (Spec.merged req form p)) q
                         else q) (products w))
     (match req_file req with
      | Some f => Frame.after_unlink (product_image p) (set_uploads ({[f]} ∪ uploads w) w)
      | None => w
      end)).
Proof.
  intros Hfaults Hfind.
  unfold Server.post_product, Server.multer_single, try_catch, bind, Spec.merged.
  unfold Db.getProductById, Db.updateProduct, Frame.after_unlink, Server.unlink_if_exists, ret.
  destruct (req_file req) as [file|] eqn:Hfile.
  - rewrite db_call_through by done. simpl. rewrite Hfind.
    destruct (product_image p) as [old|] eqn:Hold.
    + destruct (String.eqb old "").
      * by rewrite db_call_through.
      * destruct (_ && _); by rewrite db_call_through.
    + by rewrite db_call_through.
  - rewrite db_call_through by done. rewrite Hfind.
    by rewrite db_call_through.
Qed.

End Removal.

(** X12.  For a stored product and a requester whose identity resolves to
    a name: the delete goes through when the product has no owner (null or
    the empty string) or the owner is that name, and then the product is
    no longer found; with any other owner the answer is 403 and the world
    is left exactly as it was. *)
Theorem delete_by_named_requester `{JSRuntime} (req : Request) (w : World) (p : Product)
    (u : string) :
  faults w = [] ->
  List.find (fun q => String.eqb (product_id q) (req_param_id req)) (products w) = Some p ->
  Server.username_of_request req = Ok (Some u) ->
  (product_owner p = None \/ product_owner p = Some "" \/ product_owner p = Some u ->
   fst (Server.delete_product req w) = Ok (Respond 200 BOk) /\
   List.find (fun q => String.eqb (product_id q) (req_param_id req))
     (products (snd (Server.delete_product req w))) = None) /\
  (forall o, product_owner p = Some o -> o <> "" -> o <> u ->
   Server.delete_product req w = (Ok (Respond 403 (BError "Forbidden")), w)).
Proof.
  intros Hfaults Hfind Huser.
  rewrite (delete_product_run req w p (Some u)) by done. split.
  - intros Hallowed.
    replace (Server.delete_forbidden p (Some u)) with false.
    + simpl. split; [done|]. by rewrite find_after_delete, String.eqb_refl.
    + symmetry. apply not_true_iff_false. intros Hforbidden.
      apply delete_forbidden_spec in Hforbidden as (o & Ho & Hne & Hdiff).
      simpl in Hdiff. destruct Hallowed as [Hn|[He|Hu]]; congruence.
  - intros o Ho Hne Hdiff.
    replace (Server.delete_forbidden p (Some u)) with true; [done|].
    symmetry. apply delete_forbidden_spec. by exists o.
Qed.

Lemma delete_by_named_requester_witness :
  @Server.delete_product Ref.runtime Samples.bob_deletes_pen Examples.shop =
    (Ok (Respond 403 (BError "Forbidden")), Examples.shop) /\
  fst (@Server.delete_product Ref.runtime Samples.alice_deletes_pen Examples.shop) =
    Ok (Respond 200 BOk).
Proof.
  destruct (@delete_by_named_requester Ref.runtime Samples.bob_deletes_pen Examples.shop
              Examples.alice_pen "bob" eq_refl eq_refl eq_refl) as [_ Hno].
  destruct (@delete_by_named_requester Ref.runtime Samples.alice_deletes_pen Examples.shop
              Examples.alice_pen "alice" eq_refl eq_refl eq_refl) as [Hyes _].
  split; [by apply (Hno "alice")|]. apply Hyes. by right; right.
Defined.

(** X13.  A delete that is not refused removes the product and only it:
    every other id is found as before.  The image file of the product is
    removed from the uploads, unless removing it fails, in which case the
    answer is still 200 and the file stays; no other file is touched. *)
Theorem delete_effects `{JSRuntime} (req : Request) (w : World) (p : Product)
    (user : option string) :
  faults w = [] ->
  List.find (fun q => String.eqb (product_id q) (req_param_id req)) (products w) = Some p ->
  Server.username_of_request req = Ok user ->
  Server.delete_forbidden p user = false ->
  exists w',
    Server.delete_product req w = (Ok (Respond 200 BOk), w') /\
    (forall id, List.find (fun q => String.eqb (product_id q) id) (products w') =
                if String.eqb (req_param_id req) id then None
                else List.find (fun q => String.eqb (product_id q) id) (products w)) /\
    (forall image, product_image p = Some image -> image <> "" ->
       (image ∉ locked w -> image ∉ uploads w') /\
       (image ∈ locked w -> uploads w' = uploads w)) /\
    (forall f, f ∈ uploads w' -> f ∈ uploads w) /\
    (forall f, f ∈ uploads w -> product_image p <> Some f -> f ∈ uploads w').
Proof.
  intros Hfaults Hfind Huser Hallowed.
  rewrite (delete_product_run req w p user), Hallowed by done.
  eexists. split; [done|]. simpl. split; [|split; [|split]].
  - intros id. apply find_after_delete.
  - intros image Himage Hne. rewrite Himage. simpl.
    destruct (String.eqb_spec image ""); [done|].
    unfold Server.unlink_if_exists.
    destruct (decide (image ∈ uploads w)) as [Hin|Hout],
             (decide (image ∈ locked w)) as [Hlocked|Hfree]; simpl.
    + rewrite bool_decide_eq_true_2, (bool_decide_eq_true_2 (image ∈ locked w)) by done.
      simpl. split; [done|done].
    + rewrite bool_decide_eq_true_2, (bool_decide_eq_false_2 (image ∈ locked w)) by done.
      simpl. split; [|done]. intros _ Hstill.
      apply elem_of_difference in Hstill as [_ Hnot]. apply Hnot.
      by apply elem_of_singleton.
    + rewrite (bool_decide_eq_false_2 (image ∈ uploads w)) by done. simpl.
      split; [done|done].
    + rewrite (bool_decide_eq_false_2 (image ∈ uploads w)) by done. simpl.
      split; [done|done].
  - intros f. unfold Frame.after_unlink, Server.unlink_if_exists.
    destruct (product_image p) as [image|]; [|done].
    destruct (String.eqb image ""); [done|].
    destruct (_ && _); simpl; [|done].
    intros Hf. by apply elem_of_difference in Hf as [Hf _].
  - intros f Hf Hother. unfold Frame.after_unlink, Server.unlink_if_exists.
    destruct (product_image p) as [image|]; [|done].
    destruct (String.eqb image ""); [done|].
    destruct (_ && _); simpl; [|done].
    apply elem_of_difference. split; [done|].
    intros Heq. apply elem_of_singleton in Heq. congruence.
Qed.

Lemma delete_effects_witness :
  exists w',
    @Server.delete_product Ref.runtime Samples.alice_deletes_pen Examples.shop =
      (Ok (Respond 200 BOk), w') /\
    products w' = [Examples.Alice_ink] /\
    "1700000000001-pen.png" ∉ uploads w'.
Proof.
  destruct (@delete_effects Ref.runtime Samples.alice_deletes_pen Examples.shop
              Examples.alice_pen (Some "alice") eq_refl eq_refl eq_refl eq_refl)
    as (w' & Hrun & _ & Himage & _).
  exists w'. split; [exact Hrun|]. split.
  - vm_compute in Hrun. by injection Hrun as <-.
  - destruct (Himage "1700000000001-pen.png" eq_refl) as [Hgone _]; [done|].
    apply Hgone. simpl. apply not_elem_of_empty.
Defined.

(** X14.  An update that uploads a new image records the new file name in
    the product.  The old image file is removed from the uploads unless
    removing it fails, and the new file is in the uploads unless its name
    is the name of the old one, which the route has just removed. *)
Theorem update_image `{JSRuntime} (req : Request) (form : ProductForm) (w : World)
    (p : Product) (f : string) :
  faults w = [] ->
  List.find (fun q => String.eqb (product_id q) (req_param_id req)) (products w) = Some p ->
  req_file req = Some f ->
  exists w' p',
    Server.post_product req form w = (Ok (Redirect "/inventory.html" None), w') /\
    List.find (fun q => String.eqb (product_id q) (req_param_id req)) (products w') = Some p' /\
    product_image p' = Some f /\
    (product_image p <> Some f -> f ∈ uploads w') /\
    (forall old, product_image p = Some old -> old <> "" -> old ∉ locked w ->
       old ∉ uploads w').
Proof.
  intros Hfaults Hfind Hfile.
  rewrite (post_product_run req form w p) by done. rewrite Hfile.
  eexists _, (Spec.merged req form p). split; [done|]. simpl. split; [|split; [|split]].
  - by rewrite (find_map_update _ _ _ p).
  - by rewrite Hfile.
  - intros Hother. unfold Frame.after_unlink, Server.unlink_if_exists.
    assert (Hnew : f ∈ ({[f]} ∪ uploads w : gset string)).
    { apply elem_of_union. left. by apply elem_of_singleton. }
    destruct (product_image p) as [old|]; [|done].
    destruct (String.eqb old ""); [done|]. simpl.
    destruct (_ && _); simpl; [|done].
    apply elem_of_difference. split; [done|].
    intros Heq. apply elem_of_singleton in Heq. congruence.
  - intros old Hold Hne Hfree. rewrite Hold. simpl.
    destruct (String.eqb_spec old ""); [done|].
    unfold Server.unlink_if_exists. simpl.
    rewrite (bool_decide_eq_false_2 (old ∈ locked w)) by done.
    destruct (decide (old ∈ ({[f]} ∪ uploads w : gset string))) as [Hin|Hout].
    + rewrite bool_decide_eq_true_2 by done. simpl.
      intros Hstill. apply elem_of_difference in Hstill as [_ Hnot].
      apply Hnot. by apply elem_of_singleton.
    + by rewrite bool_decide_eq_false_2.
Qed.

Lemma update_image_witness :
  exists w',
    @Server.post_product Ref.runtime Samples.new_pen_picture
      (mkProductForm None None None None) Examples.shop =
      (Ok (Redirect "/inventory.html" None), w') /\
    "1700000000500-pen2.png" ∈ uploads w' /\
    "1700000000001-pen.png" ∉ uploads w'.
Proof.
  destruct (@update_image Ref.runtime Samples.new_pen_picture
              (mkProductForm None None None None) Examples.shop Examples.alice_pen
              "1700000000500-pen2.png" eq_refl eq_refl eq_refl)
    as (w' & p' & Hrun & _ & _ & Hnew & Hold).
  exists w'. split; [exact Hrun|]. split.
  - by apply Hnew.
  - apply (Hold "1700000000001-pen.png"); [done|done|]. simpl. apply not_elem_of_empty.
Defined.

(** *** The ledger *)

Section Ledger.
Context `{JSRuntime}.

(** What a run of [POST /transactions] can have done to the ledger. *)
Lemma post_transactions_ledger (req : Request) (body : TxBody) (w : World) :
  let w' := snd (Server.post_transactions req body w) in
  transactions w' = transactions w \/
  exists arr owner,
    body_items body = Some (JArr arr) /\ arr <> [] /\
    Forall (fun item => Spec.line_item item = true) arr /\
    Server.username_of_request req = Ok owner /\
    let t := Spec.transaction_of req body owner arr
               (Db.next_id_of (Db.max_id (transactions w))) in
    fst (Server.post_transactions req body w) = Ok (Respond 200 (BCreated t)) /\
    transactions w' = (transactions w ++ [Db.row_of t])%list /\
    Double.inside_int64 (tx_id t) = true /\
    tx_id t ∉ row_id <$> transactions w.
Proof.
  unfold Server.post_transactions, try_catch, bind, lift.
  destruct (body_items body) as [items|] eqn:Hitems; [|by left].
  destruct (Server.no_items items) eqn:Hno; [by left|].
  destruct (Server.username_of_request req) as [owner| |] eqn:Howner; [|by left|by left].
  destruct items as [| | | |arr|]; try (by left).
  assert (Hne : arr <> []).
  { intros ->. by vm_compute in Hno. }
  destruct (lines_or_not arr) as [Hall|Hex].
  2:{ simpl. rewrite reduce_stops by done. by left. }
  simpl. rewrite (reduce_line_totals _ _ Hall), (reduce_line_qtys _ _ Hall).
  assert (Hfresh : forall n rows,
            existsb (fun r => row_id r =? n) rows = false -> n ∉ row_id <$> rows).
  { intros n rows Hex Hin. apply list_elem_of_fmap in Hin as (r & -> & Hr).
    apply not_true_iff_false in Hex. apply Hex, existsb_exists.
    exists r. split; [by apply list_elem_of_In|]. by apply Z.eqb_eq. }
  unfold Db.getNextTransactionId, Db.createTransaction, db_call.
  destruct (faults w) as [|[msg|] rest] eqn:Hfaults; simpl; [| by left |].
  - rewrite Hfaults. cbn [tx_id].
    destruct (Double.inside_int64 _) eqn:Hint; simpl; [|by left].
    destruct (existsb _ (transactions w)) eqn:Hex; simpl; [by left|].
    right. exists arr, owner. repeat split; try done. by apply Hfresh.
  - destruct rest as [|[msg|] rest]; simpl; [|by left|];
      (destruct (Double.inside_int64 _) eqn:Hint; simpl; [|by left]);
      (destruct (existsb _ (transactions w)) eqn:Hex; simpl; [by left|]);
      right; exists arr, owner; repeat split; try done; by apply Hfresh.
Qed.

Lemma parse_rows_stop (rows : list TxRow) (r : TxRow) :
  r ∈ rows -> Db.parse_row r = None -> Db.parse_rows rows = None.
Proof.
  intros Hin Hbad. induction rows as [|r' rows IH]; [by apply elem_of_nil in Hin|].
  simpl. apply elem_of_cons in Hin as [<-|Hin]; [by rewrite Hbad|].
  destruct (Db.parse_row r'); [|done]. by rewrite IH.
Qed.

(** The head of a list sorted newest first is its one row of largest id. *)
Lemma head_newest (l : list TxRow) (r : TxRow) :
  StronglySorted Spec.newer_first l ->
  r ∈ l ->
  (forall r', r' ∈ l -> row_id r' = row_id r -> r' = r) ->
  (forall r', r' ∈ l -> row_id r' <= row_id r) ->
  head l = Some r.
Proof.
  intros Hsorted Hin Hone Hmax. destruct l as [|x l]; [by apply elem_of_nil in Hin|].
  simpl. f_equal. apply Hone; [by left|].
  apply StronglySorted_inv in Hsorted as [_ Hall].
  apply Z.le_antisymm; [apply Hmax; by left|].
  apply elem_of_cons in Hin as [->|Hin]; [done|].
  rewrite Forall_forall in Hall. by apply (Hall r).
Qed.

(** The id of a parsed row is the id of the row, read as a double. *)
Lemma parse_row_id (r : TxRow) (t : Transaction) :
  Db.parse_row r = Some t -> tx_id t = Double.round (row_id r).
Proof.
  unfold Db.parse_row.
  destruct (JSON_parse (row_items r)); [|done].
  destruct (match row_location r with Some _ => _ | None => _ end); [|done].
  by intros [= <-].
Qed.

End Ledger.

(** X15.  The ledger only ever grows by [POST /transactions], by one row
    at a time, and only for a request whose [items] is a non-empty array
    of line items (no null entry, and quantities and prices that convert
    to numbers): the row then carries the next id, which is a 64-bit
    integer that no stored row has, and the totals of those items, and the
    answer is 200.  In every other case, whatever the request, the
    identity or the fate of the store calls, the ledger is left as it
    was. *)
Theorem ledger_growth `{JSRuntime} (req : Request) (body : TxBody) (w : World) :
  let w' := snd (Server.post_transactions req body w) in
  transactions w' = transactions w \/
  exists arr owner,
    body_items body = Some (JArr arr) /\ arr <> [] /\
    Forall (fun item => Spec.line_item item = true) arr /\
    Server.username_of_request req = Ok owner /\
    let t := Spec.transaction_of req body owner arr
               (Db.next_id_of (Db.max_id (transactions w))) in
    fst (Server.post_transactions req body w) = Ok (Respond 200 (BCreated t)) /\
    transactions w' = (transactions w ++ [Db.row_of t])%list /\
    Double.inside_int64 (tx_id t) = true /\
    tx_id t ∉ row_id <$> transactions w.
Proof. apply post_transactions_ledger. Qed.

(** X16.  A ledger whose rows all parse still has only rows that parse
    after any [POST /transactions], provided the posted items and location
    are values that [JSON.parse] recovers from their [JSON.stringify]
    text. *)
Theorem ledger_stays_readable `{JSRuntime} (req : Request) (body : TxBody) (w : World) :
  Forall (fun r => is_Some (Db.parse_row r)) (transactions w) ->
  (forall items, body_items body = Some items ->
     JSON_parse (JSON_stringify items) = Some items) ->
  (forall l, JS.or_null (body_location body) = Some l -> Spec.survives_storage l) ->
  Forall (fun r => is_Some (Db.parse_row r))
    (transactions (snd (Server.post_transactions req body w))).
Proof.
  intros Hparse Hitems Hloc.
  destruct (post_transactions_ledger req body w)
    as [Hsame|(arr & owner & Hbody & _ & _ & _ & _ & Hgrow & _)].
  - by rewrite Hsame.
  - rewrite Hgrow. apply Forall_app. split; [done|].
    constructor; [|constructor].
    destruct (parse_row_of (Spec.transaction_of req body owner arr
                (Db.next_id_of (Db.max_id (transactions w))))) as (t' & Ht' & _).
    + simpl. by apply Hitems.
    + simpl. intros l Hl. split; [by apply or_null_truthy in Hl|by apply Hloc].
    + by eexists.
Qed.

Lemma ledger_stays_readable_witness :
  Forall (fun r => is_Some (@Db.parse_row Ref.runtime r))
    (transactions (snd (@Server.post_transactions Ref.runtime Examples.anonymous
                          Examples.body25 Examples.ledger))).
Proof.
  apply (@ledger_stays_readable Ref.runtime).
  - repeat constructor; eexists; vm_compute; reflexivity.
  - intros items [= <-]. vm_compute. reflexivity.
  - intros l [= <-]. split; [done|]. vm_compute. reflexivity.
Defined.

(** X17.  One stored row whose [items] text does not parse stops the
    listing for every request that selects it: the parse runs outside the
    promise, so the [catch] of [GET /transactions] is not reached and the
    handler sends nothing. *)
Theorem unreadable_row_stops_listing `{JSRuntime} (req : Request) (w : World)
    (viewer : option string) (r : TxRow) :
  faults w = [] ->
  Server.username_of_listing req = Ok viewer ->
  r ∈ transactions w ->
  viewer = None \/ row_owner r = viewer ->
  JSON_parse (row_items r) = None ->
  Server.get_transactions req w = (Crash, w).
Proof.
  intros Hfaults Hviewer Hin Hsel Hbad.
  unfold Server.get_transactions, try_catch, bind, lift, Db.getAllTransactions.
  rewrite Hviewer. rewrite db_call_through by done.
  rewrite (parse_rows_stop _ r); [done| |].
  - rewrite select_transactions_perm.
    destruct (JS.truthy_str viewer) eqn:Htruthy; [|done].
    apply list_elem_of_filter. split; [|done].
    destruct Hsel as [->|Hsel]; [done|done].
  - unfold Db.parse_row. by rewrite Hbad.
Qed.

Lemma unreadable_row_stops_listing_witness :
  @Server.get_transactions Ref.runtime Examples.anonymous Samples.broken_ledger =
  (Crash, Samples.broken_ledger).
Proof.
  apply (@unreadable_row_stops_listing Ref.runtime Examples.anonymous
           Samples.broken_ledger None Samples.broken_row).
  - reflexivity.
  - reflexivity.
  - right. left.
  - by left.
  - reflexivity.
Defined.

(** X18.  A transaction that was just posted to a ledger whose ids are
    safe integers is the first of the list that [GET /transactions]
    returns to its owner and to a request with no identity: the listing is
    newest first and the new id is above every stored id.  It is listed as
    it was answered, with the total and the item count as their columns
    give them back (null for [NaN]). *)
Theorem newest_first `{JSRuntime} (req req' : Request) (body : TxBody) (w : World)
    (arr : list json) (owner : option string) :
  body_items body = Some (JArr arr) ->
  arr <> [] ->
  Forall (fun item => Spec.line_item item = true) arr ->
  Server.username_of_request req = Ok owner ->
  faults w = [] ->
  Forall (fun r => Double.safe (row_id r)) (transactions w) ->
  JSON_parse (JSON_stringify (JArr arr)) = Some (JArr arr) ->
  (forall l, body_location body = Some l -> JS.truthy l = true ->
     Spec.survives_storage l) ->
  Forall (fun r => is_Some (Db.parse_row r)) (transactions w) ->
  Server.username_of_listing req' = Ok owner \/
  Server.username_of_listing req' = Ok None ->
  exists t w' ts,
    Server.post_transactions req body w = (Ok (Respond 200 (BCreated t)), w') /\
    Server.get_transactions req' w' = (Ok (Respond 200 (BTransactions ts)), w') /\
    head ts = Some (Spec.listed t) /\
    (forall x c, tx_total t = Some x -> tx_itemCount t = Some c ->
       Db.stored_number x = Some x -> Db.stored_number c = Some c ->
       head ts = Some t) /\
    Forall (fun t' => tx_id t' <= tx_id t) ts /\
    (forall r, r ∈ transactions w -> row_id r < tx_id t).
Proof.
  intros Hitems Hne Hall Howner Hfaults Hsafe Hjson Hloc Hparse Hlisting.
  destruct (post_then_list req req' body w arr owner) as
    (ts & user & Hpost & Hget & Hrows & Hback & Hselected & Hmember & Hbelow); try done.
  destruct (next_id_accepted (transactions w) Hsafe) as (_ & _ & Hround & _).
  set (t := Spec.transaction_of req body owner arr _) in *.
  set (w' := set_transactions (transactions w ++ [Db.row_of t]) w) in *.
  assert (Hhead : head (Db.select_transactions user (transactions w')) = Some (Db.row_of t)).
  { apply head_newest.
    - apply order_by_id_desc_sorted.
    - done.
    - intros r Hr Hid. destruct (Hmember r Hr) as [Hold| ->]; [|done].
      apply Hbelow in Hold. simpl in Hid, Hold. lia.
    - intros r Hr. destruct (Hmember r Hr) as [Hold| ->]; [|done].
      apply Hbelow in Hold. simpl in *. lia. }
  assert (Hfirst : head ts = Some (Spec.listed t)).
  { destruct Hrows as [|t' r' ts' rs' Hparsed Hrest]; [done|].
    simpl in *. injection Hhead as ->. rewrite Hback in Hparsed.
    by injection Hparsed as <-. }
  exists t, w', ts. split; [done|]. split; [done|]. split; [done|].
  split; [|split; [|done]].
  - intros x c Hx Hc Hsx Hsc. rewrite Hfirst. f_equal.
    unfold Spec.listed. rewrite Hx, Hc, Hsx, Hsc. destruct t; simpl in *. congruence.
  - apply Forall_forall. intros t' Ht'.
    apply list_elem_of_lookup in Ht' as [i Hi].
    destruct (Forall2_lookup_l _ _ _ _ _ Hrows Hi) as (r & Hr & Hparsed).
    apply list_elem_of_lookup_2 in Hr. rewrite (parse_row_id r t' Hparsed).
    destruct (Hmember r Hr) as [Hold| ->].
    + rewrite round_safe.
      * apply Hbelow in Hold. lia.
      * rewrite Forall_forall in Hsafe. by apply Hsafe.
    + cbn [Db.row_of row_id]. fold t. unfold t at 1. cbn [Spec.transaction_of tx_id].
      rewrite Hround. done.
Qed.

Lemma newest_first_witness :
  exists t w' ts,
    @Server.post_transactions Ref.runtime Examples.anonymous Examples.body25
      Examples.ledger = (Ok (Respond 200 (BCreated t)), w') /\
    @Server.get_transactions Ref.runtime Examples.anonymous w' =
      (Ok (Respond 200 (BTransactions ts)), w') /\
    head ts = Some t /\ tx_id t = 4 /\ tx_id <$> ts = [4; 3; 2; 1].
Proof.
  destruct (@newest_first Ref.runtime Examples.anonymous Examples.anonymous
              Examples.body25 Examples.ledger _ None eq_refl)
    as (t & w' & ts & Hpost & Hget & _ & Hhead & _).
  - done.
  - repeat constructor.
  - reflexivity.
  - reflexivity.
  - repeat constructor; unfold Double.safe; simpl; lia.
  - vm_compute. reflexivity.
  - intros l [= <-] _. split; [done|]. vm_compute. reflexivity.
  - repeat constructor; eexists; vm_compute; reflexivity.
  - by right.
  - exists t, w', ts. split; [done|]. split; [done|].
    vm_compute in Hpost. injection Hpost as <- <-.
    split; [by apply (Hhead 25 3)|]. split; [reflexivity|].
    vm_compute in Hget. by injection Hget as <-.
Defined.

(** *** Names of uploaded files *)

Section Names.

Lemma collapse_clean (in_run : bool) (s : list N) :
  Forall (fun c => Upload.is_white c = false) (Upload.collapse in_run s).
Proof.
  revert in_run. induction s as [|c s IH]; intros in_run; simpl; [constructor|].
  destruct (Upload.is_white c) eqn:Hc.
  - destruct in_run; [apply IH|]. constructor; [done|apply IH].
  - constructor; [done|apply IH].
Qed.

Lemma collapse_length (in_run : bool) (s : list N) :
  (length (Upload.collapse in_run s) <= length s)%nat.
Proof.
  revert in_run. induction s as [|c s IH]; intros in_run; simpl; [lia|].
  destruct (Upload.is_white c).
  - destruct in_run; simpl.
    + specialize (IH true). lia.
    + specialize (IH true). lia.
  - simpl. specialize (IH false). lia.
Qed.

Lemma collapse_fixed (s : list N) :
  Forall (fun c => Upload.is_white c = false) s -> Upload.collapse false s = s.
Proof.
  induction 1 as [|c s Hc _ IH]; simpl; [done|]. by rewrite Hc, IH.
Qed.

Lemma uint_clean (d : Decimal.uint) :
  Forall (fun c => Upload.is_white c = false) (Upload.units (NilEmpty.string_of_uint d)).
Proof.
  induction d; simpl; constructor; done.
Qed.

Lemma decimal_clean (n : Z) :
  Forall (fun c => Upload.is_white c = false) (Upload.units (JS.decimal n)).
Proof.
  unfold JS.decimal, NilZero.string_of_int, NilZero.string_of_uint.
  destruct (Z.to_int n) as [d|d].
  - destruct d; try apply uint_clean. by repeat constructor.
  - change (Upload.units (String "-" ?s)) with (45%N :: Upload.units s).
    constructor; [done|].
    destruct d; try apply uint_clean. by repeat constructor.
Qed.

End Names.

(** X19.  The name under which an uploaded image or payment proof is
    stored contains no white space; the original name is kept as it is
    when it has none, and the part made from it is never longer than the
    original. *)
Theorem stored_names_clean (now : Z) (originalname : list N) :
  Forall (fun c => Upload.is_white c = false) (Upload.safeName now originalname) /\
  Forall (fun c => Upload.is_white c = false) (Upload.proofName now originalname) /\
  (length (Upload.replace_whitespace originalname) <= length originalname)%nat /\
  (Forall (fun c => Upload.is_white c = false) originalname ->
   Upload.replace_whitespace originalname = originalname /\
   Upload.safeName now originalname =
     (Upload.units (JS.decimal now) ++ Upload.units "-" ++ originalname)%list).
Proof.
  unfold Upload.safeName, Upload.proofName, Upload.replace_whitespace.
  split; [|split; [|split]].
  - apply Forall_app. split; [apply decimal_clean|].
    apply Forall_app. split; [by repeat constructor|apply collapse_clean].
  - apply Forall_app. split; [apply decimal_clean|].
    apply Forall_app. split; [by repeat constructor|apply collapse_clean].
  - apply collapse_length.
  - intros Hclean. by rewrite collapse_fixed.
Qed.

Lemma stored_names_clean_witness :
  Upload.replace_whitespace (Upload.units "a.png") = Upload.units "a.png" /\
  Upload.safeName 17 (Upload.units "a.png") = Upload.units "17-a.png".
Proof.
  destruct (stored_names_clean 17 (Upload.units "a.png")) as (_ & _ & _ & Hkept).
  apply Hkept. by repeat constructor.
Defined.

(** *** Owners *)

Section Owners.
Context `{JSRuntime}.

Lemma owners_kept_steady : Frame.steady Frame.owners_kept.
Proof.
  split; [|split].
  - intros w Hw. exact Hw.
  - intros w1 w2 w3 H12 H23 H1. by apply H23, H12.
  - intros w fs Hw. exact Hw.
Qed.

Lemma parse_cookies_no_crash (header : option string) :
  Server.parseCookies header <> Crash.
Proof.
  unfold Server.parseCookies. destruct header as [h|]; [|done].
  destruct (String.eqb h ""); [done|].
  pose proof (cookies_fold (JS.split ";" h) ∅) as Hfold.
  by destruct (List.fold_left _ (JS.split ";" h) (Ok ∅)).
Qed.

(** A resolved identity is a name or nothing, never the empty string. *)
Lemma resolved_request (req : Request) (v : option string) :
  Server.username_of_request req = Ok v -> v <> Some "".
Proof.
  unfold Server.username_of_request.
  assert (Hnull : forall x, JS.str_or_null x <> Some "").
  { intros [x|]; unfold JS.str_or_null; simpl; [|done].
    destruct (String.eqb_spec x ""); simpl; [done|]. by intros [= Hx]. }
  destruct (JS.truthy_str _); [intros [= <-]; apply Hnull|].
  destruct (Server.parseCookies _); [|done|done].
  intros [= <-]. apply Hnull.
Qed.

Lemma keeps_bind_lift (R : World -> World -> Prop) {A B} (o : outcome A) (k : A -> M B) :
  Frame.steady R ->
  (forall a, o = Ok a -> Frame.keeps R (k a)) ->
  Frame.keeps R (bind (lift o) k).
Proof.
  intros HR Hk w. unfold bind, lift. destruct o as [a| |]; simpl; try apply HR.
  by apply Hk.
Qed.

Lemma owners_createProduct id title description price stock image owner :
  owner <> Some "" ->
  Frame.keeps Frame.owners_kept
    (Db.createProduct id title description price stock image owner).
Proof.
  intros Howner. apply keeps_db_call; [apply owners_kept_steady|].
  intros w (Hp & Ht). destruct (existsb _ (products w)); simpl; [done|].
  split; [|done]. simpl. apply Forall_app. split; [done|]. by repeat constructor.
Qed.

Lemma owners_updateProduct id title description price stock image :
  Frame.keeps Frame.owners_kept (Db.updateProduct id title description price stock image).
Proof.
  apply keeps_db_call; [apply owners_kept_steady|].
  intros w (Hp & Ht). split; [|done]. simpl.
  induction Hp as [|q rows Hq _ IH]; simpl; constructor; [|done].
  by destruct (String.eqb (product_id q) id).
Qed.

Lemma owners_deleteProduct id : Frame.keeps Frame.owners_kept (Db.deleteProduct id).
Proof.
  apply keeps_db_call; [apply owners_kept_steady|].
  intros w (Hp & Ht). split; [|done]. simpl.
  induction Hp as [|q rows Hq _ IH]; simpl; [constructor|].
  destruct (negb _); [by constructor|done].
Qed.

Lemma owners_createTransaction (t : Transaction) :
  tx_owner t <> Some "" ->
  Frame.keeps Frame.owners_kept (Db.createTransaction t).
Proof.
  intros Howner. apply keeps_db_call; [apply owners_kept_steady|].
  intros w (Hp & Ht). destruct (negb _); simpl; [done|].
  destruct (existsb _ (transactions w)); simpl; [done|].
  split; [done|]. simpl. apply Forall_app. split; [done|]. by repeat constructor.
Qed.

End Owners.

Ltac owners_step HR :=
  first
    [ apply keeps_ret; exact HR
    | apply keeps_lift; exact HR
    | apply owners_createProduct; eapply resolved_request; eassumption
    | apply owners_createTransaction; simpl; eapply resolved_request; eassumption
    | apply owners_updateProduct
    | apply owners_deleteProduct
    | apply keeps_bind_lift; [exact HR|intros ? ?]
    | apply keeps_bind; [exact HR| |intros ?]
    | apply keeps_try_catch; [exact HR| |intros ?]
    | apply keeps_db_call; [exact HR|]
    | apply keeps_pure; intros ?;
      unfold Server.unlink_if_exists, Server.multer_single; simpl;
      repeat case_match; simpl;
      first [ done | let Hw := fresh in intros Hw; exact Hw ]
    | case_match ].

(** X20.  No route ever stores the empty string as the owner of a product
    or of a transaction: an owner is a name or null.  If that holds of the
    stored records before a request, it holds after it, whatever the
    request and the outcome. *)
Theorem owners_stay_named `{JSRuntime} (r : Server.Route) (w : World) :
  Frame.owners_named w -> Frame.owners_named (snd (Server.run r w)).
Proof.
  revert w. change (Frame.keeps Frame.owners_kept (Server.run r)).
  pose proof owners_kept_steady as HR.
  destruct r; simpl;
    unfold Server.get_products, Server.post_products, Server.post_product,
      Server.post_register, Server.post_login, Server.delete_product,
      Server.get_transactions, Server.post_transactions,
      Db.getAllProducts, Db.getProductById, Db.findUserByUsername,
      Db.getAllTransactions, Db.getNextTransactionId, Db.createUser;
    repeat owners_step HR.
Qed.

Lemma owners_stay_named_witness :
  Frame.owners_named
    (snd (@Server.run Ref.runtime
            (Server.PostProducts Examples.empty_query Samples.pen_form) Examples.shop)).
Proof.
  apply (@owners_stay_named Ref.runtime).
  split; repeat constructor; done.
Defined.

(** X21.  Over HTTP the product listing is scoped by the resolved
    identity and by nothing else: with an identity it is exactly the
    stored products whose owner is that name, in stored order, and without
    one it is every stored product.  The identity handed to the store is
    never the empty string. *)
Theorem http_listing_scoped `{JSRuntime} (req : Request) (w : World)
    (viewer : option string) :
  faults w = [] ->
  Server.username_of_listing req = Ok viewer ->
  viewer <> Some "" /\
  Server.get_products req w =
  (Ok (Respond 200
         (BProducts
            (match viewer with
             | Some name => filter (fun p => product_owner p = Some name) (products w)
             | None => products w
             end))), w).
Proof.
  intros Hfaults Hviewer.
  assert (Hnamed : viewer <> Some "").
  { destruct (resolved_listing req viewer Hviewer) as [->|Htruthy]; [done|].
    intros ->. done. }
  split; [done|].
  unfold Server.get_products, try_catch, bind, lift, Db.getAllProducts.
  rewrite Hviewer. rewrite db_call_through by done. simpl.
  unfold Db.select_products. destruct viewer as [name|]; [|done].
  rewrite truthy_str_nonempty by congruence. by rewrite filter_bool_decide.
Qed.

Lemma http_listing_scoped_witness :
  @Server.get_products Ref.runtime Examples.with_cookie Examples.shop =
  (Ok (Respond 200 (BProducts [Examples.alice_pen])), Examples.shop).
Proof.
  destruct (@http_listing_scoped Ref.runtime Examples.with_cookie Examples.shop
              (Some "alice") eq_refl eq_refl) as [_ Hget].
  rewrite Hget. reflexivity.
Defined.

(** X22.  An [items] that is not an array is never accepted: the answer
    is 400 when it is falsy or has no truthy [length] (null, a number, a
    boolean, the empty string, an object without [length]), and 500 when it
    has one (a non-empty string, an object with a truthy [length]), since
    it has no [reduce] to call.  Nothing is stored and no store call is
    made. *)
Theorem non_array_items `{JSRuntime} (req : Request) (body : TxBody) (w : World)
    (items : json) :
  body_items body = Some items ->
  (forall arr, items <> JArr arr) ->
  Server.post_transactions req body w =
  (Ok (if Server.no_items items
       then Respond 400 (BError "No items in transaction")
       else Respond 500 (BError "Server error")), w) /\
  (forall s, items = JStr s -> s <> "" -> Server.no_items items = false) /\
  (items = JNull \/ items = JStr "" \/ (exists n, items = JNum n) \/
   (exists b, items = JBool b) \/
   (exists fields, items = JObj fields /\ JS.assoc "length" fields = None) ->
   Server.no_items items = true).
Proof.
  intros Hitems Hnot. split; [|split].
  - unfold Server.post_transactions, try_catch, bind, lift. rewrite Hitems.
    destruct (Server.no_items items); [done|].
    pose proof (parse_cookies_no_crash (req_cookie req)) as Hcrash.
    unfold Server.username_of_request.
    destruct (JS.truthy_str _); [|destruct (Server.parseCookies _); try done];
      destruct items; try done; by destruct (Hnot elems).
  - intros s -> Hne. unfold Server.no_items. simpl.
    by destruct (String.eqb_spec s "").
  - intros [->|[->|[[n ->]|[[b ->]|(fields & -> & Hlen)]]]]; unfold Server.no_items; simpl;
      try done.
    + by destruct n.
    + by destruct b.
    + by rewrite Hlen.
Qed.

Lemma non_array_items_witness :
  @Server.post_transactions Ref.runtime Examples.anonymous
    (mkTxBody (Some (JStr "two pens")) None None None None None) Examples.ledger =
    (Ok (Respond 500 (BError "Server error")), Examples.ledger) /\
  @Server.post_transactions Ref.runtime Examples.anonymous
    (mkTxBody (Some (JNum 2)) None None None None None) Examples.ledger =
    (Ok (Respond 400 (BError "No items in transaction")), Examples.ledger).
Proof.
  split.
  - destruct (@non_array_items Ref.runtime Examples.anonymous
                (mkTxBody (Some (JStr "two pens")) None None None None None)
                Examples.ledger (JStr "two pens") eq_refl) as [Hrun _]; [done|].
    exact Hrun.
  - destruct (@non_array_items Ref.runtime Examples.anonymous
                (mkTxBody (Some (JNum 2)) None None None None None)
                Examples.ledger (JNum 2) eq_refl) as [Hrun _]; [done|].
    exact Hrun.
Defined.
